(** * MLS vs CAMA reconciliation: value comparator and reconciliation engine

    A shallow embedding of [streamlit_app_FIXED.py]: the three comparator
    functions ([values_equal], [categorical_match], [calculate_difference])
    and the engine [compare_data_enhanced], followed by the properties the
    specification states about them.

    Modelling conventions.
    - A cell of a data frame is [VNone] (Python [None]), a number or a text.
      Numbers are Python ints or floats; floats are idealised as exact
      rationals (binary64 rounding and the infinities are outside the
      model), and [NaN] is the float that pandas uses for a missing cell.
      Ints are unbounded: the overflow of an integer beyond 64 bits is
      outside the model too.  Results on integers below 2^53 are exact.
    - [pd.isna], [pd.to_numeric], [np.isclose] and [pd.merge] are library
      code; they are modelled here from their documented behaviour on such
      cells.
    - The module globals [NUMERIC_TOLERANCE] and [SKIP_ZERO_VALUES] and the
      messages shown by [st.error] form the state the engine runs in.
    - The two reference-link columns ([Parcel_URL], [Zillow_URL]) are string
      templating over the record; they are not carried in the entries, and
      the [window_id] argument, which only feeds them, is left out. *)

From Stdlib Require Import ZArith QArith Qabs Bool List String Ascii Lia Lqa.
From Stdlib Require Import DecimalString PrimFloat Permutation.
From Stdlib Require DecimalFacts DecimalPos DecimalN.
Import ListNotations.

Open Scope string_scope.

(* ================================================================== *)
(** ** Python strings *)

Module PyStr.

Definition code (c : ascii) : nat := nat_of_ascii c.

(** Characters removed by [str.strip()] (ASCII range). *)
Definition is_space (c : ascii) : bool :=
  let n := code c in
  (((9 <=? n) && (n <=? 13)) || ((28 <=? n) && (n <=? 32)))%nat.

Definition is_upper (c : ascii) : bool :=
  let n := code c in ((65 <=? n) && (n <=? 90))%nat.

Definition lower_char (c : ascii) : ascii :=
  if is_upper c then ascii_of_nat (code c + 32)%nat else c.

(** [s.lower()] *)
Fixpoint lower (s : string) : string :=
  match s with
  | EmptyString => EmptyString
  | String c t => String (lower_char c) (lower t)
  end.

Fixpoint lstrip (s : string) : string :=
  match s with
  | String c t => if is_space c then lstrip t else s
  | EmptyString => EmptyString
  end.

Fixpoint rstrip (s : string) : string :=
  match s with
  | EmptyString => EmptyString
  | String c t =>
      match rstrip t with
      | EmptyString => if is_space c then EmptyString else String c EmptyString
      | t' => String c t'
      end
  end.

(** [s.strip()] *)
Definition strip (s : string) : string := rstrip (lstrip s).

(** [needle in hay] *)
Fixpoint contains (needle hay : string) : bool :=
  prefix needle hay ||
  match hay with
  | EmptyString => false
  | String _ t => contains needle t
  end.

(** [sep.join(parts)] *)
Definition join (sep : string) (parts : list string) : string :=
  String.concat sep parts.

(** [str(z)] for a Python int *)
Definition of_Z (z : Z) : string := NilZero.string_of_int (Z.to_int z).

End PyStr.

(* ================================================================== *)
(** ** Numbers and cells *)

(** A numeric scalar: what [pd.to_numeric] returns. *)
Inductive num : Type :=
| NaN
| NInt (z : Z)
| NFloat (q : Q).

Inductive value : Type :=
| VNone
| VNum (n : num)
| VStr (s : string).

Module Num.

(** The rational a number denotes; [None] for [NaN]. *)
Definition to_Q (n : num) : option Q :=
  match n with
  | NaN => None
  | NInt z => Some (inject_Z z)
  | NFloat q => Some q
  end.

Definition isna (n : num) : bool :=
  match n with NaN => true | _ => false end.

(** [a + b]: int + int stays an int, anything with a float is a float,
    [NaN] is absorbing. *)
Definition add (a b : num) : num :=
  match a, b with
  | NInt x, NInt y => NInt (x + y)%Z
  | _, _ =>
      match to_Q a, to_Q b with
      | Some x, Some y => NFloat (x + y)
      | _, _ => NaN
      end
  end.

(** [a - b] *)
Definition sub (a b : num) : num :=
  match a, b with
  | NInt x, NInt y => NInt (x - y)%Z
  | _, _ =>
      match to_Q a, to_Q b with
      | Some x, Some y => NFloat (x - y)
      | _, _ => NaN
      end
  end.

(** [n == 0] ([NaN == 0] is [False]) *)
Definition is_zero (n : num) : bool :=
  match to_Q n with
  | Some q => Qeq_bool q 0
  | None => false
  end.

End Num.

(* ------------------------------------------------------------------ *)
(** *** Rendering numbers *)

Module Fmt.

(** Round a non-negative rational to the nearest integer, ties to even. *)
Definition round_half_even (q : Q) : Z :=
  let a := Qnum q in
  let b := Zpos (Qden q) in
  let fl := (a / b)%Z in
  let r2 := (2 * (a mod b))%Z in
  match (r2 ?= b)%Z with
  | Lt => fl
  | Gt => (fl + 1)%Z
  | Eq => if Z.even fl then fl else (fl + 1)%Z
  end.

(** Insert the thousands separators of the [,] format option into a
    string of digits, given reversed. *)
Fixpoint group_rev (k : nat) (rev_digits : list ascii) (acc : string) : string :=
  match rev_digits with
  | [] => acc
  | c :: rest =>
      match k with
      | 3%nat => group_rev 1 rest (String c (String "," acc))
      | _ => group_rev (S k) rest (String c acc)
      end
  end.

Definition group_thousands (digits : string) : string :=
  group_rev 0 (rev (list_ascii_of_string digits)) EmptyString.

Definition two_digits (z : Z) : string :=
  if (z <? 10)%Z then "0" ++ PyStr.of_Z z else PyStr.of_Z z.

(** [f"{q:,.2f}"] of the exact value [q].  The code formats the binary64
    number; the two agree when [q] is an integer below 2^53, and may
    differ in the last digit when [q] is a decimal fraction that binary64
    does not hold exactly. *)
Definition format_2f (q : Q) : string :=
  let r := round_half_even (Qabs q * 100) in
  (if Qlt_le_dec q 0 then "-" else "") ++
  group_thousands (PyStr.of_Z (r / 100)%Z) ++ "." ++ two_digits (r mod 100)%Z.

(** [f"{n:,.2f}"] *)
Definition format_num_2f (n : num) : string :=
  match Num.to_Q n with
  | Some q => format_2f q
  | None => "nan"
  end.

(** The digits of the fraction [r / d] ([0 <= r < d]), at most [fuel]. *)
Fixpoint frac_digits (fuel : nat) (r d : Z) : string :=
  match fuel with
  | O => EmptyString
  | S fuel' =>
      if (r =? 0)%Z then EmptyString
      else PyStr.of_Z (10 * r / d)%Z ++ frac_digits fuel' ((10 * r) mod d)%Z d
  end.

(** [repr] of a float in positional notation: ["800.0"], ["0.5"]. *)
Definition float_repr (q : Q) : string :=
  let a := Z.abs (Qnum q) in
  let d := Zpos (Qden q) in
  let fr := frac_digits 17 (a mod d)%Z d in
  (if Qlt_le_dec q 0 then "-" else "") ++
  PyStr.of_Z (a / d)%Z ++ "." ++
  (match fr with EmptyString => "0" | _ => fr end).

(** [str(n)] *)
Definition num_str (n : num) : string :=
  match n with
  | NaN => "nan"
  | NInt z => PyStr.of_Z z
  | NFloat q => float_repr q
  end.

End Fmt.

(** [str(v)] *)
Definition py_str (v : value) : string :=
  match v with
  | VNone => "None"
  | VNum n => Fmt.num_str n
  | VStr s => s
  end.


(* ================================================================== *)
(** ** pandas and numpy on scalars *)

Module Pd.

(** [pd.isna(v)] *)
Definition isna (v : value) : bool :=
  match v with
  | VNone => true
  | VNum n => Num.isna n
  | VStr _ => false
  end.

Definition notna (v : value) : bool := negb (isna v).

(** *** The string parser behind [pd.to_numeric]

    A decimal literal: optional surrounding white space, an optional sign,
    digits with an optional fraction (at least one digit in all) and an
    optional exponent.  A literal without fraction and exponent is an int.
    The empty string converts to [NaN]; the word ["nan"] does not convert.
    The words for the infinities, which do convert, are not modelled: see
    [infinity_words]. *)

Definition is_csp (c : ascii) : bool :=
  let n := nat_of_ascii c in
  (((9 <=? n) && (n <=? 13)) || (n =? 32))%nat.

Fixpoint skip_space (s : string) : string :=
  match s with
  | String c t => if is_csp c then skip_space t else s
  | EmptyString => EmptyString
  end.

Definition is_digit (c : ascii) : bool :=
  let n := nat_of_ascii c in ((48 <=? n) && (n <=? 57))%nat.

Definition digit_val (c : ascii) : Z := (Z.of_nat (nat_of_ascii c) - 48)%Z.

(** Consume the longest run of digits: the value accumulated, the number
    of digits read and the rest of the input. *)
Fixpoint take_digits (acc : Z) (cnt : nat) (s : string) : Z * nat * string :=
  match s with
  | String c t =>
      if is_digit c then take_digits (10 * acc + digit_val c)%Z (S cnt) t
      else (acc, cnt, s)
  | EmptyString => (acc, cnt, s)
  end.

Definition take_sign (s : string) : bool * string :=
  match s with
  | String "-" t => (true, t)
  | String "+" t => (false, t)
  | _ => (false, s)
  end.

(** The exponent part: its value and the rest; when no digit follows the
    ['e'] nothing is consumed. *)
Definition take_exponent (s : string) : option Z * string :=
  match s with
  | String c t =>
      if (Ascii.eqb c "e" || Ascii.eqb c "E")%bool then
        let (eneg, t1) := take_sign t in
        let '(ev, en, r) := take_digits 0 0 t1 in
        match en with
        | O => (None, s)
        | _ => (Some (if eneg then - ev else ev)%Z, r)
        end
      else (None, s)
  | EmptyString => (None, s)
  end.

Definition parse_literal (s : string) : option num :=
  let (neg, s1) := take_sign (skip_space s) in
  let '(ip, n1, s2) := take_digits 0 0 s1 in
  let '(mant, n2, s3, has_dot) :=
    match s2 with
    | String "." t => let '(m, n, r) := take_digits ip 0 t in (m, n, r, true)
    | _ => (ip, O, s2, false)
    end in
  match (n1 + n2)%nat with
  | O => None
  | _ =>
      let (ex, s4) := take_exponent s3 in
      match skip_space s4 with
      | EmptyString =>
          let sg := if neg then (-1)%Z else 1%Z in
          match has_dot, ex with
          | false, None => Some (NInt (sg * ip))
          | _, _ =>
              let e := match ex with Some e => e | None => 0%Z end in
              Some (NFloat (inject_Z (sg * mant) *
                            Qpower (inject_Z 10) (e - Z.of_nat n2)))
          end
      | _ => None
      end
  end.

(** [None] stands for the [ValueError] of an unparseable string. *)
Definition parse_numeric (s : string) : option num :=
  match s with
  | EmptyString => Some NaN
  | _ => parse_literal s
  end.

(** [pd.to_numeric(v, errors='raise')]; [None] when it raises. *)
Definition to_numeric_raise (v : value) : option num :=
  match v with
  | VNone => Some NaN
  | VNum n => Some n
  | VStr s => parse_numeric s
  end.

(** [pd.to_numeric(v, errors='coerce')]: what does not convert becomes
    [NaN]. *)
Definition to_numeric_coerce (v : value) : num :=
  match to_numeric_raise v with
  | Some n => n
  | None => NaN
  end.

Inductive errors : Type := raise | coerce.

(** [pd.to_numeric(v, errors=e)], with [None] for an exception. *)
Definition to_numeric (v : value) (e : errors) : option num :=
  match e with
  | raise => to_numeric_raise v
  | coerce => Some (to_numeric_coerce v)
  end.

End Pd.

Module Np.

Definition rtol : Q := 1 # 1000000000.

(** [abs(x - y) <= atol + rtol * abs(y)] *)
Definition within_tol (atol x y : Q) : bool :=
  Qle_bool (Qabs (x - y)) (atol + rtol * Qabs y).

(** [np.isclose(a, b, equal_nan=False, rtol=1e-9, atol=atol)] *)
Definition isclose (atol : Q) (a b : num) : bool :=
  match Num.to_Q a, Num.to_Q b with
  | Some x, Some y => within_tol atol x y
  | _, _ => false
  end.

End Np.

(** The same test on binary64 floats, to replay a comparison of the
    rational model with the rounding of the machine. *)
Module Binary64.

#[warnings="-inexact-float"]
Definition rtol : float := 1e-9%float.

Definition within_tol (atol x y : float) : bool :=
  PrimFloat.leb (PrimFloat.abs (PrimFloat.sub x y))
                (PrimFloat.add atol (PrimFloat.mul rtol (PrimFloat.abs y))).

End Binary64.


(* ================================================================== *)
(** ** Configuration *)

(** The module globals read by the comparator and the engine. *)
Record Globals : Type := mkGlobals {
  NUMERIC_TOLERANCE : Q;
  SKIP_ZERO_VALUES : bool
}.

(** The values the module is loaded with. *)
Definition default_globals : Globals :=
  {| NUMERIC_TOLERANCE := 1 # 100; SKIP_ZERO_VALUES := true |}.

Module Direct.
Record mapping : Type := mk { mls_col : string; cama_col : string }.
End Direct.

Module Summed.
Record mapping : Type := mk { mls_col : string; cama_cols : list string }.
End Summed.

Module Categorical.
Record mapping : Type := mk {
  mls_col : string;
  cama_col : string;
  mls_check_contains : string;
  cama_expected_if_true : value;
  cama_expected_if_false : value;
  case_sensitive : bool
}.
End Categorical.

Record IdColumns : Type := mkIdColumns { id_mls_col : string; id_cama_col : string }.

Definition UNIQUE_ID_COLUMN : IdColumns :=
  {| id_mls_col := "Parcel Number"; id_cama_col := "PARID" |}.

Definition COLUMNS_TO_COMPARE : list Direct.mapping :=
  [ Direct.mk "Above Grade Finished Area" "SFLA";
    Direct.mk "Bedrooms Total" "RMBED";
    Direct.mk "Bathrooms Full" "FIXBATH";
    Direct.mk "Bathrooms Half" "FIXHALF" ].

Definition COLUMNS_TO_COMPARE_SUM : list Summed.mapping :=
  [ Summed.mk "Below Grade Finished Area"
      ["RECROMAREA"; "FINBSMTAREA"; "UFEATAREA"] ].

Definition COLUMNS_TO_COMPARE_CATEGORICAL : list Categorical.mapping :=
  [ Categorical.mk "Cooling" "HEAT" "Central Air"
      (VNum (NInt 1)) (VNum (NInt 0)) false ].

(* ================================================================== *)
(** ** Value comparator *)

(** [values_equal(val1, val2)].  The numeric branch is taken when both
    conversions succeed; a [ValueError] from either one leads to the
    comparison of the trimmed, lower-cased texts. *)
Definition values_equal (g : Globals) (val1 val2 : value) : bool :=
  match Pd.to_numeric_raise val1, Pd.to_numeric_raise val2 with
  | Some num1, Some num2 =>
      if Num.isna num1 && Num.isna num2 then true
      else if negb (Bool.eqb (Num.isna num1) (Num.isna num2)) then false
      else Np.isclose (NUMERIC_TOLERANCE g) num1 num2
  | _, _ =>
      let str1 :=
        if Pd.notna val1 then PyStr.lower (PyStr.strip (py_str val1)) else "" in
      let str2 :=
        if Pd.notna val2 then PyStr.lower (PyStr.strip (py_str val2)) else "" in
      String.eqb str1 str2
  end.

(** [categorical_match(mls_val, cama_val, mapping)].  The body of the
    [try] is [attempt], with [None] for an exception; the [except] branch
    compares the trimmed, lower-cased texts. *)
Definition categorical_match (g : Globals) (mls_val cama_val : value)
    (mapping : Categorical.mapping) : bool :=
  let check_text := Categorical.mls_check_contains mapping in
  let expected_if_true := Categorical.cama_expected_if_true mapping in
  let expected_if_false := Categorical.cama_expected_if_false mapping in
  let case_sensitive := Categorical.case_sensitive mapping in
  let mls_str := if Pd.notna mls_val then PyStr.strip (py_str mls_val) else "" in
  let mls_str := if negb case_sensitive then PyStr.lower mls_str else mls_str in
  let check_text := if negb case_sensitive then PyStr.lower check_text else check_text in
  let text_found := PyStr.contains check_text mls_str in
  let expected_cama := if text_found then expected_if_true else expected_if_false in
  let attempt : option bool :=
    match Pd.to_numeric cama_val Pd.coerce, Pd.to_numeric expected_cama Pd.coerce with
    | Some cama_numeric, Some expected_numeric =>
        Some (if Num.isna cama_numeric && Num.isna expected_numeric then true
              else if Num.isna cama_numeric || Num.isna expected_numeric then false
              else Np.isclose (NUMERIC_TOLERANCE g) cama_numeric expected_numeric)
    | _, _ => None
    end in
  match attempt with
  | Some result => result
  | None =>
      String.eqb (PyStr.lower (PyStr.strip (py_str cama_val)))
                 (PyStr.lower (PyStr.strip (py_str expected_cama)))
  end.

(** [calculate_difference(val1, val2)], on numbers within range: the
    [OverflowError] that an integer text beyond 64 bits raises, and that
    the function does not catch, is outside the model. *)
Definition calculate_difference (val1 val2 : value) : string :=
  match Pd.to_numeric_raise val1, Pd.to_numeric_raise val2 with
  | Some num1, Some num2 =>
      if Num.isna num1 || Num.isna num2 then "N/A"
      else
        let diff := Num.sub num1 num2 in
        Fmt.format_num_2f diff
  | _, _ => "Text difference"
  end.


(* ================================================================== *)
(** ** Data frames *)

(** A row maps column names to cells, in column order. *)
Definition Row : Type := list (string * value).

Fixpoint lookup (r : Row) (c : string) : option value :=
  match r with
  | [] => None
  | (k, v) :: rest => if String.eqb k c then Some v else lookup rest c
  end.

(** [row.get(col, default)] *)
Definition row_get_or (r : Row) (c : string) (default : value) : value :=
  match lookup r c with
  | Some v => v
  | None => default
  end.

(** [row.get(col)] *)
Definition row_get (r : Row) (c : string) : value := row_get_or r c VNone.

Record DataFrame : Type := mkDataFrame {
  columns : list string;
  rows : list Row
}.

Definition empty_frame : DataFrame := {| columns := []; rows := [] |}.

(** [c in df.columns] *)
Definition mem (c : string) (cols : list string) : bool :=
  existsb (String.eqb c) cols.

(** The [_merge] indicator of an outer merge. *)
Inductive merge_status : Type := left_only | right_only | both.

Record MergedRow : Type := mkMergedRow {
  _merge : merge_status;
  cells : Row
}.

Record MergedFrame : Type := mkMergedFrame {
  merged_columns : list string;
  merged_rows : list MergedRow
}.

Module Merge.

(** [df.rename(columns={old: new})] *)
Definition rename (old new : string) (df : DataFrame) : DataFrame :=
  let ren := fun c : string => if String.eqb c old then new else c in
  {| columns := map ren (columns df);
     rows := map (map (fun kv : string * value => (ren (fst kv), snd kv))) (rows df) |}.

(** Equality of join keys: numbers by value, texts by content, and a
    missing key matches a missing key. *)
Definition key_eqb (a b : value) : bool :=
  match a, b with
  | VStr x, VStr y => String.eqb x y
  | VStr _, _ | _, VStr _ => false
  | _, _ =>
      match Pd.isna a, Pd.isna b with
      | true, true => true
      | false, false =>
          match Num.to_Q (Pd.to_numeric_coerce a), Num.to_Q (Pd.to_numeric_coerce b) with
          | Some x, Some y => Qeq_bool x y
          | _, _ => false
          end
      | _, _ => false
      end
  end.

Definition without (on : string) (cols : list string) : list string :=
  filter (fun c => negb (String.eqb c on)) cols.

(** The cells of one side, completed with [NaN] for its missing columns. *)
Definition fill (cols : list string) (r : Row) : Row :=
  map (fun c => (c, row_get_or r c (VNum NaN))) cols.

Definition blank (cols : list string) : Row :=
  map (fun c => (c, VNum NaN)) cols.

Definition matches (on : string) (l : Row) (right : DataFrame) : list Row :=
  filter (fun r => key_eqb (row_get l on) (row_get r on)) (rows right).

Definition has_match (on : string) (r : Row) (left : DataFrame) : bool :=
  existsb (fun l => key_eqb (row_get l on) (row_get r on)) (rows left).

Definition join_cells (on : string) (left right : DataFrame) (l r : Row) : Row :=
  (fill (columns left) l ++ fill (without on (columns right)) r)%list.

(** [pd.merge(left, right, on=on, how='inner')]: every pair of rows with
    equal keys, in the order of the left frame.  Column names other than
    the key are taken to be distinct between the two frames. *)
Definition inner (on : string) (left right : DataFrame) : DataFrame :=
  {| columns := (columns left ++ without on (columns right))%list;
     rows := flat_map (fun l => map (join_cells on left right l)
                                    (matches on l right)) (rows left) |}.

(** [pd.merge(left, right, on=on, how='outer', indicator=True)]: the
    pairs, the unmatched left rows and the unmatched right rows.  The
    rows are listed here in the order of the left frame, then of the right
    one; pandas orders an outer join by key, so only the rows themselves
    and their number are meant, not their order.  Key columns of
    different types, which pandas refuses to merge, are outside the
    model. *)
Definition outer (on : string) (left right : DataFrame) : MergedFrame :=
  let from_left := fun l : Row =>
    match matches on l right with
    | [] => [ {| _merge := left_only;
                 cells := (fill (columns left) l
                           ++ blank (without on (columns right)))%list |} ]
    | ms => map (fun r => {| _merge := both; cells := join_cells on left right l r |}) ms
    end in
  let from_right := fun r : Row =>
    if has_match on r left then []
    else [ {| _merge := right_only;
              cells := (map (fun c => (c, if String.eqb c on then row_get r on
                                          else VNum NaN)) (columns left)
                        ++ fill (without on (columns right)) r)%list |} ] in
  {| merged_columns :=
       (columns left ++ without on (columns right) ++ ["_merge"])%list;
     merged_rows :=
       (flat_map from_left (rows left) ++ flat_map from_right (rows right))%list |}.

End Merge.

(* ================================================================== *)
(** ** Result entries *)

(** The identifying columns every mismatch and perfect-match entry carries. *)
Record RecordInfo : Type := mkRecordInfo {
  Parcel_ID : value;
  NOPAR : value;
  ADDITIONAL_PARCELS : value;
  Listing_Number : value;
  SALEKEY : value;
  Address : value;
  City : value;
  State : value;
  Zip : value
}.

(** Direct and summed rules report a difference; categorical rules report
    the expected value and the rule in words. *)
Inductive MismatchDetail : Type :=
| Difference (text : string)
| Expected_CAMA_Value (expected : value) (Match_Rule : string).

Record Mismatch : Type := mkMismatch {
  mismatch_info : RecordInfo;
  Field_MLS : string;
  Field_CAMA : string;
  MLS_Value : value;
  CAMA_Value : value;
  mismatch_detail : MismatchDetail
}.

Record PerfectMatch : Type := mkPerfectMatch {
  perfect_info : RecordInfo;
  Fields_Compared : nat;
  Fields_List : string
}.

Record MissingInCama : Type := mkMissingInCama {
  cama_missing_Parcel_ID : value;
  cama_missing_Listing_Number : value;
  Closed_Date : value
}.

Record MissingInMls : Type := mkMissingInMls {
  mls_missing_Parcel_ID : value
}.

(* ================================================================== *)
(** ** Reconciliation engine: one joined record *)

(** The two lists a [both] row builds up while its rules run. *)
Record RecordState : Type := mkRecordState {
  record_mismatches : list Mismatch;
  fields_compared : list string
}.

Definition new_record : RecordState :=
  {| record_mismatches := []; fields_compared := [] |}.

(** [fields_compared.append(col)] *)
Definition compared (col : string) (st : RecordState) : RecordState :=
  {| record_mismatches := record_mismatches st;
     fields_compared := (fields_compared st ++ [col])%list |}.

(** [record_mismatches.append(entry)] *)
Definition mismatched (entry : Mismatch) (st : RecordState) : RecordState :=
  {| record_mismatches := (record_mismatches st ++ [entry])%list;
     fields_compared := fields_compared st |}.

(** [pd.isna(v) or (isinstance(v, str) and v.strip() == '')] *)
Definition is_blank (v : value) : bool :=
  Pd.isna v ||
  match v with
  | VStr s => String.eqb (PyStr.strip s) ""
  | _ => false
  end.

(** [pd.notna(n) and n == 0] *)
Definition numeric_zero (n : num) : bool :=
  negb (Num.isna n) && Num.is_zero n.

Section Record_rules.

Variable g : Globals.
(** [merged_df.columns] *)
Variable merged_cols : list string.
Variable row : Row.
Variable info : RecordInfo.

(** The body of the loop over [cols_to_compare_mapping].  The conversions
    of the zero guard use [errors='coerce'] and do not raise, so its
    [except: pass] is not entered. *)
Definition direct_rule (st : RecordState) (mapping : Direct.mapping) : RecordState :=
  let mls_col := Direct.mls_col mapping in
  let cama_col := Direct.cama_col mapping in
  if negb (mem mls_col merged_cols) || negb (mem cama_col merged_cols) then st
  else
    let mls_val := row_get row mls_col in
    let cama_val := row_get row cama_col in
    let mls_is_blank := is_blank mls_val in
    let cama_is_blank := is_blank cama_val in
    if mls_is_blank || cama_is_blank then st
    else
      let st := compared mls_col st in
      if SKIP_ZERO_VALUES g
         && (numeric_zero (Pd.to_numeric_coerce mls_val)
             && numeric_zero (Pd.to_numeric_coerce cama_val))
      then st
      else if negb (values_equal g mls_val cama_val) then
        mismatched
          {| mismatch_info := info;
             Field_MLS := mls_col;
             Field_CAMA := cama_col;
             MLS_Value := mls_val;
             CAMA_Value := cama_val;
             mismatch_detail := Difference (calculate_difference mls_val cama_val) |}
          st
      else st.

(** The inner loop of a summed rule: the running [cama_sum] and the flag
    [all_cama_blank]. *)
Definition sum_step (acc : num * bool) (col : string) : num * bool :=
  let (cama_sum, all_cama_blank) := acc in
  let val := row_get row col in
  if Pd.notna val then (Num.add cama_sum (Pd.to_numeric_coerce val), false)
  else (cama_sum, all_cama_blank).

Definition sum_columns (cama_cols : list string) : num * bool :=
  fold_left sum_step cama_cols (NInt 0, true).

(** The body of the loop over [cols_to_compare_sum]. *)
Definition summed_rule (st : RecordState) (mapping : Summed.mapping) : RecordState :=
  let mls_col := Summed.mls_col mapping in
  let cama_cols := Summed.cama_cols mapping in
  if negb (mem mls_col merged_cols) then st
  else
    let missing_cols := filter (fun col => negb (mem col merged_cols)) cama_cols in
    match missing_cols with
    | _ :: _ => st
    | [] =>
        let mls_val := row_get row mls_col in
        let mls_is_blank := is_blank mls_val in
        if mls_is_blank then st
        else
          let (cama_sum, all_cama_blank) := sum_columns cama_cols in
          if all_cama_blank then st
          else
            let st := compared mls_col st in
            if SKIP_ZERO_VALUES g
               && (numeric_zero (Pd.to_numeric_coerce mls_val)
                   && Num.is_zero cama_sum)
            then st
            else if negb (values_equal g mls_val (VNum cama_sum)) then
              mismatched
                {| mismatch_info := info;
                   Field_MLS := mls_col;
                   Field_CAMA := "SUM(" ++ PyStr.join ", " cama_cols ++ ")";
                   MLS_Value := mls_val;
                   CAMA_Value := VNum cama_sum;
                   mismatch_detail :=
                     Difference (calculate_difference mls_val (VNum cama_sum)) |}
                st
            else st
    end.

(** The body of the loop over [cols_to_compare_categorical]. *)
Definition categorical_rule (st : RecordState) (mapping : Categorical.mapping)
    : RecordState :=
  let mls_col := Categorical.mls_col mapping in
  let cama_col := Categorical.cama_col mapping in
  if negb (mem mls_col merged_cols) || negb (mem cama_col merged_cols) then st
  else
    let mls_val := row_get row mls_col in
    let cama_val := row_get row cama_col in
    let mls_is_blank := is_blank mls_val in
    let cama_is_blank := is_blank cama_val in
    if mls_is_blank || cama_is_blank then st
    else
      let st := compared mls_col st in
      let is_match := categorical_match g mls_val cama_val mapping in
      let check_text := Categorical.mls_check_contains mapping in
      let case_sensitive := Categorical.case_sensitive mapping in
      let mls_str := if Pd.notna mls_val then PyStr.strip (py_str mls_val) else "" in
      let mls_str := if negb case_sensitive then PyStr.lower mls_str else mls_str in
      let check_text_lower :=
        if negb case_sensitive then PyStr.lower check_text else check_text in
      let text_found := PyStr.contains check_text_lower mls_str in
      let expected_cama :=
        if text_found then Categorical.cama_expected_if_true mapping
        else Categorical.cama_expected_if_false mapping in
      if negb is_match then
        mismatched
          {| mismatch_info := info;
             Field_MLS := mls_col;
             Field_CAMA := cama_col;
             MLS_Value := mls_val;
             CAMA_Value := cama_val;
             mismatch_detail :=
               Expected_CAMA_Value expected_cama
                 ("If '" ++ check_text ++ "' in " ++ mls_col ++ ", then " ++ cama_col
                  ++ " should be " ++ py_str (Categorical.cama_expected_if_true mapping)
                  ++ ", else " ++ py_str (Categorical.cama_expected_if_false mapping)) |}
          st
      else st.

(** The three loops of a [both] row, in the order of the source.  A rule
    list that is [None] or empty is not entered. *)
Definition run_rules (cols_to_compare_mapping : list Direct.mapping)
    (cols_to_compare_sum : option (list Summed.mapping))
    (cols_to_compare_categorical : option (list Categorical.mapping))
    : RecordState :=
  let st := fold_left direct_rule cols_to_compare_mapping new_record in
  let st :=
    match cols_to_compare_sum with
    | Some ((_ :: _) as l) => fold_left summed_rule l st
    | _ => st
    end in
  match cols_to_compare_categorical with
  | Some ((_ :: _) as l) => fold_left categorical_rule l st
  | _ => st
  end.

(** The perfect-match entries of the record: one when no mismatch was
    recorded and some field was compared, none otherwise. *)
Definition perfect_entries (st : RecordState) : list PerfectMatch :=
  match record_mismatches st, fields_compared st with
  | [], _ :: _ =>
      [ {| perfect_info := info;
           Fields_Compared := List.length (fields_compared st);
           Fields_List := PyStr.join ", " (fields_compared st) |} ]
  | _, _ => []
  end.

End Record_rules.

(* ================================================================== *)
(** ** Reconciliation engine: the run *)

(** The four lists the loop over the merged rows appends to. *)
Record Collections : Type := mkCollections {
  missing_in_cama : list MissingInCama;
  missing_in_mls : list MissingInMls;
  value_mismatches : list Mismatch;
  perfect_matches : list PerfectMatch
}.

Definition no_collections : Collections :=
  {| missing_in_cama := []; missing_in_mls := [];
     value_mismatches := []; perfect_matches := [] |}.

Definition ADDRESS_COLUMNS_address : string := "Address".
Definition ADDRESS_COLUMNS_city : string := "City".
Definition ADDRESS_COLUMNS_state : string := "State or Province".
Definition ADDRESS_COLUMNS_zip : string := "Postal Code".

Section Run.

Variable g : Globals.
Variable merged_cols : list string.
Variable cama_id_col_name : string.
Variable cols_to_compare_mapping : list Direct.mapping.
Variable cols_to_compare_sum : option (list Summed.mapping).
Variable cols_to_compare_categorical : option (list Categorical.mapping).

Definition record_info (row : Row) : RecordInfo :=
  {| Parcel_ID := row_get row cama_id_col_name;
     NOPAR := row_get_or row "NOPAR" (VStr "");
     ADDITIONAL_PARCELS := row_get_or row "ADDITIONAL_PARCELS" (VStr "");
     Listing_Number := row_get_or row "Listing #" (VStr "");
     SALEKEY := row_get_or row "SALEKEY" (VStr "");
     Address := row_get_or row ADDRESS_COLUMNS_address (VStr "");
     City := row_get_or row ADDRESS_COLUMNS_city (VStr "");
     State := row_get_or row ADDRESS_COLUMNS_state (VStr "");
     Zip := row_get_or row ADDRESS_COLUMNS_zip (VStr "") |}.

(** The state of a [both] row after its rules have run. *)
Definition compare_record (row : Row) : RecordState :=
  run_rules g merged_cols row (record_info row)
    cols_to_compare_mapping cols_to_compare_sum cols_to_compare_categorical.

(** The body of the loop over [merged_df.iterrows()]. *)
Definition process_row (acc : Collections) (mrow : MergedRow) : Collections :=
  let row := cells mrow in
  let record_id := row_get row cama_id_col_name in
  match _merge mrow with
  | left_only =>
      {| missing_in_cama :=
           (missing_in_cama acc ++
            [ {| cama_missing_Parcel_ID := record_id;
                 cama_missing_Listing_Number := row_get_or row "Listing #" (VStr "");
                 Closed_Date := row_get_or row "Closed Date" (VStr "") |} ])%list;
         missing_in_mls := missing_in_mls acc;
         value_mismatches := value_mismatches acc;
         perfect_matches := perfect_matches acc |}
  | right_only =>
      {| missing_in_cama := missing_in_cama acc;
         missing_in_mls :=
           (missing_in_mls acc ++ [ {| mls_missing_Parcel_ID := record_id |} ])%list;
         value_mismatches := value_mismatches acc;
         perfect_matches := perfect_matches acc |}
  | both =>
      let st := compare_record row in
      {| missing_in_cama := missing_in_cama acc;
         missing_in_mls := missing_in_mls acc;
         value_mismatches := (value_mismatches acc ++ record_mismatches st)%list;
         perfect_matches :=
           (perfect_matches acc ++ perfect_entries (record_info row) st)%list |}
  end.

Definition process_rows (mrows : list MergedRow) : Collections :=
  fold_left process_row mrows no_collections.

End Run.

(** The five collections [compare_data_enhanced] returns. *)
Record Results : Type := mkResults {
  res_missing_in_cama : list MissingInCama;
  res_missing_in_mls : list MissingInMls;
  res_value_mismatches : list Mismatch;
  res_matched_df : DataFrame;
  res_perfect_matches : list PerfectMatch
}.

Definition empty_results : Results :=
  {| res_missing_in_cama := []; res_missing_in_mls := [];
     res_value_mismatches := []; res_matched_df := empty_frame;
     res_perfect_matches := [] |}.

(** *** The state a run executes in *)

Record AppState : Type := mkAppState {
  globals : Globals;
  (** the messages [st.error] has put on the page *)
  shown_errors : list string
}.

Definition App (A : Type) : Type := AppState -> A * AppState.

Definition ret {A : Type} (a : A) : App A := fun s => (a, s).

Definition bind {A B : Type} (m : App A) (k : A -> App B) : App B :=
  fun s => let (a, s') := m s in k a s'.

Notation "x <- m ;; k" := (bind m (fun x => k))
  (at level 61, m at next level, right associativity).
Notation "m ;;; k" := (bind m (fun _ => k))
  (at level 61, right associativity).

Definition read_globals : App Globals := fun s => (globals s, s).

Definition st_error (msg : string) : App unit :=
  fun s => (tt, {| globals := globals s;
                   shown_errors := (shown_errors s ++ [msg])%list |}).

(** [compare_data_enhanced(df_mls, df_cama, unique_id_col,
    cols_to_compare_mapping, cols_to_compare_sum,
    cols_to_compare_categorical)] *)
Definition compare_data_enhanced (df_mls df_cama : option DataFrame)
    (unique_id_col : IdColumns)
    (cols_to_compare_mapping : list Direct.mapping)
    (cols_to_compare_sum : option (list Summed.mapping))
    (cols_to_compare_categorical : option (list Categorical.mapping))
    : App Results :=
  match df_mls, df_cama with
  | Some df_mls, Some df_cama =>
      let mls_id_col_name := id_mls_col unique_id_col in
      let cama_id_col_name := id_cama_col unique_id_col in
      if negb (mem mls_id_col_name (columns df_mls)) then
        st_error ("Column '" ++ mls_id_col_name ++ "' not found in MLS data") ;;;
        ret empty_results
      else if negb (mem cama_id_col_name (columns df_cama)) then
        st_error ("Column '" ++ cama_id_col_name ++ "' not found in CAMA data") ;;;
        ret empty_results
      else
        let df_mls_renamed := Merge.rename mls_id_col_name cama_id_col_name df_mls in
        let matched_df := Merge.inner cama_id_col_name df_mls_renamed df_cama in
        let merged_df := Merge.outer cama_id_col_name df_mls_renamed df_cama in
        g <- read_globals ;;
        let acc :=
          process_rows g (merged_columns merged_df) cama_id_col_name
            cols_to_compare_mapping cols_to_compare_sum cols_to_compare_categorical
            (merged_rows merged_df) in
        ret {| res_missing_in_cama := missing_in_cama acc;
               res_missing_in_mls := missing_in_mls acc;
               res_value_mismatches := value_mismatches acc;
               res_matched_df := matched_df;
               res_perfect_matches := perfect_matches acc |}
  | _, _ => ret empty_results
  end.

(** Running the engine from a state: the five collections and the state
    the run leaves behind. *)
Definition reconcile (s : AppState) (df_mls df_cama : option DataFrame)
    (unique_id_col : IdColumns)
    (cols_to_compare_mapping : list Direct.mapping)
    (cols_to_compare_sum : option (list Summed.mapping))
    (cols_to_compare_categorical : option (list Categorical.mapping))
    : Results * AppState :=
  compare_data_enhanced df_mls df_cama unique_id_col cols_to_compare_mapping
    cols_to_compare_sum cols_to_compare_categorical s.

(* ================================================================== *)
(** ** The guards of the rule loops

    Each loop body leaves through a [continue] when a column is missing,
    when a value is blank, or (direct and summed rules) when both sides are
    zero.  The guards are named here so that the properties below can speak
    about them. *)

Section Guards.

Variable g : Globals.
Variable merged_cols : list string.
Variable row : Row.
Variable info : RecordInfo.

Definition direct_columns_missing (m : Direct.mapping) : bool :=
  negb (mem (Direct.mls_col m) merged_cols)
  || negb (mem (Direct.cama_col m) merged_cols).

Definition direct_blank_skip (m : Direct.mapping) : bool :=
  is_blank (row_get row (Direct.mls_col m))
  || is_blank (row_get row (Direct.cama_col m)).

Definition direct_zero_skip (m : Direct.mapping) : bool :=
  SKIP_ZERO_VALUES g
  && (numeric_zero (Pd.to_numeric_coerce (row_get row (Direct.mls_col m)))
      && numeric_zero (Pd.to_numeric_coerce (row_get row (Direct.cama_col m)))).

Definition direct_entry (m : Direct.mapping) : Mismatch :=
  let mls_val := row_get row (Direct.mls_col m) in
  let cama_val := row_get row (Direct.cama_col m) in
  {| mismatch_info := info;
     Field_MLS := Direct.mls_col m;
     Field_CAMA := Direct.cama_col m;
     MLS_Value := mls_val;
     CAMA_Value := cama_val;
     mismatch_detail := Difference (calculate_difference mls_val cama_val) |}.

Definition summed_columns_missing (m : Summed.mapping) : bool :=
  negb (mem (Summed.mls_col m) merged_cols)
  || match filter (fun col => negb (mem col merged_cols)) (Summed.cama_cols m) with
     | [] => false
     | _ :: _ => true
     end.

(** [cama_sum] after the inner loop. *)
Definition cama_sum (m : Summed.mapping) : num :=
  fst (sum_columns row (Summed.cama_cols m)).

(** [all_cama_blank] after the inner loop. *)
Definition all_cama_blank (m : Summed.mapping) : bool :=
  snd (sum_columns row (Summed.cama_cols m)).

Definition summed_blank_skip (m : Summed.mapping) : bool :=
  is_blank (row_get row (Summed.mls_col m)) || all_cama_blank m.

Definition summed_zero_skip (m : Summed.mapping) : bool :=
  SKIP_ZERO_VALUES g
  && (numeric_zero (Pd.to_numeric_coerce (row_get row (Summed.mls_col m)))
      && Num.is_zero (cama_sum m)).

Definition summed_entry (m : Summed.mapping) : Mismatch :=
  let mls_val := row_get row (Summed.mls_col m) in
  {| mismatch_info := info;
     Field_MLS := Summed.mls_col m;
     Field_CAMA := "SUM(" ++ PyStr.join ", " (Summed.cama_cols m) ++ ")";
     MLS_Value := mls_val;
     CAMA_Value := VNum (cama_sum m);
     mismatch_detail :=
       Difference (calculate_difference mls_val (VNum (cama_sum m))) |}.

Definition categorical_columns_missing (m : Categorical.mapping) : bool :=
  negb (mem (Categorical.mls_col m) merged_cols)
  || negb (mem (Categorical.cama_col m) merged_cols).

Definition categorical_blank_skip (m : Categorical.mapping) : bool :=
  is_blank (row_get row (Categorical.mls_col m))
  || is_blank (row_get row (Categorical.cama_col m)).

(** A rule list argument as the list the loop runs over. *)
Definition rules_of {A : Type} (l : option (list A)) : list A :=
  match l with
  | Some l => l
  | None => []
  end.

(** The rules that reach [fields_compared.append]: columns present and no
    blank value. *)
Definition direct_tracked (m : Direct.mapping) : bool :=
  negb (direct_columns_missing m) && negb (direct_blank_skip m).

Definition summed_tracked (m : Summed.mapping) : bool :=
  negb (summed_columns_missing m) && negb (summed_blank_skip m).

Definition categorical_tracked (m : Categorical.mapping) : bool :=
  negb (categorical_columns_missing m) && negb (categorical_blank_skip m).

Definition tracked_fields (direct : list Direct.mapping)
    (summed : option (list Summed.mapping))
    (categorical : option (list Categorical.mapping)) : list string :=
  (map Direct.mls_col (filter direct_tracked direct)
   ++ map Summed.mls_col (filter summed_tracked (rules_of summed))
   ++ map Categorical.mls_col (filter categorical_tracked (rules_of categorical)))%list.

(** The specification's reading of "evaluated": the rules that were not
    skipped at all, neither for a blank value nor for two zeros. *)
Definition direct_evaluated (m : Direct.mapping) : bool :=
  direct_tracked m && negb (direct_zero_skip m).

Definition summed_evaluated (m : Summed.mapping) : bool :=
  summed_tracked m && negb (summed_zero_skip m).

Definition evaluated_fields_spec (direct : list Direct.mapping)
    (summed : option (list Summed.mapping))
    (categorical : option (list Categorical.mapping)) : list string :=
  (map Direct.mls_col (filter direct_evaluated direct)
   ++ map Summed.mls_col (filter summed_evaluated (rules_of summed))
   ++ map Categorical.mls_col (filter categorical_tracked (rules_of categorical)))%list.

(** Every configured rule is skipped. *)
Definition all_rules_skipped (direct : list Direct.mapping)
    (summed : option (list Summed.mapping))
    (categorical : option (list Categorical.mapping)) : bool :=
  forallb (fun m => negb (direct_evaluated m)) direct
  && forallb (fun m => negb (summed_evaluated m)) (rules_of summed)
  && forallb (fun m => negb (categorical_tracked m)) (rules_of categorical).

(** Every configured rule is skipped before it is tracked (missing column
    or blank value). *)
Definition all_rules_blank_skipped (direct : list Direct.mapping)
    (summed : option (list Summed.mapping))
    (categorical : option (list Categorical.mapping)) : bool :=
  forallb (fun m => negb (direct_tracked m)) direct
  && forallb (fun m => negb (summed_tracked m)) (rules_of summed)
  && forallb (fun m => negb (categorical_tracked m)) (rules_of categorical).

End Guards.

(** A blank value in the words of the specification: null or absent, or a
    text that is empty once trimmed. *)
Definition Blank (v : value) : Prop :=
  v = VNone \/ v = VNum NaN \/ exists s, v = VStr s /\ PyStr.strip s = "".

(** The comparison the specification describes for a non-numeric operand of
    a categorical rule: equality of the trimmed texts, ignoring case. *)
Definition text_equal_spec (cama_val expected : value) : bool :=
  String.eqb (PyStr.lower (PyStr.strip (py_str cama_val)))
             (PyStr.lower (PyStr.strip (py_str expected))).

(** The value a categorical rule expects on the CAMA side. *)
Definition expected_cama (mls_val : value) (mapping : Categorical.mapping) : value :=
  let mls_str := if Pd.notna mls_val then PyStr.strip (py_str mls_val) else "" in
  let mls_str :=
    if negb (Categorical.case_sensitive mapping) then PyStr.lower mls_str else mls_str in
  let check_text :=
    if negb (Categorical.case_sensitive mapping)
    then PyStr.lower (Categorical.mls_check_contains mapping)
    else Categorical.mls_check_contains mapping in
  if PyStr.contains check_text mls_str
  then Categorical.cama_expected_if_true mapping
  else Categorical.cama_expected_if_false mapping.

(** The arithmetic sum of a list of rationals. *)
Definition arith_sum (l : list Q) : Q := fold_right Qplus 0 l.

(** The components of a summed rule that are present in the row. *)
Definition present_components (row : Row) (cama_cols : list string) : list string :=
  filter (fun col => Pd.notna (row_get row col)) cama_cols.

(** The rational a value converts to under [errors='raise']; [None] for a
    null and for a text that does not parse. *)
Definition numeric_value (v : value) : option Q :=
  match Pd.to_numeric_raise v with
  | Some n => Num.to_Q n
  | None => None
  end.

(** [np.isclose] measures the relative part of the tolerance on its second
    argument, so the two orders of a pair of numbers have two thresholds.
    The distance of [x] and [y] is outside the band between them when it is
    within both or beyond both. *)
Definition outside_tolerance_band (atol x y : Q) : Prop :=
  (Qabs (x - y) <= atol + Np.rtol * Qabs x /\ Qabs (x - y) <= atol + Np.rtol * Qabs y)
  \/ (atol + Np.rtol * Qabs x < Qabs (x - y) /\ atol + Np.rtol * Qabs y < Qabs (x - y)).

(* ================================================================== *)
(** ** Fixtures *)

Module Demo.

Definition int (z : Z) : value := VNum (NInt z).

(** The columns of a merged frame that carries every configured field. *)
Definition merged_cols : list string :=
  [ "PARID"; "Listing #"; "Above Grade Finished Area"; "Bedrooms Total";
    "Bathrooms Full"; "Bathrooms Half"; "Below Grade Finished Area"; "Cooling";
    "SFLA"; "RMBED"; "FIXBATH"; "FIXHALF";
    "RECROMAREA"; "FINBSMTAREA"; "UFEATAREA"; "HEAT"; "_merge" ].

Definition bedrooms : Direct.mapping := Direct.mk "Bedrooms Total" "RMBED".

Definition below_grade : Summed.mapping :=
  Summed.mk "Below Grade Finished Area" ["RECROMAREA"; "FINBSMTAREA"; "UFEATAREA"].

Definition cooling : Categorical.mapping :=
  Categorical.mk "Cooling" "HEAT" "Central Air" (int 1) (int 0) false.

(** A joined record with the given bedroom counts. *)
Definition bedrooms_row (mls cama : value) : Row :=
  [ ("PARID", VStr "B"); ("Bedrooms Total", mls); ("RMBED", cama) ].

(** A joined record with the given below-grade areas. *)
Definition below_grade_row (mls rec fin ufeat : value) : Row :=
  [ ("PARID", VStr "B"); ("Below Grade Finished Area", mls);
    ("RECROMAREA", rec); ("FINBSMTAREA", fin); ("UFEATAREA", ufeat) ].

(** A joined record with the given cooling text and heat code. *)
Definition cooling_row (mls cama : value) : Row :=
  [ ("PARID", VStr "B"); ("Cooling", mls); ("HEAT", cama) ].

Definition info (row : Row) : RecordInfo := record_info "PARID" row.

(** A categorical rule whose expected values are texts. *)
Definition cooling_text : Categorical.mapping :=
  Categorical.mk "Cooling" "HEAT" "Central Air" (VStr "No") (VStr "None") false.

(** Two MLS listings (A, B) and two CAMA parcels (B, C). *)
Definition df_mls : DataFrame :=
  {| columns := ["Parcel Number"; "Listing #"; "Bedrooms Total"];
     rows := [ [("Parcel Number", VStr "A"); ("Listing #", int 1); ("Bedrooms Total", int 3)];
               [("Parcel Number", VStr "B"); ("Listing #", int 2); ("Bedrooms Total", int 4)] ] |}.

Definition df_cama : DataFrame :=
  {| columns := ["PARID"; "RMBED"];
     rows := [ [("PARID", VStr "B"); ("RMBED", int 4)];
               [("PARID", VStr "C"); ("RMBED", int 2)] ] |}.

Definition state0 : AppState := {| globals := default_globals; shown_errors := [] |}.

(** 0.010000000005: just above the default tolerance. *)
Definition just_over : Q := 10000000005 # 1000000000000.

End Demo.

(* ================================================================== *)
(** ** Reference links

    [format_zillow_url], on ASCII text: [\s] is the white space of
    [str.strip()], [\w] is a letter, a digit or an underscore. *)

Module Re.

Definition is_word (c : ascii) : bool :=
  let n := nat_of_ascii c in
  (((48 <=? n) && (n <=? 57)) || ((65 <=? n) && (n <=? 90))
   || ((97 <=? n) && (n <=? 122)) || (n =? 95))%nat.

Definition is_hyphen (c : ascii) : bool := Ascii.eqb c "-".

(** [[\w-]*$]: only word characters and hyphens up to the end. *)
Fixpoint word_tail (s : string) : bool :=
  match s with
  | EmptyString => true
  | String c t => (is_word c || is_hyphen c) && word_tail t
  end.

(** The rest of [s] after the word [w] (given in lower case), matched
    without regard to case. *)
Fixpoint after_word (w s : string) : option string :=
  match w, s with
  | EmptyString, _ => Some s
  | String a w', String b s' =>
      if Ascii.eqb (PyStr.lower_char b) a then after_word w' s' else None
  | String _ _, EmptyString => None
  end.

Definition designators : list string := ["apt"; "unit"; "#"; "suite"].

(** The text has ASCII characters only. *)
Definition ascii_text (s : string) : bool :=
  forallb (fun c => (nat_of_ascii c <? 128)%nat) (list_ascii_of_string s).

(** [s] as a whole matches [\s+(Apt|Unit|#|Suite)\s*[\w-]*$].  The first
    white space run must end where the designator starts, and the second
    where the unit starts, since neither starts with white space. *)
Definition unit_suffix (s : string) : bool :=
  match s with
  | String c t =>
      PyStr.is_space c &&
      existsb (fun w =>
                 match after_word w (PyStr.lstrip t) with
                 | Some rest => word_tail (PyStr.lstrip rest)
                 | None => false
                 end) designators
  | EmptyString => false
  end.

(** [re.sub(r'\s+(Apt|Unit|#|Suite)\s*[\w-]*$', '', s, flags=re.IGNORECASE)]
    for a text without final newline: the leftmost match runs to the end
    and is cut off. *)
Fixpoint sub_unit (s : string) : string :=
  if unit_suffix s then EmptyString
  else match s with
       | String c t => String c (sub_unit t)
       | EmptyString => EmptyString
       end.

(** [re.sub(r'[^\w\s-]', '', s)] *)
Fixpoint sub_punctuation (s : string) : string :=
  match s with
  | EmptyString => EmptyString
  | String c t =>
      if is_word c || PyStr.is_space c || is_hyphen c
      then String c (sub_punctuation t)
      else sub_punctuation t
  end.

(** [re.sub(r'\s+', '-', s)]; [in_run] tells that the previous character
    was white space, already replaced. *)
Fixpoint sub_spaces_from (in_run : bool) (s : string) : string :=
  match s with
  | EmptyString => EmptyString
  | String c t =>
      if PyStr.is_space c
      then if in_run then sub_spaces_from true t
           else String "-" (sub_spaces_from true t)
      else String c (sub_spaces_from false t)
  end.

Definition sub_spaces (s : string) : string := sub_spaces_from false s.

End Re.

(** [s.split('-')[0]] *)
Fixpoint before_hyphen (s : string) : string :=
  match s with
  | EmptyString => EmptyString
  | String c t => if Re.is_hyphen c then EmptyString else String c (before_hyphen t)
  end.

Definition ZILLOW_URL_BASE : string := "https://www.zillow.com/homes/".

(** [format_zillow_url(address, city, state, zip_code)]; [None] is the
    [None] of Python. *)
Definition format_zillow_url (address city state zip_code : value) : option string :=
  if Pd.isna address || Pd.isna city || Pd.isna zip_code then None
  else
    let address_clean := PyStr.strip (py_str address) in
    let city_clean := PyStr.strip (py_str city) in
    let zip_clean := before_hyphen (PyStr.strip (py_str zip_code)) in
    let address_clean := Re.sub_unit address_clean in
    let address_formatted := Re.sub_punctuation address_clean in
    let address_formatted := Re.sub_spaces address_formatted in
    let city_formatted := Re.sub_punctuation city_clean in
    let city_formatted := Re.sub_spaces city_formatted in
    let url_slug :=
      address_formatted ++ "-" ++ city_formatted ++ "-OH-" ++ zip_clean ++ "_rb" in
    Some (ZILLOW_URL_BASE ++ url_slug ++ "/").

(* ================================================================== *)
(** ** Statistics and export *)

(** The overall match rate of the results page:
    [(matched_parcels / total_cama_parcels * 100) if total_cama_parcels > 0 else 0]. *)
Definition match_rate (matched_parcels total_cama_parcels : nat) : Q :=
  match total_cama_parcels with
  | O => 0
  | S _ =>
      inject_Z (Z.of_nat matched_parcels) / inject_Z (Z.of_nat total_cama_parcels) * 100
  end.

Definition overall_match_rate (df_cama matched_df : DataFrame) : Q :=
  match_rate (List.length (rows matched_df)) (List.length (rows df_cama)).

Module Sheet.

(** [l.index(x)]; [None] stands for the [ValueError]. *)
Fixpoint index (x : string) (l : list string) : option nat :=
  match l with
  | [] => None
  | y :: rest =>
      if String.eqb y x then Some O
      else match index x rest with
           | Some i => Some (S i)
           | None => None
           end
  end.

(** [ws.delete_cols(idx)] on the header row: the column at the 1-based
    position [idx] goes, the ones to its right move left. *)
Fixpoint delete_cols (idx : nat) (header : list string) : list string :=
  match idx, header with
  | _, [] => []
  | O, _ => header
  | S O, _ :: rest => rest
  | S idx', c :: rest => c :: delete_cols idx' rest
  end.

(** The header row of the sheet [create_excel_with_hyperlinks] saves:
    written from [df.columns], then relieved of the two link columns. *)
Definition exported_header (df_columns : list string) : list string :=
  let ws := df_columns in
  let ws :=
    if mem "Parcel_URL" df_columns then
      match index "Parcel_URL" df_columns with
      | Some i => delete_cols (i + 1) ws
      | None => ws
      end
    else ws in
  if mem "Zillow_URL" df_columns then
    let remaining_cols :=
      filter (fun col => negb (mem col ["Parcel_URL"])) df_columns in
    if mem "Zillow_URL" remaining_cols then
      match index "Zillow_URL" remaining_cols with
      | Some i => delete_cols (i + 1) ws
      | None => ws
      end
    else ws
  else ws.

End Sheet.

Module Zip.

(** What an archive member is made from. *)
Inductive member : Type :=
| MissingCamaSheet (entries : list MissingInCama)
| MissingMlsSheet (entries : list MissingInMls)
| MismatchSheet (entries : list Mismatch)
| PerfectSheet (entries : list PerfectMatch)
| CityCsv (table : DataFrame).

(** [df.empty] of a frame built from a list of records. *)
Definition empty {A : Type} (l : list A) : bool :=
  match l with [] => true | _ => false end.

(** [df.empty]: no rows or no columns. *)
Definition frame_empty (df : DataFrame) : bool :=
  empty (rows df) || empty (columns df).

(** [create_zip_with_all_reports]: the members written to the archive, in
    order, each under its file name; [timestamp] is the date of the day. *)
Definition create_zip_with_all_reports (timestamp : string)
    (df_missing_cama : list MissingInCama) (df_missing_mls : list MissingInMls)
    (df_value_mismatches : list Mismatch) (df_perfect_matches : list PerfectMatch)
    (city_comparison_df : option DataFrame) : list (string * member) :=
  ((if negb (empty df_missing_cama)
    then [(("missing_in_CAMA_" ++ timestamp ++ ".xlsx")%string, MissingCamaSheet df_missing_cama)]
    else [])
   ++ (if negb (empty df_missing_mls)
       then [(("missing_in_MLS_" ++ timestamp ++ ".xlsx")%string, MissingMlsSheet df_missing_mls)]
       else [])
   ++ (if negb (empty df_value_mismatches)
       then [(("value_mismatches_" ++ timestamp ++ ".xlsx")%string, MismatchSheet df_value_mismatches)]
       else [])
   ++ (if negb (empty df_perfect_matches)
       then [(("perfect_matches_" ++ timestamp ++ ".xlsx")%string, PerfectSheet df_perfect_matches)]
       else [])
   ++ (match city_comparison_df with
       | Some df =>
           if negb (frame_empty df)
           then [(("city_match_statistics_" ++ timestamp ++ ".csv")%string, CityCsv df)]
           else []
       | None => []
       end))%list.

End Zip.

(* ================================================================== *)
(** ** Where a mismatch entry comes from *)

Section Provenance.

Variable g : Globals.
Variable merged_cols : list string.
Variable row : Row.
Variable info : RecordInfo.

(** [entry] is what the direct rule [m] reports: the rule passed its
    column and blank guards and [values_equal] rejected the two cells. *)
Definition reported_by_direct (m : Direct.mapping) (entry : Mismatch) : Prop :=
  entry = direct_entry row info m
  /\ direct_tracked merged_cols row m = true
  /\ values_equal g (row_get row (Direct.mls_col m)) (row_get row (Direct.cama_col m))
     = false.

(** [entry] is what the summed rule [m] reports. *)
Definition reported_by_summed (m : Summed.mapping) (entry : Mismatch) : Prop :=
  entry = summed_entry row info m
  /\ summed_tracked merged_cols row m = true
  /\ values_equal g (row_get row (Summed.mls_col m)) (VNum (cama_sum row m)) = false.

(** [entry] is what the categorical rule [m] reports. *)
Definition reported_by_categorical (m : Categorical.mapping) (entry : Mismatch) : Prop :=
  mismatch_info entry = info
  /\ Field_MLS entry = Categorical.mls_col m
  /\ Field_CAMA entry = Categorical.cama_col m
  /\ MLS_Value entry = row_get row (Categorical.mls_col m)
  /\ CAMA_Value entry = row_get row (Categorical.cama_col m)
  /\ (exists rule_text,
        mismatch_detail entry
        = Expected_CAMA_Value
            (expected_cama (row_get row (Categorical.mls_col m)) m) rule_text)
  /\ categorical_tracked merged_cols row m = true
  /\ categorical_match g (row_get row (Categorical.mls_col m))
       (row_get row (Categorical.cama_col m)) m = false.

End Provenance.

(** A loop body adds nothing to the mismatch entries, or a single entry
    that satisfies [P]. *)
Definition adds_only {A : Type} (step : RecordState -> A -> RecordState)
    (P : A -> Mismatch -> Prop) : Prop :=
  forall st m,
    record_mismatches (step st m) = record_mismatches st
    \/ exists entry, record_mismatches (step st m)
                     = (record_mismatches st ++ [entry])%list /\ P m entry.

(** The entry a row that is only in the MLS table is reported with. *)
Definition missing_in_cama_entry (cama_id_col_name : string) (mrow : MergedRow)
    : MissingInCama :=
  {| cama_missing_Parcel_ID := row_get (cells mrow) cama_id_col_name;
     cama_missing_Listing_Number := row_get_or (cells mrow) "Listing #" (VStr "");
     Closed_Date := row_get_or (cells mrow) "Closed Date" (VStr "") |}.

(** The entry a row that is only in the CAMA table is reported with. *)
Definition missing_in_mls_entry (cama_id_col_name : string) (mrow : MergedRow)
    : MissingInMls :=
  {| mls_missing_Parcel_ID := row_get (cells mrow) cama_id_col_name |}.

Definition has_status (status : merge_status) (mrow : MergedRow) : bool :=
  match status, _merge mrow with
  | left_only, left_only | right_only, right_only | both, both => true
  | _, _ => false
  end.

(** A row of the left frame without match in the right frame. *)
Definition unmatched_left (on : string) (right : DataFrame) (l : Row) : bool :=
  match Merge.matches on l right with [] => true | _ => false end.

(** No two rows of the frame have the same key. *)
Definition distinct_keys (on : string) (df : DataFrame) : Prop :=
  ForallOrdPairs
    (fun r1 r2 => Merge.key_eqb (row_get r1 on) (row_get r2 on) = false) (rows df).

(** The number of records an archive member holds. *)
Definition member_size (m : Zip.member) : nat :=
  match m with
  | Zip.MissingCamaSheet l => List.length l
  | Zip.MissingMlsSheet l => List.length l
  | Zip.MismatchSheet l => List.length l
  | Zip.PerfectSheet l => List.length l
  | Zip.CityCsv df => List.length (rows df)
  end.

(** The words that [pd.to_numeric] reads as an infinity, in any case. *)
Definition infinity_words : list string :=
  ["inf"; "+inf"; "-inf"; "infinity"; "+infinity"; "-infinity"].

(** A text for which [pd.to_numeric(v, errors='raise')] raises a
    [ValueError]: neither a decimal literal nor a word for an infinity. *)
Definition unparseable (v : value) : bool :=
  match v with
  | VStr s =>
      match Pd.to_numeric_raise v with
      | None => negb (mem (PyStr.lower s) infinity_words)
      | Some _ => false
      end
  | _ => false
  end.

(** The value is the integer [z], given as a number or as a text, and
    small enough for the difference of two such values to be exact in
    binary64. *)
Definition exact_int (v : value) (z : Z) : Prop :=
  Pd.to_numeric_raise v = Some (NInt z) /\ (Z.abs z < 2 ^ 52)%Z.

(** [f"{z:,.2f}"] for an integer: sign, digits in groups of three, and two
    zero decimals. *)
Definition format_int_2f (z : Z) : string :=
  (if (z <? 0)%Z then "-" else "")
  ++ Fmt.group_thousands (PyStr.of_Z (Z.abs z)) ++ ".00".

(* ================================================================== *)
(** * Properties *)

(** ** The loop bodies, guard by guard *)

Section Rule_shapes.

Variable g : Globals.
Variable merged_cols : list string.
Variable row : Row.
Variable info : RecordInfo.

Lemma direct_rule_shape (st : RecordState) (m : Direct.mapping) :
  direct_rule g merged_cols row info st m =
  if direct_columns_missing merged_cols m then st
  else if direct_blank_skip row m then st
  else if direct_zero_skip g row m then compared (Direct.mls_col m) st
  else if values_equal g (row_get row (Direct.mls_col m)) (row_get row (Direct.cama_col m))
       then compared (Direct.mls_col m) st
       else mismatched (direct_entry row info m) (compared (Direct.mls_col m) st).
Proof.
  unfold direct_rule, direct_columns_missing, direct_blank_skip, direct_zero_skip,
    direct_entry.
  destruct (negb (mem (Direct.mls_col m) merged_cols)
            || negb (mem (Direct.cama_col m) merged_cols)); [reflexivity|].
  destruct (is_blank (row_get row (Direct.mls_col m))
            || is_blank (row_get row (Direct.cama_col m))); [reflexivity|].
  destruct (SKIP_ZERO_VALUES g && _); [reflexivity|].
  destruct (values_equal g _ _); reflexivity.
Qed.

Lemma summed_rule_shape (st : RecordState) (m : Summed.mapping) :
  summed_rule g merged_cols row info st m =
  if summed_columns_missing merged_cols m then st
  else if summed_blank_skip row m then st
  else if summed_zero_skip g row m then compared (Summed.mls_col m) st
  else if values_equal g (row_get row (Summed.mls_col m)) (VNum (cama_sum row m))
       then compared (Summed.mls_col m) st
       else mismatched (summed_entry row info m) (compared (Summed.mls_col m) st).
Proof.
  unfold summed_rule, summed_columns_missing, summed_blank_skip, summed_zero_skip,
    summed_entry, cama_sum, all_cama_blank.
  destruct (negb (mem (Summed.mls_col m) merged_cols)); simpl; [reflexivity|].
  destruct (filter _ (Summed.cama_cols m)); simpl; [|reflexivity].
  destruct (is_blank (row_get row (Summed.mls_col m))); simpl; [reflexivity|].
  destruct (sum_columns row (Summed.cama_cols m)) as [sum blank]; simpl.
  destruct blank; [reflexivity|].
  destruct (SKIP_ZERO_VALUES g && _); [reflexivity|].
  destruct (values_equal g _ _); reflexivity.
Qed.

Lemma categorical_rule_shape (st : RecordState) (m : Categorical.mapping) :
  categorical_rule g merged_cols row info st m =
  if categorical_columns_missing merged_cols m then st
  else if categorical_blank_skip row m then st
  else if categorical_match g (row_get row (Categorical.mls_col m))
            (row_get row (Categorical.cama_col m)) m
       then compared (Categorical.mls_col m) st
       else mismatched
              {| mismatch_info := info;
                 Field_MLS := Categorical.mls_col m;
                 Field_CAMA := Categorical.cama_col m;
                 MLS_Value := row_get row (Categorical.mls_col m);
                 CAMA_Value := row_get row (Categorical.cama_col m);
                 mismatch_detail :=
                   Expected_CAMA_Value
                     (expected_cama (row_get row (Categorical.mls_col m)) m)
                     ("If '" ++ Categorical.mls_check_contains m ++ "' in "
                      ++ Categorical.mls_col m ++ ", then " ++ Categorical.cama_col m
                      ++ " should be " ++ py_str (Categorical.cama_expected_if_true m)
                      ++ ", else " ++ py_str (Categorical.cama_expected_if_false m)) |}
              (compared (Categorical.mls_col m) st).
Proof.
  unfold categorical_rule, categorical_columns_missing, categorical_blank_skip,
    expected_cama.
  destruct (negb (mem (Categorical.mls_col m) merged_cols)
            || negb (mem (Categorical.cama_col m) merged_cols)); [reflexivity|].
  destruct (is_blank (row_get row (Categorical.mls_col m))
            || is_blank (row_get row (Categorical.cama_col m))); [reflexivity|].
  destruct (categorical_match g _ _ m); reflexivity.
Qed.

End Rule_shapes.

(** ** What a loop leaves in the record state *)

Section Folds.

Context {A : Type}.
Variable step : RecordState -> A -> RecordState.
Variable name : A -> string.

Lemma fold_fields_compared (tracked : A -> bool) :
  (forall st m, fields_compared (step st m) =
                (fields_compared st ++ if tracked m then [name m] else [])%list) ->
  forall l st,
    fields_compared (fold_left step l st) =
    (fields_compared st ++ map name (filter tracked l))%list.
Proof.
  intros Hstep l; induction l as [|m l IH]; intros st; simpl.
  - now rewrite app_nil_r.
  - rewrite IH, Hstep. destruct (tracked m); simpl.
    + now rewrite <- app_assoc.
    + now rewrite app_nil_r.
Qed.

Lemma fold_no_mismatch (evaluated : A -> bool) :
  (forall st m, evaluated m = false ->
                record_mismatches (step st m) = record_mismatches st) ->
  forall l st,
    forallb (fun m => negb (evaluated m)) l = true ->
    record_mismatches (fold_left step l st) = record_mismatches st.
Proof.
  intros Hstep l; induction l as [|m l IH]; intros st Hall; simpl in *.
  - reflexivity.
  - apply andb_true_iff in Hall as [Hm Hl].
    rewrite IH by assumption. apply Hstep.
    now apply negb_true_iff.
Qed.

End Folds.

Section Record_facts.

Variable g : Globals.
Variable merged_cols : list string.
Variable row : Row.
Variable info : RecordInfo.

Lemma run_rules_folds direct summed categorical :
  run_rules g merged_cols row info direct summed categorical =
  fold_left (categorical_rule g merged_cols row info) (rules_of categorical)
    (fold_left (summed_rule g merged_cols row info) (rules_of summed)
       (fold_left (direct_rule g merged_cols row info) direct new_record)).
Proof.
  unfold run_rules.
  destruct summed as [[|? ?]|], categorical as [[|? ?]|]; reflexivity.
Qed.

Lemma direct_rule_fields st m :
  fields_compared (direct_rule g merged_cols row info st m) =
  (fields_compared st
   ++ if direct_tracked merged_cols row m then [Direct.mls_col m] else [])%list.
Proof.
  rewrite direct_rule_shape. unfold direct_tracked.
  destruct (direct_columns_missing merged_cols m); simpl; [now rewrite app_nil_r|].
  destruct (direct_blank_skip row m); simpl; [now rewrite app_nil_r|].
  destruct (direct_zero_skip g row m); [reflexivity|].
  destruct (values_equal g _ _); reflexivity.
Qed.

Lemma summed_rule_fields st m :
  fields_compared (summed_rule g merged_cols row info st m) =
  (fields_compared st
   ++ if summed_tracked merged_cols row m then [Summed.mls_col m] else [])%list.
Proof.
  rewrite summed_rule_shape. unfold summed_tracked.
  destruct (summed_columns_missing merged_cols m); simpl; [now rewrite app_nil_r|].
  destruct (summed_blank_skip row m); simpl; [now rewrite app_nil_r|].
  destruct (summed_zero_skip g row m); [reflexivity|].
  destruct (values_equal g _ _); reflexivity.
Qed.

Lemma categorical_rule_fields st m :
  fields_compared (categorical_rule g merged_cols row info st m) =
  (fields_compared st
   ++ if categorical_tracked merged_cols row m then [Categorical.mls_col m] else [])%list.
Proof.
  rewrite categorical_rule_shape. unfold categorical_tracked.
  destruct (categorical_columns_missing merged_cols m); simpl; [now rewrite app_nil_r|].
  destruct (categorical_blank_skip row m); simpl; [now rewrite app_nil_r|].
  destruct (categorical_match g _ _ m); reflexivity.
Qed.

Lemma direct_rule_quiet st m :
  direct_evaluated g merged_cols row m = false ->
  record_mismatches (direct_rule g merged_cols row info st m) = record_mismatches st.
Proof.
  rewrite direct_rule_shape. unfold direct_evaluated, direct_tracked.
  destruct (direct_columns_missing merged_cols m); [reflexivity|].
  destruct (direct_blank_skip row m); [reflexivity|].
  destruct (direct_zero_skip g row m); [reflexivity|discriminate].
Qed.

Lemma summed_rule_quiet st m :
  summed_evaluated g merged_cols row m = false ->
  record_mismatches (summed_rule g merged_cols row info st m) = record_mismatches st.
Proof.
  rewrite summed_rule_shape. unfold summed_evaluated, summed_tracked.
  destruct (summed_columns_missing merged_cols m); [reflexivity|].
  destruct (summed_blank_skip row m); [reflexivity|].
  destruct (summed_zero_skip g row m); [reflexivity|discriminate].
Qed.

Lemma categorical_rule_quiet st m :
  categorical_tracked merged_cols row m = false ->
  record_mismatches (categorical_rule g merged_cols row info st m) = record_mismatches st.
Proof.
  rewrite categorical_rule_shape. unfold categorical_tracked.
  destruct (categorical_columns_missing merged_cols m); [reflexivity|].
  destruct (categorical_blank_skip row m); [reflexivity|discriminate].
Qed.

Lemma run_rules_fields direct summed categorical :
  fields_compared (run_rules g merged_cols row info direct summed categorical) =
  tracked_fields merged_cols row direct summed categorical.
Proof.
  rewrite run_rules_folds. unfold tracked_fields.
  rewrite (fold_fields_compared _ Categorical.mls_col (categorical_tracked merged_cols row))
    by apply categorical_rule_fields.
  rewrite (fold_fields_compared _ Summed.mls_col (summed_tracked merged_cols row))
    by apply summed_rule_fields.
  rewrite (fold_fields_compared _ Direct.mls_col (direct_tracked merged_cols row))
    by apply direct_rule_fields.
  simpl. now rewrite <- app_assoc.
Qed.

Lemma run_rules_quiet direct summed categorical :
  all_rules_skipped g merged_cols row direct summed categorical = true ->
  record_mismatches (run_rules g merged_cols row info direct summed categorical) = [].
Proof.
  unfold all_rules_skipped. intros H.
  apply andb_true_iff in H as [H Hc]. apply andb_true_iff in H as [Hd Hs].
  rewrite run_rules_folds.
  rewrite (fold_no_mismatch _ (categorical_tracked merged_cols row))
    by (assumption || apply categorical_rule_quiet).
  rewrite (fold_no_mismatch _ (summed_evaluated g merged_cols row))
    by (assumption || apply summed_rule_quiet).
  rewrite (fold_no_mismatch _ (direct_evaluated g merged_cols row))
    by (assumption || apply direct_rule_quiet).
  reflexivity.
Qed.

Lemma blank_skipped_are_skipped direct summed categorical :
  all_rules_blank_skipped merged_cols row direct summed categorical = true ->
  all_rules_skipped g merged_cols row direct summed categorical = true.
Proof.
  unfold all_rules_blank_skipped, all_rules_skipped. intros H.
  apply andb_true_iff in H as [H Hc]. apply andb_true_iff in H as [Hd Hs].
  rewrite Hc, andb_true_r. apply andb_true_iff; split.
  - rewrite forallb_forall in *. intros m Hm. specialize (Hd m Hm).
    unfold direct_evaluated. apply negb_true_iff in Hd. now rewrite Hd.
  - rewrite forallb_forall in *. intros m Hm. specialize (Hs m Hm).
    unfold summed_evaluated. apply negb_true_iff in Hs. now rewrite Hs.
Qed.

Lemma blank_skipped_no_fields direct summed categorical :
  all_rules_blank_skipped merged_cols row direct summed categorical = true ->
  tracked_fields merged_cols row direct summed categorical = [].
Proof.
  unfold all_rules_blank_skipped, tracked_fields. intros H.
  apply andb_true_iff in H as [H Hc]. apply andb_true_iff in H as [Hd Hs].
  assert (Hnone : forall (A : Type) (p : A -> bool) (l : list A),
             forallb (fun m => negb (p m)) l = true -> filter p l = []).
  { intros A p l; induction l as [|a l IH]; simpl; intros Hl; [reflexivity|].
    apply andb_true_iff in Hl as [Ha Hl]. apply negb_true_iff in Ha.
    rewrite Ha. now apply IH. }
  now rewrite (Hnone _ _ _ Hd), (Hnone _ _ _ Hs), (Hnone _ _ _ Hc).
Qed.

End Record_facts.

(* ================================================================== *)
(** ** C1: the outcome of a [both] record *)

(** C1 as stated fails.  With the zero-skip setting on, the only rule of
    this [both] record compares 0 with 0 and is skipped by the zero policy:
    no rule was evaluated in the specification's sense.  The claim then
    puts the record in the third case, with no entry of either kind, and
    says that a perfect-match entry requires a rule evaluated; yet the run
    reports the record as a perfect match, for one field compared. *)
Lemma perfect_match_without_evaluated_rule :
  let row := Demo.bedrooms_row (Demo.int 0) (Demo.int 0) in
  let mrow := {| _merge := both; cells := row |} in
  let acc' := process_row default_globals Demo.merged_cols "PARID"
                [Demo.bedrooms] None None no_collections mrow in
  evaluated_fields_spec default_globals Demo.merged_cols row [Demo.bedrooms] None None = []
  /\ value_mismatches acc' = []
  /\ perfect_matches acc'
     = [ {| perfect_info := record_info "PARID" row;
            Fields_Compared := 1;
            Fields_List := "Bedrooms Total" |} ].
Proof.
  repeat split.
Qed.

(** C1, amended.  When the loop of the run meets a joined record with
    provenance [both], it appends the record's mismatch entries and its
    perfect-match entries to the two collections and leaves the other two
    alone, and the record falls in exactly one of three cases: it
    contributes one or more mismatch entries and no perfect-match entry;
    or no mismatch entry and exactly one perfect-match entry, which counts
    and lists the rules that got past the column and blank guards, at
    least one, whether or not the zero policy then skipped them; or
    nothing at all, no rule having got past those guards. *)
Theorem both_record_outcome
    (g : Globals) (merged_cols : list string) (cama_id_col_name : string)
    (direct : list Direct.mapping) (summed : option (list Summed.mapping))
    (categorical : option (list Categorical.mapping))
    (acc : Collections) (mrow : MergedRow) :
  _merge mrow = both ->
  let st := compare_record g merged_cols cama_id_col_name direct summed categorical
              (cells mrow) in
  let perfect := perfect_entries (record_info cama_id_col_name (cells mrow)) st in
  let tracked := tracked_fields merged_cols (cells mrow) direct summed categorical in
  let acc' := process_row g merged_cols cama_id_col_name direct summed categorical
                acc mrow in
  value_mismatches acc' = (value_mismatches acc ++ record_mismatches st)%list /\
  perfect_matches acc' = (perfect_matches acc ++ perfect)%list /\
  missing_in_cama acc' = missing_in_cama acc /\
  missing_in_mls acc' = missing_in_mls acc /\
  ( (record_mismatches st <> [] /\ perfect = [])
    \/ (record_mismatches st = [] /\ tracked <> [] /\
        perfect = [ {| perfect_info := record_info cama_id_col_name (cells mrow);
                       Fields_Compared := List.length tracked;
                       Fields_List := PyStr.join ", " tracked |} ] /\
        (1 <= List.length tracked)%nat)
    \/ (record_mismatches st = [] /\ tracked = [] /\ perfect = []) ).
Proof.
  intros Hboth st perfect tracked acc'.
  unfold acc', process_row. rewrite Hboth. fold st. fold perfect. simpl.
  repeat (split; [reflexivity|]).
  assert (Hf : fields_compared st = tracked)
    by (unfold st, tracked, compare_record; apply run_rules_fields).
  unfold perfect, perfect_entries. rewrite Hf.
  destruct (record_mismatches st) as [|e es] eqn:Hm.
  - destruct tracked as [|f fs] eqn:Ht.
    + right; right. repeat split.
    + right; left. repeat split; [discriminate|simpl; lia].
  - left. split; [discriminate|reflexivity].
Qed.

(** The three cases exclude one another: a record never has both kinds of
    entry. *)
Lemma both_record_never_both_kinds
    (g : Globals) (merged_cols : list string) (cama_id_col_name : string)
    (direct : list Direct.mapping) (summed : option (list Summed.mapping))
    (categorical : option (list Categorical.mapping)) (row : Row) :
  let st := compare_record g merged_cols cama_id_col_name direct summed categorical row in
  record_mismatches st <> [] ->
  perfect_entries (record_info cama_id_col_name row) st = [].
Proof.
  intros st Hm. unfold perfect_entries.
  destruct (record_mismatches st); [contradiction|reflexivity].
Qed.

Lemma both_record_outcome_witness :
  let mrow := {| _merge := both;
                 cells := Demo.bedrooms_row (Demo.int 3) (Demo.int 3) |} in
  let st := compare_record default_globals Demo.merged_cols "PARID"
              [Demo.bedrooms] None None (cells mrow) in
  let perfect := perfect_entries (record_info "PARID" (cells mrow)) st in
  let tracked := tracked_fields Demo.merged_cols (cells mrow) [Demo.bedrooms] None None in
  let acc' := process_row default_globals Demo.merged_cols "PARID"
                [Demo.bedrooms] None None no_collections mrow in
  value_mismatches acc' = ([] ++ record_mismatches st)%list /\
  perfect_matches acc' = ([] ++ perfect)%list /\
  missing_in_cama acc' = [] /\
  missing_in_mls acc' = [] /\
  ( (record_mismatches st <> [] /\ perfect = [])
    \/ (record_mismatches st = [] /\ tracked <> [] /\
        perfect = [ {| perfect_info := record_info "PARID" (cells mrow);
                       Fields_Compared := List.length tracked;
                       Fields_List := PyStr.join ", " tracked |} ] /\
        (1 <= List.length tracked)%nat)
    \/ (record_mismatches st = [] /\ tracked = [] /\ perfect = []) ).
Proof.
  exact (both_record_outcome default_globals Demo.merged_cols "PARID"
           [Demo.bedrooms] None None no_collections
           {| _merge := both; cells := Demo.bedrooms_row (Demo.int 3) (Demo.int 3) |}
           eq_refl).
Defined.

(** The collections of a whole run are the concatenation, in row order, of
    what each [both] record contributes. *)
Lemma process_rows_collects
    (g : Globals) (merged_cols : list string) (cama_id_col_name : string)
    (direct : list Direct.mapping) (summed : option (list Summed.mapping))
    (categorical : option (list Categorical.mapping)) (mrows : list MergedRow) :
  let st := fun mrow =>
    compare_record g merged_cols cama_id_col_name direct summed categorical (cells mrow) in
  let is_both := fun mrow =>
    match _merge mrow with both => true | _ => false end in
  let acc := process_rows g merged_cols cama_id_col_name direct summed categorical mrows in
  value_mismatches acc =
    flat_map (fun mrow => record_mismatches (st mrow)) (filter is_both mrows) /\
  perfect_matches acc =
    flat_map (fun mrow => perfect_entries (record_info cama_id_col_name (cells mrow)) (st mrow))
      (filter is_both mrows).
Proof.
  intros st is_both acc. unfold acc, process_rows.
  enough (H : forall acc0,
    let acc1 := fold_left
      (process_row g merged_cols cama_id_col_name direct summed categorical) mrows acc0 in
    value_mismatches acc1 =
      (value_mismatches acc0
       ++ flat_map (fun mrow => record_mismatches (st mrow)) (filter is_both mrows))%list /\
    perfect_matches acc1 =
      (perfect_matches acc0
       ++ flat_map (fun mrow => perfect_entries (record_info cama_id_col_name (cells mrow))
                                  (st mrow)) (filter is_both mrows))%list)
    by exact (H no_collections).
  induction mrows as [|mrow mrows IH]; intros acc0; simpl.
  - now rewrite !app_nil_r.
  - destruct (IH (process_row g merged_cols cama_id_col_name direct summed categorical
                    acc0 mrow)) as [IHm IHp].
    rewrite IHm, IHp. unfold process_row, is_both.
    destruct (_merge mrow); simpl; try (split; reflexivity).
    fold (st mrow). now rewrite <- !app_assoc.
Qed.

(* ================================================================== *)
(** ** C2: which fields are tracked as compared *)

(** C2 as stated fails.  With the zero-skip setting on, a [both] record
    whose only rule compares 0 with 0 has that rule skipped by the zero
    policy, so no rule was evaluated in the specification's sense; yet the
    field is in [fields_compared] and the record gets a perfect-match
    entry. *)
Lemma zero_skipped_rule_is_tracked :
  all_rules_skipped default_globals Demo.merged_cols
    (Demo.bedrooms_row (Demo.int 0) (Demo.int 0)) [Demo.bedrooms] None None = true
  /\ evaluated_fields_spec default_globals Demo.merged_cols
       (Demo.bedrooms_row (Demo.int 0) (Demo.int 0)) [Demo.bedrooms] None None = []
  /\ fields_compared
       (compare_record default_globals Demo.merged_cols "PARID" [Demo.bedrooms] None None
          (Demo.bedrooms_row (Demo.int 0) (Demo.int 0))) = ["Bedrooms Total"]
  /\ perfect_entries (record_info "PARID" (Demo.bedrooms_row (Demo.int 0) (Demo.int 0)))
       (compare_record default_globals Demo.merged_cols "PARID" [Demo.bedrooms] None None
          (Demo.bedrooms_row (Demo.int 0) (Demo.int 0)))
     = [ {| perfect_info := record_info "PARID" (Demo.bedrooms_row (Demo.int 0) (Demo.int 0));
            Fields_Compared := 1;
            Fields_List := "Bedrooms Total" |} ]
  /\ fields_compared
       (compare_record default_globals Demo.merged_cols "PARID" [Demo.bedrooms] None None
          (Demo.bedrooms_row (Demo.int 0) (Demo.int 0)))
     <> evaluated_fields_spec default_globals Demo.merged_cols
          (Demo.bedrooms_row (Demo.int 0) (Demo.int 0)) [Demo.bedrooms] None None.
Proof.
  repeat split; vm_compute; (reflexivity || discriminate).
Qed.

(** C2, amended.  The fields tracked as compared are exactly the rules
    that passed the column and blank guards, in configuration order; a
    rule skipped by the zero policy is among them.  Consequently a record
    whose every rule is skipped for a missing column or a blank value
    produces neither a mismatch entry nor a perfect-match entry; and a
    record whose every rule is skipped (blank or zero) produces no
    mismatch entry, and a perfect-match entry as soon as one of its rules
    was skipped by the zero policy. *)
Theorem fields_compared_are_tracked_rules
    (g : Globals) (merged_cols : list string) (cama_id_col_name : string)
    (direct : list Direct.mapping) (summed : option (list Summed.mapping))
    (categorical : option (list Categorical.mapping)) (row : Row) :
  let st := compare_record g merged_cols cama_id_col_name direct summed categorical row in
  let perfect := perfect_entries (record_info cama_id_col_name row) st in
  fields_compared st = tracked_fields merged_cols row direct summed categorical
  /\ (all_rules_blank_skipped merged_cols row direct summed categorical = true ->
      record_mismatches st = [] /\ perfect = [])
  /\ (all_rules_skipped g merged_cols row direct summed categorical = true ->
      record_mismatches st = [] /\
      (tracked_fields merged_cols row direct summed categorical <> [] ->
       exists entry, perfect = [entry]
                     /\ Fields_Compared entry = List.length (fields_compared st))).
Proof.
  intros st perfect. unfold perfect, st, compare_record.
  split; [apply run_rules_fields|]. split.
  - intros Hblank.
    assert (Hm : record_mismatches
                   (run_rules g merged_cols row (record_info cama_id_col_name row)
                      direct summed categorical) = [])
      by (apply run_rules_quiet, blank_skipped_are_skipped, Hblank).
    split; [exact Hm|].
    unfold perfect_entries. rewrite Hm, run_rules_fields.
    now rewrite (blank_skipped_no_fields _ _ _ _ _ Hblank).
  - intros Hskip.
    assert (Hm : record_mismatches
                   (run_rules g merged_cols row (record_info cama_id_col_name row)
                      direct summed categorical) = [])
      by (apply run_rules_quiet, Hskip).
    split; [exact Hm|]. intros Hfields.
    unfold perfect_entries. rewrite Hm, run_rules_fields.
    destruct (tracked_fields merged_cols row direct summed categorical);
      [contradiction|].
    eexists. split; reflexivity.
Qed.

Lemma fields_compared_are_tracked_rules_witness :
  (record_mismatches
     (compare_record default_globals Demo.merged_cols "PARID"
        [Demo.bedrooms] (Some [Demo.below_grade]) (Some [Demo.cooling])
        (Demo.bedrooms_row (VStr "  ") (Demo.int 3))) = []
   /\ perfect_entries (record_info "PARID" (Demo.bedrooms_row (VStr "  ") (Demo.int 3)))
        (compare_record default_globals Demo.merged_cols "PARID"
           [Demo.bedrooms] (Some [Demo.below_grade]) (Some [Demo.cooling])
           (Demo.bedrooms_row (VStr "  ") (Demo.int 3))) = [])
  /\ record_mismatches
       (compare_record default_globals Demo.merged_cols "PARID"
          [Demo.bedrooms] (Some [Demo.below_grade]) (Some [Demo.cooling])
          (Demo.bedrooms_row (Demo.int 0) (VStr "0.0"))) = [].
Proof.
  split.
  - apply (fields_compared_are_tracked_rules default_globals Demo.merged_cols "PARID"
             [Demo.bedrooms] (Some [Demo.below_grade]) (Some [Demo.cooling])
             (Demo.bedrooms_row (VStr "  ") (Demo.int 3))).
    vm_compute; reflexivity.
  - apply (fields_compared_are_tracked_rules default_globals Demo.merged_cols "PARID"
             [Demo.bedrooms] (Some [Demo.below_grade]) (Some [Demo.cooling])
             (Demo.bedrooms_row (Demo.int 0) (VStr "0.0"))).
    vm_compute; reflexivity.
Defined.

(* ================================================================== *)
(** ** Blank values and numbers *)

Lemma rstrip_nonspace c t : PyStr.is_space c = false -> PyStr.rstrip (String c t) <> "".
Proof.
  intros Hc. simpl. destruct (PyStr.rstrip t); [rewrite Hc|]; discriminate.
Qed.

Lemma lstrip_head s :
  PyStr.lstrip s = "" \/ exists c t, PyStr.lstrip s = String c t /\ PyStr.is_space c = false.
Proof.
  induction s as [|c t IH]; simpl; [now left|].
  destruct (PyStr.is_space c) eqn:Hc; [exact IH|].
  right. now exists c, t.
Qed.

Lemma strip_empty_lstrip s : PyStr.strip s = "" -> PyStr.lstrip s = "".
Proof.
  unfold PyStr.strip. intros H.
  destruct (lstrip_head s) as [E|(c & t & E & Hc)]; [exact E|].
  rewrite E in H. now apply rstrip_nonspace in H.
Qed.

Lemma parse_literal_skip c t :
  Pd.is_csp c = true -> Pd.parse_literal (String c t) = Pd.parse_literal t.
Proof.
  intros Hc. unfold Pd.parse_literal. simpl. now rewrite Hc.
Qed.

Lemma parse_literal_odd_space c t :
  PyStr.is_space c = true -> Pd.is_csp c = false -> Pd.parse_literal (String c t) = None.
Proof.
  destruct c as [[] [] [] [] [] [] [] []]; intros Hs Hc;
    try discriminate Hs; try discriminate Hc; reflexivity.
Qed.

Lemma parse_literal_blank s : PyStr.lstrip s = "" -> Pd.parse_literal s = None.
Proof.
  induction s as [|c t IH]; simpl; intros H; [reflexivity|].
  destruct (PyStr.is_space c) eqn:Hs; [|discriminate].
  destruct (Pd.is_csp c) eqn:Hc.
  - rewrite parse_literal_skip by assumption. now apply IH.
  - now apply parse_literal_odd_space.
Qed.

(** A text that is empty once trimmed converts to [NaN]. *)
Lemma blank_text_is_nan s :
  PyStr.strip s = "" -> Pd.to_numeric_coerce (VStr s) = NaN.
Proof.
  intros H. unfold Pd.to_numeric_coerce, Pd.to_numeric_raise, Pd.parse_numeric.
  destruct s as [|c t]; [reflexivity|].
  now rewrite parse_literal_blank by now apply strip_empty_lstrip.
Qed.

(** A value that converts to a number is not blank. *)
Lemma number_not_blank v q :
  Num.to_Q (Pd.to_numeric_coerce v) = Some q -> is_blank v = false.
Proof.
  unfold is_blank. destruct v as [|n|s]; simpl.
  - discriminate.
  - destruct n; [discriminate|reflexivity..].
  - intros H. destruct (String.eqb (PyStr.strip s) "") eqn:E; [|reflexivity].
    apply String.eqb_eq in E. rewrite (blank_text_is_nan _ E) in H. discriminate.
Qed.

Lemma numeric_zero_to_Q n :
  numeric_zero n = true -> exists q, Num.to_Q n = Some q /\ q == 0.
Proof.
  unfold numeric_zero, Num.is_zero. intros H.
  apply andb_true_iff in H as [_ H].
  destruct (Num.to_Q n) as [q|]; [|discriminate].
  exists q. split; [reflexivity|]. now apply Qeq_bool_iff.
Qed.

Lemma not_numeric_zero n q :
  Num.to_Q n = Some q -> ~ q == 0 -> numeric_zero n = false.
Proof.
  unfold numeric_zero, Num.is_zero. intros -> Hq.
  destruct (Qeq_bool q 0) eqn:E; [|now rewrite andb_false_r].
  apply Qeq_bool_iff in E. contradiction.
Qed.

Lemma Blank_is_blank v : Blank v <-> is_blank v = true.
Proof.
  unfold is_blank. split.
  - intros [->|[->|(s & -> & Hs)]]; simpl; try reflexivity.
    rewrite Hs. reflexivity.
  - destruct v as [|n|s]; simpl; intros H.
    + now left.
    + destruct n; try discriminate. right; now left.
    + right; right. exists s. split; [reflexivity|]. now apply String.eqb_eq.
Qed.

(* ================================================================== *)
(** ** C3: the zero-skip policy of a direct rule *)

(** C3.  With [SKIP_ZERO_VALUES] on, a direct rule whose two values both
    convert to zero is skipped by the zero guard and adds no mismatch
    entry.  When the columns are present and exactly one side converts to
    zero while the other converts to a non-zero number, no guard fires: the
    rule is decided by [values_equal] and adds its mismatch entry exactly
    when the values are unequal under the tolerance.  With the default
    tolerance, MLS = 0 against CAMA = 5 adds one entry. *)
Theorem zero_skip_direct_rule
    (g : Globals) (merged_cols : list string) (row : Row) (info : RecordInfo)
    (st : RecordState) (m : Direct.mapping) :
  SKIP_ZERO_VALUES g = true ->
  let mls_val := row_get row (Direct.mls_col m) in
  let cama_val := row_get row (Direct.cama_col m) in
  let after := direct_rule g merged_cols row info st m in
  (numeric_zero (Pd.to_numeric_coerce mls_val) = true ->
   numeric_zero (Pd.to_numeric_coerce cama_val) = true ->
   direct_zero_skip g row m = true /\
   record_mismatches after = record_mismatches st /\
   (direct_columns_missing merged_cols m = false ->
    after = compared (Direct.mls_col m) st))
  /\ (forall x y : Q,
        direct_columns_missing merged_cols m = false ->
        Num.to_Q (Pd.to_numeric_coerce mls_val) = Some x ->
        Num.to_Q (Pd.to_numeric_coerce cama_val) = Some y ->
        (x == 0 /\ ~ y == 0) \/ (~ x == 0 /\ y == 0) ->
        direct_zero_skip g row m = false /\
        after = if values_equal g mls_val cama_val
                then compared (Direct.mls_col m) st
                else mismatched (direct_entry row info m)
                       (compared (Direct.mls_col m) st))
  /\ record_mismatches
       (direct_rule default_globals Demo.merged_cols
          (Demo.bedrooms_row (Demo.int 0) (Demo.int 5)) info new_record Demo.bedrooms)
     = [ {| mismatch_info := info;
            Field_MLS := "Bedrooms Total";
            Field_CAMA := "RMBED";
            MLS_Value := Demo.int 0;
            CAMA_Value := Demo.int 5;
            mismatch_detail := Difference "-5.00" |} ].
Proof.
  intros Hskip mls_val cama_val after. split; [|split].
  - intros Hm Hc.
    assert (Hz : direct_zero_skip g row m = true).
    { unfold direct_zero_skip. fold mls_val cama_val. now rewrite Hskip, Hm, Hc. }
    destruct (numeric_zero_to_Q _ Hm) as (x & Hx & _).
    destruct (numeric_zero_to_Q _ Hc) as (y & Hy & _).
    assert (Hb : direct_blank_skip row m = false).
    { unfold direct_blank_skip. fold mls_val cama_val.
      now rewrite (number_not_blank _ _ Hx), (number_not_blank _ _ Hy). }
    split; [exact Hz|]. unfold after. rewrite direct_rule_shape, Hb, Hz.
    split.
    + now destruct (direct_columns_missing merged_cols m).
    + now intros ->.
  - intros x y Hcols Hx Hy Hone.
    assert (Hz : direct_zero_skip g row m = false).
    { unfold direct_zero_skip. fold mls_val cama_val.
      destruct Hone as [[_ Hn]|[Hn _]].
      - rewrite (not_numeric_zero _ _ Hy Hn). now rewrite !andb_false_r.
      - rewrite (not_numeric_zero _ _ Hx Hn). now rewrite andb_false_r. }
    split; [exact Hz|]. unfold after. rewrite direct_rule_shape, Hcols, Hz.
    unfold direct_blank_skip. fold mls_val cama_val.
    now rewrite (number_not_blank _ _ Hx), (number_not_blank _ _ Hy).
  - reflexivity.
Qed.

Lemma zero_skip_direct_rule_witness :
  (direct_zero_skip default_globals (Demo.bedrooms_row (VStr "0") (Demo.int 0))
     Demo.bedrooms = true /\
   record_mismatches
     (direct_rule default_globals Demo.merged_cols
        (Demo.bedrooms_row (VStr "0") (Demo.int 0))
        (Demo.info (Demo.bedrooms_row (VStr "0") (Demo.int 0))) new_record Demo.bedrooms)
   = [])
  /\ direct_zero_skip default_globals (Demo.bedrooms_row (Demo.int 0) (Demo.int 5))
       Demo.bedrooms = false.
Proof.
  split.
  - pose proof (zero_skip_direct_rule default_globals Demo.merged_cols
                  (Demo.bedrooms_row (VStr "0") (Demo.int 0))
                  (Demo.info (Demo.bedrooms_row (VStr "0") (Demo.int 0)))
                  new_record Demo.bedrooms eq_refl) as [H _].
    destruct (H eq_refl eq_refl) as (Hz & Hm & _). split; [exact Hz|exact Hm].
  - pose proof (zero_skip_direct_rule default_globals Demo.merged_cols
                  (Demo.bedrooms_row (Demo.int 0) (Demo.int 5))
                  (Demo.info (Demo.bedrooms_row (Demo.int 0) (Demo.int 5)))
                  new_record Demo.bedrooms eq_refl) as (_ & H & _).
    refine (proj1 (H 0 5 eq_refl eq_refl eq_refl _)).
    left. split; [reflexivity|discriminate].
Defined.

(* ================================================================== *)
(** ** C4: blank values skip direct and categorical rules *)

(** C4.  Whatever the tolerance and the zero-skip setting, a direct rule or
    a categorical rule one of whose two values is blank leaves the record
    state as it was: no mismatch entry is added and the field is not
    tracked as compared.  A blank MLS text against CAMA = 10 is such a
    case. *)
Theorem blank_value_skips_rule
    (g : Globals) (merged_cols : list string) (row : Row) (info : RecordInfo)
    (st : RecordState) :
  (forall m : Direct.mapping,
     Blank (row_get row (Direct.mls_col m)) \/ Blank (row_get row (Direct.cama_col m)) ->
     direct_rule g merged_cols row info st m = st)
  /\ (forall m : Categorical.mapping,
        Blank (row_get row (Categorical.mls_col m))
        \/ Blank (row_get row (Categorical.cama_col m)) ->
        categorical_rule g merged_cols row info st m = st)
  /\ direct_rule g Demo.merged_cols (Demo.bedrooms_row (VStr "") (Demo.int 10))
       info st Demo.bedrooms = st.
Proof.
  split; [|split].
  - intros m H. rewrite direct_rule_shape.
    assert (Hb : direct_blank_skip row m = true).
    { unfold direct_blank_skip. apply orb_true_iff.
      destruct H as [H|H]; [left|right]; now apply Blank_is_blank. }
    rewrite Hb. now destruct (direct_columns_missing merged_cols m).
  - intros m H. rewrite categorical_rule_shape.
    assert (Hb : categorical_blank_skip row m = true).
    { unfold categorical_blank_skip. apply orb_true_iff.
      destruct H as [H|H]; [left|right]; now apply Blank_is_blank. }
    rewrite Hb. now destruct (categorical_columns_missing merged_cols m).
  - reflexivity.
Qed.

Lemma blank_value_skips_rule_witness :
  direct_rule default_globals Demo.merged_cols
    (Demo.bedrooms_row (VStr "   ") (Demo.int 10))
    (Demo.info (Demo.bedrooms_row (VStr "   ") (Demo.int 10))) new_record Demo.bedrooms
  = new_record
  /\ categorical_rule default_globals Demo.merged_cols
       (Demo.cooling_row (VStr "Central Air") (VNum NaN))
       (Demo.info (Demo.cooling_row (VStr "Central Air") (VNum NaN))) new_record
       Demo.cooling
     = new_record.
Proof.
  split.
  - apply (blank_value_skips_rule default_globals Demo.merged_cols
             (Demo.bedrooms_row (VStr "   ") (Demo.int 10))).
    left. right. right. exists "   ". split; reflexivity.
  - apply (blank_value_skips_rule default_globals Demo.merged_cols
             (Demo.cooling_row (VStr "Central Air") (VNum NaN))).
    right. right. left. reflexivity.
Defined.

(* ================================================================== *)
(** ** C5: reflexivity and symmetry of [values_equal] *)

Lemma within_tol_refl atol x : 0 <= atol -> Np.within_tol atol x x = true.
Proof.
  intros Hatol. unfold Np.within_tol. apply Qle_bool_iff.
  assert (E : x - x == 0) by ring.
  rewrite E. simpl (Qabs 0).
  pose proof (Qabs_nonneg x) as Hx.
  assert (Hr : 0 <= Np.rtol * Qabs x).
  { apply Qmult_le_0_compat; [discriminate|exact Hx]. }
  lra.
Qed.

Lemma within_tol_sym atol x y :
  outside_tolerance_band atol x y -> Np.within_tol atol x y = Np.within_tol atol y x.
Proof.
  unfold Np.within_tol. rewrite (Qabs_Qminus y x).
  intros [[Hx Hy]|[Hx Hy]].
  - apply Qle_bool_iff in Hx, Hy. now rewrite Hx, Hy.
  - apply Qlt_not_le in Hx, Hy.
    destruct (Qle_bool (Qabs (x - y)) (atol + Np.rtol * Qabs y)) eqn:E1;
      [apply Qle_bool_iff in E1; contradiction|].
    destruct (Qle_bool (Qabs (x - y)) (atol + Np.rtol * Qabs x)) eqn:E2;
      [apply Qle_bool_iff in E2; contradiction|].
    reflexivity.
Qed.

(** C5 as stated fails: [values_equal] is not symmetric.  With the default
    tolerance 0.01, 0 against 0.010000000005 compares equal (the distance
    is within 0.01 + 1e-9 * 0.010000000005) and the same pair in the other
    order compares unequal (the distance exceeds 0.01 + 1e-9 * 0). *)
Lemma values_equal_not_symmetric :
  values_equal default_globals (Demo.int 0) (VNum (NFloat Demo.just_over)) = true
  /\ values_equal default_globals (VNum (NFloat Demo.just_over)) (Demo.int 0) = false
  /\ values_equal default_globals (Demo.int 0) (VNum (NFloat Demo.just_over))
     <> values_equal default_globals (VNum (NFloat Demo.just_over)) (Demo.int 0).
Proof.
  repeat split; vm_compute; (reflexivity || discriminate).
Qed.

(** The two comparisons come out the same way in binary64 arithmetic. *)
#[warnings="-inexact-float"]
Example within_tol_not_symmetric_binary64 :
  Binary64.within_tol 0.01%float 0%float 0.010000000005%float = true
  /\ Binary64.within_tol 0.01%float 0.010000000005%float 0%float = false.
Proof.
  split; vm_compute; reflexivity.
Qed.

(** C5, amended.  For a non-negative tolerance [values_equal x x] holds
    for every value that converts to a number or to [NaN].  And
    [values_equal a b = values_equal b a] for every pair of values, except
    possibly when both convert to numbers whose distance lies in the band
    between the thresholds of the two orders. *)
Theorem values_equal_reflexive_and_symmetric_outside_band (g : Globals) :
  (0 <= NUMERIC_TOLERANCE g ->
   forall (x : value) (n : num),
     Pd.to_numeric_raise x = Some n -> values_equal g x x = true)
  /\ (forall a b : value,
        (forall x y : Q, numeric_value a = Some x -> numeric_value b = Some y ->
                         outside_tolerance_band (NUMERIC_TOLERANCE g) x y) ->
        values_equal g a b = values_equal g b a).
Proof.
  split.
  - intros Hatol x n Hn. unfold values_equal. rewrite Hn.
    destruct n as [|z|q]; simpl; [reflexivity| |]; now apply within_tol_refl.
  - intros a b Hband. unfold values_equal, numeric_value in *.
    destruct (Pd.to_numeric_raise a) as [n1|], (Pd.to_numeric_raise b) as [n2|];
      try apply String.eqb_sym.
    destruct n1 as [|z1|q1], n2 as [|z2|q2]; simpl; try reflexivity;
      apply within_tol_sym, Hband; reflexivity.
Qed.

Lemma values_equal_reflexive_and_symmetric_outside_band_witness :
  values_equal default_globals (VStr " 12.50 ") (VStr " 12.50 ") = true
  /\ values_equal default_globals (VStr "100.00") (Demo.int 100)
     = values_equal default_globals (Demo.int 100) (VStr "100.00").
Proof.
  split.
  - apply (proj1 (values_equal_reflexive_and_symmetric_outside_band default_globals))
      with (n := NFloat ((1250 # 1) * (1 # 100))).
    + discriminate.
    + reflexivity.
  - apply (proj2 (values_equal_reflexive_and_symmetric_outside_band default_globals)).
    intros x y Hx Hy. injection Hx as <-. injection Hy as <-.
    left. split; vm_compute; discriminate.
Defined.

(* ================================================================== *)
(** ** The sum of a summed rule *)

Lemma sum_columns_from row cols acc blank :
  fold_left (sum_step row) cols (acc, blank) =
  (fold_left Num.add
     (map (fun col => Pd.to_numeric_coerce (row_get row col)) (present_components row cols))
     acc,
   blank && forallb (fun col => Pd.isna (row_get row col)) cols).
Proof.
  revert acc blank. induction cols as [|col cols IH]; intros acc blank; simpl.
  - now rewrite andb_true_r.
  - unfold Pd.notna. destruct (Pd.isna (row_get row col)); simpl.
    + apply IH.
    + rewrite IH. simpl. now rewrite andb_false_r.
Qed.

Lemma add_to_Q a b x y :
  Num.to_Q a = Some x -> Num.to_Q b = Some y ->
  exists s, Num.to_Q (Num.add a b) = Some s /\ s == x + y.
Proof.
  destruct a as [|za|qa], b as [|zb|qb]; simpl; intros Ha Hb;
    try discriminate; injection Ha as <-; injection Hb as <-;
    eexists; (split; [reflexivity|]); try rewrite inject_Z_plus; reflexivity.
Qed.

Lemma present_number row col q :
  Num.to_Q (Pd.to_numeric_coerce (row_get row col)) = Some q ->
  Pd.notna (row_get row col) = true.
Proof.
  unfold Pd.notna. destruct (row_get row col) as [|n|s]; simpl.
  - discriminate.
  - destruct n; [discriminate|reflexivity..].
  - reflexivity.
Qed.

(** When every listed component converts to a number, [cama_sum] is the
    arithmetic sum of those numbers. *)
Lemma sum_columns_arith row cols qs :
  Forall2 (fun col q => Num.to_Q (Pd.to_numeric_coerce (row_get row col)) = Some q) cols qs ->
  exists s, Num.to_Q (fst (sum_columns row cols)) = Some s /\ s == arith_sum qs.
Proof.
  unfold sum_columns. intros H.
  enough (G : forall acc a blank, Num.to_Q acc = Some a ->
            exists s, Num.to_Q (fst (fold_left (sum_step row) cols (acc, blank))) = Some s
                      /\ s == a + arith_sum qs).
  { destruct (G (NInt 0) 0 true eq_refl) as (s & Hs & E).
    exists s. split; [exact Hs|]. rewrite E. ring. }
  induction H as [|col q cols qs Hq _ IH]; intros acc a blank Ha; simpl.
  - exists a. split; [exact Ha|]. ring.
  - rewrite (present_number _ _ _ Hq).
    destruct (add_to_Q _ _ _ _ Ha Hq) as (s1 & Hs1 & E1).
    destruct (IH _ _ false Hs1) as (s & Hs & E).
    exists s. split; [exact Hs|]. rewrite E, E1. ring.
Qed.

(* ================================================================== *)
(** ** C6: a summed rule compares the MLS value with the sum *)

Lemma values_equal_numbers g v n x s :
  numeric_value v = Some x -> Num.to_Q n = Some s ->
  values_equal g v (VNum n) = Np.within_tol (NUMERIC_TOLERANCE g) x s.
Proof.
  unfold numeric_value, values_equal. simpl.
  destruct (Pd.to_numeric_raise v) as [n1|]; [|discriminate].
  intros Hx Hs. unfold Np.isclose. rewrite Hx, Hs.
  destruct n1; [discriminate| |]; destruct n; try discriminate; reflexivity.
Qed.

(** C6.  A summed rule that passes its guards compares the MLS value with
    [cama_sum]: it tracks the field and adds its single mismatch entry
    exactly when [values_equal] fails.  When every listed CAMA field holds
    a number, [cama_sum] is their arithmetic sum and the comparison is the
    tolerance test of the MLS number against it.  With the default
    settings, 800 against 300, 200, 300 passes, and as the only applicable
    rule of the shipped configuration gives the record its perfect-match
    entry; 800 against a sum of 750 adds exactly one mismatch entry, whose
    difference is ["50.00"]. *)
Theorem summed_rule_compares_sum
    (g : Globals) (merged_cols : list string) (row : Row) (info : RecordInfo)
    (st : RecordState) (m : Summed.mapping) (qs : list Q) :
  summed_columns_missing merged_cols m = false ->
  summed_blank_skip row m = false ->
  summed_zero_skip g row m = false ->
  Forall2 (fun col q => Num.to_Q (Pd.to_numeric_coerce (row_get row col)) = Some q)
    (Summed.cama_cols m) qs ->
  let mls_val := row_get row (Summed.mls_col m) in
  (exists s : Q,
     Num.to_Q (cama_sum row m) = Some s /\ s == arith_sum qs /\
     forall x, numeric_value mls_val = Some x ->
       values_equal g mls_val (VNum (cama_sum row m))
       = Np.within_tol (NUMERIC_TOLERANCE g) x s)
  /\ summed_rule g merged_cols row info st m
     = (if values_equal g mls_val (VNum (cama_sum row m))
        then compared (Summed.mls_col m) st
        else mismatched (summed_entry row info m) (compared (Summed.mls_col m) st))
  /\ summed_rule default_globals Demo.merged_cols
       (Demo.below_grade_row (Demo.int 800) (Demo.int 300) (Demo.int 200) (Demo.int 300))
       info st Demo.below_grade
     = compared "Below Grade Finished Area" st
  /\ perfect_entries info
       (run_rules default_globals Demo.merged_cols
          (Demo.below_grade_row (Demo.int 800) (Demo.int 300) (Demo.int 200) (Demo.int 300))
          info COLUMNS_TO_COMPARE (Some COLUMNS_TO_COMPARE_SUM)
          (Some COLUMNS_TO_COMPARE_CATEGORICAL))
     = [ {| perfect_info := info;
            Fields_Compared := 1;
            Fields_List := "Below Grade Finished Area" |} ]
  /\ record_mismatches
       (summed_rule default_globals Demo.merged_cols
          (Demo.below_grade_row (Demo.int 800) (Demo.int 300) (Demo.int 200) (Demo.int 250))
          info new_record Demo.below_grade)
     = [ {| mismatch_info := info;
            Field_MLS := "Below Grade Finished Area";
            Field_CAMA := "SUM(RECROMAREA, FINBSMTAREA, UFEATAREA)";
            MLS_Value := Demo.int 800;
            CAMA_Value := Demo.int 750;
            mismatch_detail := Difference "50.00" |} ].
Proof.
  intros Hcols Hblank Hzero Hnums mls_val.
  split; [|split; [|repeat split]].
  - destruct (sum_columns_arith _ _ _ Hnums) as (s & Hs & E).
    exists s. repeat split; try assumption.
    intros x Hx. now apply values_equal_numbers.
  - now rewrite summed_rule_shape, Hcols, Hblank, Hzero.
Qed.

Lemma summed_rule_compares_sum_witness :
  exists s : Q,
    Num.to_Q (cama_sum
                (Demo.below_grade_row (Demo.int 800) (VStr "300") (Demo.int 200) (Demo.int 250))
                Demo.below_grade) = Some s
    /\ s == arith_sum [300; 200; 250]
    /\ forall x,
         numeric_value (Demo.int 800) = Some x ->
         values_equal default_globals (Demo.int 800)
           (VNum (cama_sum
                    (Demo.below_grade_row (Demo.int 800) (VStr "300") (Demo.int 200)
                       (Demo.int 250))
                    Demo.below_grade))
         = Np.within_tol (1 # 100) x s.
Proof.
  refine (proj1 (summed_rule_compares_sum default_globals Demo.merged_cols
                   (Demo.below_grade_row (Demo.int 800) (VStr "300") (Demo.int 200)
                      (Demo.int 250))
                   (Demo.info [])
                   new_record Demo.below_grade [300; 200; 250]
                   eq_refl eq_refl eq_refl _)).
  repeat constructor.
Defined.

(* ================================================================== *)
(** ** C7: the categorical rule on the cooling field *)

Lemma within_tol_one_zero atol : atol < 1 -> Np.within_tol atol 1 0 = false.
Proof.
  intros H. unfold Np.within_tol.
  destruct (Qle_bool _ _) eqn:E; [|reflexivity].
  apply Qle_bool_iff in E.
  change (Qabs (1 - 0)) with 1 in E. change (Qabs 0) with 0 in E.
  unfold Np.rtol in E. lra.
Qed.

(** The state the cooling rule leaves, for the two listings of the
    example. *)
Lemma categorical_rule_cooling_states
    (g : Globals) (info : RecordInfo) (st : RecordState) :
  0 <= NUMERIC_TOLERANCE g -> NUMERIC_TOLERANCE g < 1 ->
  categorical_rule g Demo.merged_cols
    (Demo.cooling_row (VStr "Central Air, Ceiling Fan") (Demo.int 1)) info st Demo.cooling
  = compared "Cooling" st
  /\ categorical_rule g Demo.merged_cols
       (Demo.cooling_row (VStr "None") (Demo.int 1)) info st Demo.cooling
     = mismatched
         {| mismatch_info := info;
            Field_MLS := "Cooling";
            Field_CAMA := "HEAT";
            MLS_Value := VStr "None";
            CAMA_Value := Demo.int 1;
            mismatch_detail :=
              Expected_CAMA_Value (Demo.int 0)
                "If 'Central Air' in Cooling, then HEAT should be 1, else 0" |}
         (compared "Cooling" st).
Proof.
  intros Hlo Hhi. split; rewrite categorical_rule_shape.
  - change (categorical_match g _ _ Demo.cooling)
      with (Np.within_tol (NUMERIC_TOLERANCE g) 1 1).
    now rewrite within_tol_refl.
  - change (categorical_match g _ _ Demo.cooling)
      with (Np.within_tol (NUMERIC_TOLERANCE g) 1 0).
    now rewrite within_tol_one_zero.
Qed.

(** C7.  For the rule "Central Air" in Cooling, expected 1 if found and 0
    otherwise, not case sensitive, and any tolerance from 0 up to but not
    including 1.  With the text "Central Air, Ceiling Fan" and CAMA = 1 the
    rule passes: the mismatch entries of the record stay as they were and
    the field is added to the fields compared; run on its own, the record
    is reported as a perfect match and has no mismatch entry.  With the
    text "None" and CAMA = 1 the rule adds exactly one entry after the
    entries the record already has, and its expected CAMA value is 0; run
    on its own, the record has this one mismatch entry and is not a
    perfect match. *)
Theorem categorical_rule_central_air
    (g : Globals) (info : RecordInfo) (st : RecordState) (acc : Collections) :
  0 <= NUMERIC_TOLERANCE g -> NUMERIC_TOLERANCE g < 1 ->
  let with_air := Demo.cooling_row (VStr "Central Air, Ceiling Fan") (Demo.int 1) in
  let without := Demo.cooling_row (VStr "None") (Demo.int 1) in
  let entry := fun info : RecordInfo =>
    {| mismatch_info := info;
       Field_MLS := "Cooling";
       Field_CAMA := "HEAT";
       MLS_Value := VStr "None";
       CAMA_Value := Demo.int 1;
       mismatch_detail :=
         Expected_CAMA_Value (Demo.int 0)
           "If 'Central Air' in Cooling, then HEAT should be 1, else 0" |} in
  let run := fun row : Row =>
    process_row g Demo.merged_cols "PARID" [] None (Some [Demo.cooling]) acc
      {| _merge := both; cells := row |} in
  (record_mismatches (categorical_rule g Demo.merged_cols with_air info st Demo.cooling)
   = record_mismatches st
   /\ fields_compared (categorical_rule g Demo.merged_cols with_air info st Demo.cooling)
      = (fields_compared st ++ ["Cooling"])%list)
  /\ (record_mismatches (categorical_rule g Demo.merged_cols without info st Demo.cooling)
      = (record_mismatches st ++ [entry info])%list
      /\ fields_compared (categorical_rule g Demo.merged_cols without info st Demo.cooling)
         = (fields_compared st ++ ["Cooling"])%list)
  /\ (value_mismatches (run with_air) = value_mismatches acc
      /\ perfect_matches (run with_air)
         = (perfect_matches acc
            ++ [ {| perfect_info := record_info "PARID" with_air;
                    Fields_Compared := 1;
                    Fields_List := "Cooling" |} ])%list)
  /\ (value_mismatches (run without)
      = (value_mismatches acc ++ [entry (record_info "PARID" without)])%list
      /\ perfect_matches (run without) = perfect_matches acc).
Proof.
  intros Hlo Hhi with_air without entry run.
  destruct (categorical_rule_cooling_states g info st Hlo Hhi) as [Hpass Hfail].
  fold with_air in Hpass. fold without in Hfail.
  split; [|split; [|split]].
  - rewrite Hpass. split; reflexivity.
  - rewrite Hfail. split; reflexivity.
  - destruct (categorical_rule_cooling_states g (record_info "PARID" with_air) new_record
                Hlo Hhi) as [Hrun _].
    fold with_air in Hrun.
    unfold run, process_row, compare_record. cbn [_merge cells].
    rewrite run_rules_folds. cbn [fold_left rules_of].
    rewrite Hrun. cbn. rewrite app_nil_r. split; reflexivity.
  - destruct (categorical_rule_cooling_states g (record_info "PARID" without) new_record
                Hlo Hhi) as [_ Hrun].
    fold without in Hrun.
    unfold run, process_row, compare_record. cbn [_merge cells].
    rewrite run_rules_folds. cbn [fold_left rules_of].
    rewrite Hrun. cbn. rewrite app_nil_r. split; reflexivity.
Qed.

Lemma categorical_rule_central_air_witness :
  let with_air := Demo.cooling_row (VStr "Central Air, Ceiling Fan") (Demo.int 1) in
  let without := Demo.cooling_row (VStr "None") (Demo.int 1) in
  let run := fun row : Row =>
    process_row default_globals Demo.merged_cols "PARID" [] None (Some [Demo.cooling])
      no_collections {| _merge := both; cells := row |} in
  (value_mismatches (run with_air) = []
   /\ perfect_matches (run with_air)
      = [ {| perfect_info := record_info "PARID" with_air;
             Fields_Compared := 1;
             Fields_List := "Cooling" |} ])
  /\ (value_mismatches (run without)
      = [ {| mismatch_info := record_info "PARID" without;
             Field_MLS := "Cooling";
             Field_CAMA := "HEAT";
             MLS_Value := VStr "None";
             CAMA_Value := Demo.int 1;
             mismatch_detail :=
               Expected_CAMA_Value (Demo.int 0)
                 "If 'Central Air' in Cooling, then HEAT should be 1, else 0" |} ]
      /\ perfect_matches (run without) = []).
Proof.
  intros with_air without run.
  refine (proj2 (proj2 (categorical_rule_central_air default_globals
                          (Demo.info []) new_record no_collections _ _)));
    vm_compute; [discriminate|reflexivity].
Defined.

(* ================================================================== *)
(** ** C8: non-numeric operands of a categorical rule *)

(** With [errors='coerce'] the conversions do not raise, so the [try]
    always returns and the comparison of texts is never reached. *)
Lemma categorical_match_never_falls_back g mls_val cama_val m :
  let cama_numeric := Pd.to_numeric_coerce cama_val in
  let expected_numeric := Pd.to_numeric_coerce (expected_cama mls_val m) in
  categorical_match g mls_val cama_val m =
  if Num.isna cama_numeric && Num.isna expected_numeric then true
  else if Num.isna cama_numeric || Num.isna expected_numeric then false
  else Np.isclose (NUMERIC_TOLERANCE g) cama_numeric expected_numeric.
Proof.
  reflexivity.
Qed.

(** Two operands that are both null or unparseable always match: the
    conversions return [NaN] for both and the texts are never compared. *)
Lemma categorical_match_both_nan g mls_val cama_val m :
  Pd.to_numeric_coerce cama_val = NaN ->
  Pd.to_numeric_coerce (expected_cama mls_val m) = NaN ->
  categorical_match g mls_val cama_val m = true.
Proof.
  unfold categorical_match, expected_cama, Pd.to_numeric. intros Hc He.
  rewrite Hc.
  destruct (Categorical.case_sensitive m); simpl in *;
    destruct (PyStr.contains _ _); rewrite He; reflexivity.
Qed.

(** C8 fails on the code.  With the expected value "No" for a listing that
    has central air, the CAMA text "Yes" is scored as a match: neither
    operand parses, both conversions give [NaN], and the rule passes
    without an entry, although the two texts differ.  With the expected
    value "yes" the same CAMA text passes as well, for the same reason. *)
Theorem categorical_match_ignores_texts :
  expected_cama (VStr "Central Air") Demo.cooling_text = VStr "No"
  /\ Pd.to_numeric (VStr "Yes") Pd.raise = None
  /\ Pd.to_numeric (VStr "No") Pd.raise = None
  /\ Pd.to_numeric (VStr "Yes") Pd.coerce = Some NaN
  /\ Pd.to_numeric (VStr "No") Pd.coerce = Some NaN
  /\ text_equal_spec (VStr "Yes") (VStr "No") = false
  /\ categorical_match default_globals (VStr "Central Air") (VStr "Yes") Demo.cooling_text
     = true
  /\ record_mismatches
       (categorical_rule default_globals Demo.merged_cols
          (Demo.cooling_row (VStr "Central Air") (VStr "Yes"))
          (Demo.info (Demo.cooling_row (VStr "Central Air") (VStr "Yes")))
          new_record Demo.cooling_text)
     = []
  /\ categorical_match default_globals (VStr "Central Air") (VStr "Yes")
       (Categorical.mk "Cooling" "HEAT" "Central Air" (VStr "yes") (VStr "None") false)
     = true.
Proof.
  repeat split.
Qed.

(* ================================================================== *)
(** ** The state a run reads and writes

    C9 speaks of running the program twice.  The engine is a function
    here, so that two runs on the same inputs and settings agree holds of
    the embedding by construction and says nothing about the program; it
    is not stated.  What the embedding does show is which part of the
    state a run touches. *)

(** A run reads the globals and may add an error message to the page; it
    changes nothing else. *)
Lemma reconcile_keeps_globals s df_mls df_cama ids direct summed categorical :
  globals (snd (reconcile s df_mls df_cama ids direct summed categorical)) = globals s.
Proof.
  unfold reconcile, compare_data_enhanced.
  destruct df_mls as [mls|], df_cama as [cama|]; try reflexivity.
  destruct (negb (mem (id_mls_col ids) (columns mls))); [reflexivity|].
  destruct (negb (mem (id_cama_col ids) (columns cama))); reflexivity.
Qed.

Lemma reconcile_reads_globals_only s s' df_mls df_cama ids direct summed categorical :
  globals s' = globals s ->
  fst (reconcile s' df_mls df_cama ids direct summed categorical)
  = fst (reconcile s df_mls df_cama ids direct summed categorical).
Proof.
  unfold reconcile, compare_data_enhanced. intros Hg.
  destruct df_mls as [mls|], df_cama as [cama|]; try reflexivity.
  destruct (negb (mem (id_mls_col ids) (columns mls))); [reflexivity|].
  destruct (negb (mem (id_cama_col ids) (columns cama))); [reflexivity|].
  unfold bind, read_globals, ret. simpl. now rewrite Hg.
Qed.

(** The scenario of the specification: listings A and B against parcels B
    and C. *)
Example reconcile_two_by_two :
  let res := fst (reconcile Demo.state0 (Some Demo.df_mls) (Some Demo.df_cama)
                    UNIQUE_ID_COLUMN COLUMNS_TO_COMPARE (Some COLUMNS_TO_COMPARE_SUM)
                    (Some COLUMNS_TO_COMPARE_CATEGORICAL)) in
  map cama_missing_Parcel_ID (res_missing_in_cama res) = [VStr "A"]
  /\ map mls_missing_Parcel_ID (res_missing_in_mls res) = [VStr "C"]
  /\ map (fun r => row_get r "PARID") (rows (res_matched_df res)) = [VStr "B"]
  /\ res_value_mismatches res = []
  /\ map (fun p => (Parcel_ID (perfect_info p), Fields_List p)) (res_perfect_matches res)
     = [(VStr "B", "Bedrooms Total")].
Proof.
  repeat split.
Qed.

(* ================================================================== *)
(** ** C10: the blank policy of a summed rule is per side *)

(** C10.  In a summed rule the CAMA side counts as blank only when every
    listed component is null.  The sum runs over the components that are
    present: a null component adds nothing.  With the columns present, the
    rule is skipped without trace when the MLS value is blank or every
    component is null; otherwise, as soon as one component is present, the
    field is tracked and, unless the zero guard fires, the MLS value is
    compared with that partial sum. *)
Theorem summed_rule_blank_policy
    (g : Globals) (merged_cols : list string) (row : Row) (info : RecordInfo)
    (st : RecordState) (m : Summed.mapping) :
  let mls_val := row_get row (Summed.mls_col m) in
  let partial_sum :=
    fold_left Num.add
      (map (fun col => Pd.to_numeric_coerce (row_get row col))
           (present_components row (Summed.cama_cols m)))
      (NInt 0) in
  all_cama_blank row m = forallb (fun col => Pd.isna (row_get row col)) (Summed.cama_cols m)
  /\ cama_sum row m = partial_sum
  /\ (is_blank mls_val = true \/ all_cama_blank row m = true ->
      summed_rule g merged_cols row info st m = st)
  /\ (summed_columns_missing merged_cols m = false ->
      is_blank mls_val = false ->
      forall col, In col (Summed.cama_cols m) -> Pd.notna (row_get row col) = true ->
      fields_compared (summed_rule g merged_cols row info st m)
      = (fields_compared st ++ [Summed.mls_col m])%list
      /\ (summed_zero_skip g row m = false ->
          summed_rule g merged_cols row info st m
          = if values_equal g mls_val (VNum partial_sum)
            then compared (Summed.mls_col m) st
            else mismatched (summed_entry row info m) (compared (Summed.mls_col m) st))).
Proof.
  intros mls_val partial_sum.
  assert (Hblank : all_cama_blank row m
                   = forallb (fun col => Pd.isna (row_get row col)) (Summed.cama_cols m)).
  { unfold all_cama_blank, sum_columns. now rewrite sum_columns_from. }
  assert (Hsum : cama_sum row m = partial_sum).
  { unfold cama_sum, sum_columns. now rewrite sum_columns_from. }
  split; [exact Hblank|]. split; [exact Hsum|]. split.
  - intros H. rewrite summed_rule_shape.
    assert (Hb : summed_blank_skip row m = true).
    { unfold summed_blank_skip. fold mls_val. apply orb_true_iff. tauto. }
    rewrite Hb. now destruct (summed_columns_missing merged_cols m).
  - intros Hcols Hmls col Hin Hcol.
    assert (Hb : summed_blank_skip row m = false).
    { unfold summed_blank_skip. fold mls_val. rewrite Hmls, Hblank. simpl.
      destruct (forallb _ _) eqn:E; [|reflexivity].
      rewrite forallb_forall in E. specialize (E col Hin).
      unfold Pd.notna in Hcol. rewrite E in Hcol. discriminate. }
    split.
    + rewrite summed_rule_fields. unfold summed_tracked. now rewrite Hcols, Hb.
    + intros Hz. rewrite summed_rule_shape, Hcols, Hb, Hz. fold mls_val.
      now rewrite Hsum.
Qed.

Lemma summed_rule_blank_policy_witness :
  summed_rule default_globals Demo.merged_cols
    (Demo.below_grade_row (Demo.int 800) (VNum NaN) (VNum NaN) (VNum NaN))
    (Demo.info []) new_record Demo.below_grade = new_record
  /\ summed_rule default_globals Demo.merged_cols
       (Demo.below_grade_row (Demo.int 800) (Demo.int 300) (VNum NaN) (Demo.int 500))
       (Demo.info []) new_record Demo.below_grade
     = compared "Below Grade Finished Area" new_record.
Proof.
  split.
  - apply (summed_rule_blank_policy default_globals Demo.merged_cols
             (Demo.below_grade_row (Demo.int 800) (VNum NaN) (VNum NaN) (VNum NaN))).
    right. reflexivity.
  - pose proof (summed_rule_blank_policy default_globals Demo.merged_cols
                  (Demo.below_grade_row (Demo.int 800) (Demo.int 300) (VNum NaN)
                     (Demo.int 500))
                  (Demo.info []) new_record Demo.below_grade) as (_ & _ & _ & H).
    destruct (H eq_refl eq_refl "UFEATAREA") as [_ Heval].
    + simpl. tauto.
    + reflexivity.
    + rewrite (Heval eq_refl). reflexivity.
Defined.

(* ================================================================== *)
(** * Further properties of the comparator *)

Lemma numeric_value_raise v x :
  numeric_value v = Some x ->
  exists n, Pd.to_numeric_raise v = Some n /\ Num.to_Q n = Some x /\ Num.isna n = false.
Proof.
  unfold numeric_value. destruct (Pd.to_numeric_raise v) as [n|]; [|discriminate].
  intros H. exists n. repeat split; [exact H|]. now destruct n.
Qed.

Lemma coerce_numeric_value v x :
  Num.to_Q (Pd.to_numeric_coerce v) = Some x -> numeric_value v = Some x.
Proof.
  unfold numeric_value, Pd.to_numeric_coerce.
  now destruct (Pd.to_numeric_raise v).
Qed.

(** On two values that convert to numbers [values_equal] is the tolerance
    test. *)
Lemma values_equal_numeric g a b x y :
  numeric_value a = Some x -> numeric_value b = Some y ->
  values_equal g a b = Np.within_tol (NUMERIC_TOLERANCE g) x y.
Proof.
  intros Ha Hb.
  destruct (numeric_value_raise _ _ Ha) as (n1 & R1 & Q1 & N1).
  destruct (numeric_value_raise _ _ Hb) as (n2 & R2 & Q2 & N2).
  unfold values_equal, Np.isclose. now rewrite R1, R2, N1, N2, Q1, Q2.
Qed.

Lemma within_tol_equal atol x y : 0 <= atol -> x == y -> Np.within_tol atol x y = true.
Proof.
  intros Hatol E. unfold Np.within_tol. apply Qle_bool_iff.
  assert (E0 : x - y == 0) by (rewrite E; ring).
  rewrite E0. simpl (Qabs 0).
  pose proof (Qabs_nonneg y) as Hy.
  assert (Hr : 0 <= Np.rtol * Qabs y).
  { apply Qmult_le_0_compat; [discriminate|exact Hy]. }
  lra.
Qed.

Lemma within_tol_monotone atol atol' x y :
  atol <= atol' -> Np.within_tol atol x y = true -> Np.within_tol atol' x y = true.
Proof.
  unfold Np.within_tol. intros Hle H.
  apply Qle_bool_iff in H. apply Qle_bool_iff. lra.
Qed.

(** Raising the tolerance never turns an equal pair into an unequal one. *)
Theorem values_equal_tolerance_monotone (g g' : Globals) (a b : value) :
  NUMERIC_TOLERANCE g <= NUMERIC_TOLERANCE g' ->
  values_equal g a b = true -> values_equal g' a b = true.
Proof.
  intros Hle. unfold values_equal.
  destruct (Pd.to_numeric_raise a) as [n1|], (Pd.to_numeric_raise b) as [n2|];
    try (intros H; exact H).
  destruct (Num.isna n1 && Num.isna n2); [reflexivity|].
  destruct (negb (Bool.eqb (Num.isna n1) (Num.isna n2))); [discriminate|].
  unfold Np.isclose.
  destruct (Num.to_Q n1), (Num.to_Q n2); try discriminate.
  now apply within_tol_monotone.
Qed.

Lemma values_equal_tolerance_monotone_witness :
  values_equal {| NUMERIC_TOLERANCE := 1 # 2; SKIP_ZERO_VALUES := true |}
    (VStr "100.00") (VStr "100.01") = true.
Proof.
  apply (values_equal_tolerance_monotone default_globals); [|reflexivity].
  vm_compute; discriminate.
Defined.

(** Two values that denote the same number compare equal under any
    non-negative tolerance, however each is written: an int, a float or a
    text. *)
Theorem values_equal_same_number (g : Globals) (a b : value) (x y : Q) :
  0 <= NUMERIC_TOLERANCE g ->
  numeric_value a = Some x -> numeric_value b = Some y -> x == y ->
  values_equal g a b = true.
Proof.
  intros Hatol Ha Hb E.
  rewrite (values_equal_numeric _ _ _ _ _ Ha Hb). now apply within_tol_equal.
Qed.

Lemma values_equal_same_number_witness :
  values_equal default_globals (VStr " 2.50e1 ") (VNum (NInt 25)) = true.
Proof.
  apply (values_equal_same_number default_globals _ _
           (inject_Z 250 * Qpower (inject_Z 10) (1 - 2)) (inject_Z 25)).
  - discriminate.
  - reflexivity.
  - reflexivity.
  - reflexivity.
Defined.

(** A null value never equals a number, whatever the tolerance, and always
    equals a blank; in either order. *)
Theorem values_equal_null (g : Globals) (a b : value) :
  Pd.isna a = true ->
  (forall y, numeric_value b = Some y ->
             values_equal g a b = false /\ values_equal g b a = false)
  /\ (Blank b -> values_equal g a b = true /\ values_equal g b a = true).
Proof.
  intros Ha.
  assert (Ra : Pd.to_numeric_raise a = Some NaN).
  { destruct a as [|n|s]; simpl in *; [reflexivity| |discriminate].
    destruct n; try discriminate; reflexivity. }
  assert (Na : Pd.notna a = false) by (unfold Pd.notna; now rewrite Ha).
  split.
  - intros y Hy.
    destruct (numeric_value_raise _ _ Hy) as (n & R & _ & N).
    unfold values_equal. rewrite Ra, R. simpl. rewrite N. split; reflexivity.
  - intros Hb. unfold values_equal. rewrite Ra, Na.
    destruct Hb as [->|[->|(s & -> & Hs)]]; simpl; try (split; reflexivity).
    unfold Pd.parse_numeric. destruct s as [|c t]; [split; reflexivity|].
    rewrite parse_literal_blank by now apply strip_empty_lstrip.
    unfold Pd.notna. simpl. rewrite Hs. split; reflexivity.
Qed.

Lemma values_equal_null_witness :
  values_equal default_globals (VNum NaN) (VStr "0") = false
  /\ values_equal default_globals (VNum NaN) (VStr "  ") = true.
Proof.
  split.
  - refine (proj1 (proj1 (values_equal_null default_globals (VNum NaN) (VStr "0") eq_refl)
                     0 eq_refl)).
  - refine (proj1 (proj2 (values_equal_null default_globals (VNum NaN) (VStr "  ") eq_refl)
                     _)).
    right; right. exists "  ". split; reflexivity.
Defined.

(* ------------------------------------------------------------------ *)
(** ** [calculate_difference] *)

Lemma contains_app_r needle a b :
  PyStr.contains needle b = true -> PyStr.contains needle (a ++ b) = true.
Proof.
  intros H. induction a as [|c a IH]; simpl; [exact H|].
  rewrite IH. apply orb_true_r.
Qed.

(** A formatted number has a decimal point. *)
Lemma format_2f_has_point q : PyStr.contains "." (Fmt.format_2f q) = true.
Proof.
  unfold Fmt.format_2f. apply contains_app_r, contains_app_r.
  generalize (Fmt.two_digits (Fmt.round_half_even (Qabs q * 100) mod 100)).
  intros digits. destruct digits; reflexivity.
Qed.

Lemma format_2f_not_sentinel q :
  Fmt.format_2f q <> "N/A" /\ Fmt.format_2f q <> "Text difference".
Proof.
  pose proof (format_2f_has_point q) as H.
  split; intros E; rewrite E in H; discriminate.
Qed.

Lemma sub_to_Q a b x y :
  Num.to_Q a = Some x -> Num.to_Q b = Some y ->
  exists d, Num.to_Q (Num.sub a b) = Some d /\ d == x - y.
Proof.
  destruct a as [|za|qa], b as [|zb|qb]; simpl; intros Ha Hb;
    try discriminate; injection Ha as <-; injection Hb as <-;
    eexists; (split; [reflexivity|]); try reflexivity.
  unfold Z.sub. rewrite inject_Z_plus, inject_Z_opp. reflexivity.
Qed.

(** On an integer the format is exact: the digits in groups of three and
    two zero decimals. *)
Lemma format_2f_int z : Fmt.format_2f (inject_Z z) = format_int_2f z.
Proof.
  unfold Fmt.format_2f, format_int_2f.
  assert (Hr : Fmt.round_half_even (Qabs (inject_Z z) * 100) = (Z.abs z * 100)%Z).
  { unfold Fmt.round_half_even. cbn [Qabs inject_Z Qmult Qnum Qden Pos.mul].
    rewrite Z.div_1_r, Z.mod_1_r. reflexivity. }
  rewrite Hr, Z.div_mul, Z.mod_mul by discriminate.
  change (Fmt.two_digits 0) with "00".
  destruct (Qlt_le_dec (inject_Z z) 0) as [H|H]; unfold Qlt, Qle in H; simpl in H;
    destruct (Z.ltb_spec z 0); try lia; reflexivity.
Qed.

(** The three results of [calculate_difference], on values whose
    conversion is exact: nulls, small integers given as numbers or as
    texts, and texts that do not convert.  A text that does not convert
    gives ["Text difference"], also next to a null; a null next to a null
    or an integer gives ["N/A"]; two integers give their difference, first
    minus second, with thousands separators and two zero decimals, which
    is neither of the two words. *)
Theorem calculate_difference_cases (val1 val2 : value) :
  (unparseable val1 = true -> calculate_difference val1 val2 = "Text difference")
  /\ (Pd.isna val1 = true \/ (exists a, exact_int val1 a) ->
      unparseable val2 = true ->
      calculate_difference val1 val2 = "Text difference")
  /\ (Pd.isna val1 = true ->
      Pd.isna val2 = true \/ (exists b, exact_int val2 b) ->
      calculate_difference val1 val2 = "N/A")
  /\ ((exists a, exact_int val1 a) -> Pd.isna val2 = true ->
      calculate_difference val1 val2 = "N/A")
  /\ (forall a b,
        exact_int val1 a -> exact_int val2 b ->
        calculate_difference val1 val2 = format_int_2f (a - b)
        /\ calculate_difference val1 val2 <> "N/A"
        /\ calculate_difference val1 val2 <> "Text difference").
Proof.
  assert (Hnull : forall v, Pd.isna v = true -> Pd.to_numeric_raise v = Some NaN).
  { intros [|n|t]; simpl; try discriminate; [reflexivity|].
    destruct n; try discriminate; reflexivity. }
  assert (Hbad : forall v, unparseable v = true -> Pd.to_numeric_raise v = None).
  { intros [|n|t]; try discriminate. unfold unparseable.
    destruct (Pd.to_numeric_raise (VStr t)); [discriminate|reflexivity]. }
  unfold calculate_difference.
  split; [|split; [|split; [|split]]].
  - intros H1. now rewrite (Hbad _ H1).
  - intros [H1|(a & H1 & _)] H2; rewrite (Hbad _ H2);
      [rewrite (Hnull _ H1)|rewrite H1]; reflexivity.
  - intros H1 [H2|(b & H2 & _)]; rewrite (Hnull _ H1);
      [rewrite (Hnull _ H2)|rewrite H2]; reflexivity.
  - intros (a & H1 & _) H2. rewrite H1, (Hnull _ H2). reflexivity.
  - intros a b [H1 _] [H2 _]. rewrite H1, H2.
    change (Fmt.format_num_2f (Num.sub (NInt a) (NInt b)))
      with (Fmt.format_2f (inject_Z (a - b))).
    cbn [Num.isna orb].
    destruct (format_2f_not_sentinel (inject_Z (a - b))) as [Hna Htext].
    repeat split; [apply format_2f_int|exact Hna|exact Htext].
Qed.

Lemma calculate_difference_cases_witness :
  calculate_difference (VStr "1234567") (VNum (NInt (-750))) = "1,235,317.00"
  /\ calculate_difference (VStr "abc") (VNum NaN) = "Text difference"
  /\ calculate_difference VNone (VStr "12") = "N/A".
Proof.
  split; [|split].
  - exact (proj1 (proj2 (proj2 (proj2 (proj2
             (calculate_difference_cases (VStr "1234567") (VNum (NInt (-750)))))))
             1234567%Z (-750)%Z (conj eq_refl eq_refl) (conj eq_refl eq_refl))).
  - exact (proj1 (calculate_difference_cases (VStr "abc") (VNum NaN)) eq_refl).
  - exact (proj1 (proj2 (proj2 (calculate_difference_cases VNone (VStr "12"))))
             eq_refl (or_intror (ex_intro _ 12%Z (conj eq_refl eq_refl)))).
Defined.

Lemma format_2f_negated d d' :
  Qabs d' = Qabs d -> 0 < d -> d' < 0 ->
  Fmt.format_2f d' = "-" ++ Fmt.format_2f d.
Proof.
  intros Habs Hpos Hneg. unfold Fmt.format_2f. rewrite Habs.
  destruct (Qlt_le_dec d' 0) as [_|H]; [|lra].
  destruct (Qlt_le_dec d 0) as [H|_]; [lra|].
  reflexivity.
Qed.

Lemma Qabs_inject_Z_sub a b :
  Qabs (inject_Z (b - a)) = Qabs (inject_Z (a - b)).
Proof.
  unfold Qabs, inject_Z. f_equal. lia.
Qed.

(** Swapping the operands of a difference flips its sign: when the first
    number is the larger, the difference taken the other way round is the
    same text with a minus sign in front. *)
Theorem calculate_difference_swap (val1 val2 : value) (x y : Q) :
  numeric_value val1 = Some x -> numeric_value val2 = Some y -> y < x ->
  calculate_difference val2 val1 = "-" ++ calculate_difference val1 val2.
Proof.
  intros Hx Hy Hlt.
  destruct (numeric_value_raise _ _ Hx) as (n1 & R1 & Q1 & N1).
  destruct (numeric_value_raise _ _ Hy) as (n2 & R2 & Q2 & N2).
  unfold calculate_difference. rewrite R1, R2, N1, N2. simpl.
  unfold Fmt.format_num_2f.
  destruct n1 as [|z1|q1], n2 as [|z2|q2]; try discriminate; simpl in *;
    injection Q1 as <-; injection Q2 as <-.
  - apply format_2f_negated.
    + apply Qabs_inject_Z_sub.
    + rewrite <- Zlt_Qlt in Hlt. change 0 with (inject_Z 0). rewrite <- Zlt_Qlt. lia.
    + rewrite <- Zlt_Qlt in Hlt. change 0 with (inject_Z 0). rewrite <- Zlt_Qlt. lia.
  - apply format_2f_negated; [apply Qabs_Qminus|lra|lra].
  - apply format_2f_negated; [apply Qabs_Qminus|lra|lra].
  - apply format_2f_negated; [apply Qabs_Qminus|lra|lra].
Qed.

Lemma calculate_difference_swap_witness :
  calculate_difference (VNum (NInt 750)) (VStr "800.5")
  = "-" ++ calculate_difference (VStr "800.5") (VNum (NInt 750)).
Proof.
  apply (calculate_difference_swap (VStr "800.5") (VNum (NInt 750))
           (inject_Z 8005 * Qpower (inject_Z 10) (0 - 1)) (inject_Z 750)).
  - reflexivity.
  - reflexivity.
  - vm_compute. reflexivity.
Defined.

(* ================================================================== *)
(** * Further properties of the engine *)

Lemma fold_left_ext {A B : Type} (f f' : A -> B -> A) (l : list B) (a : A) :
  (forall a b, f a b = f' a b) -> fold_left f l a = fold_left f' l a.
Proof.
  intros H. revert a. induction l as [|b l IH]; intros a; simpl; [reflexivity|].
  now rewrite H, IH.
Qed.

(** ** The zero-skip setting *)

(** Two values that both convert to zero are equal under a non-negative
    tolerance. *)
Lemma zeros_are_equal g a b :
  0 <= NUMERIC_TOLERANCE g ->
  numeric_zero (Pd.to_numeric_coerce a) = true ->
  Num.is_zero (Pd.to_numeric_coerce b) = true ->
  values_equal g a b = true.
Proof.
  intros Hatol Ha Hb.
  destruct (numeric_zero_to_Q _ Ha) as (x & Hx & Ex).
  assert (exists y, Num.to_Q (Pd.to_numeric_coerce b) = Some y /\ y == 0) as (y & Hy & Ey).
  { unfold Num.is_zero in Hb. destruct (Num.to_Q (Pd.to_numeric_coerce b)) as [y|];
      [|discriminate]. exists y. split; [reflexivity|]. now apply Qeq_bool_iff. }
  rewrite (values_equal_numeric g a b x y)
    by now apply coerce_numeric_value.
  apply within_tol_equal; [exact Hatol|]. now rewrite Ex, Ey.
Qed.

Section Zero_skip.

Variable atol : Q.
Hypothesis atol_nonneg : 0 <= atol.
Variable merged_cols : list string.
Variable row : Row.
Variable info : RecordInfo.

Lemma values_equal_skip_setting a b :
  values_equal (mkGlobals atol true) a b = values_equal (mkGlobals atol false) a b.
Proof. reflexivity. Qed.

Lemma categorical_match_skip_setting a b m :
  categorical_match (mkGlobals atol true) a b m = categorical_match (mkGlobals atol false) a b m.
Proof. reflexivity. Qed.

Lemma direct_rule_skip_setting st m :
  direct_rule (mkGlobals atol true) merged_cols row info st m
  = direct_rule (mkGlobals atol false) merged_cols row info st m.
Proof.
  rewrite !direct_rule_shape.
  destruct (direct_columns_missing merged_cols m); [reflexivity|].
  destruct (direct_blank_skip row m); [reflexivity|].
  rewrite values_equal_skip_setting.
  unfold direct_zero_skip at 2. simpl.
  destruct (direct_zero_skip (mkGlobals atol true) row m) eqn:Hz; [|reflexivity].
  unfold direct_zero_skip in Hz. simpl in Hz.
  apply andb_true_iff in Hz as [Hm Hc].
  unfold numeric_zero in Hc. apply andb_true_iff in Hc as [_ Hc].
  now rewrite <- values_equal_skip_setting, (zeros_are_equal (mkGlobals atol true)).
Qed.

Lemma summed_rule_skip_setting st m :
  summed_rule (mkGlobals atol true) merged_cols row info st m
  = summed_rule (mkGlobals atol false) merged_cols row info st m.
Proof.
  rewrite !summed_rule_shape.
  destruct (summed_columns_missing merged_cols m); [reflexivity|].
  destruct (summed_blank_skip row m); [reflexivity|].
  rewrite values_equal_skip_setting.
  unfold summed_zero_skip at 2. simpl.
  destruct (summed_zero_skip (mkGlobals atol true) row m) eqn:Hz; [|reflexivity].
  unfold summed_zero_skip in Hz. simpl in Hz.
  apply andb_true_iff in Hz as [Hm Hc].
  rewrite <- values_equal_skip_setting, (zeros_are_equal (mkGlobals atol true));
    [reflexivity|assumption..].
Qed.

Lemma categorical_rule_skip_setting st m :
  categorical_rule (mkGlobals atol true) merged_cols row info st m
  = categorical_rule (mkGlobals atol false) merged_cols row info st m.
Proof.
  rewrite !categorical_rule_shape. now rewrite categorical_match_skip_setting.
Qed.

Lemma run_rules_skip_setting direct summed categorical :
  run_rules (mkGlobals atol true) merged_cols row info direct summed categorical
  = run_rules (mkGlobals atol false) merged_cols row info direct summed categorical.
Proof.
  rewrite !run_rules_folds.
  rewrite (fold_left_ext _ _ direct _ direct_rule_skip_setting).
  rewrite (fold_left_ext _ _ (rules_of summed) _ summed_rule_skip_setting).
  now rewrite (fold_left_ext _ _ (rules_of categorical) _ categorical_rule_skip_setting).
Qed.

End Zero_skip.

(** Under a non-negative tolerance the zero-skip setting changes nothing:
    with [SKIP_ZERO_VALUES] on or off the run returns the same five
    collections.  The only pairs the zero guard skips are pairs that
    [values_equal] accepts anyway. *)
Theorem zero_skip_setting_is_immaterial
    (atol : Q) (log log' : list string) (df_mls df_cama : option DataFrame)
    (ids : IdColumns) (direct : list Direct.mapping)
    (summed : option (list Summed.mapping))
    (categorical : option (list Categorical.mapping)) :
  0 <= atol ->
  fst (reconcile {| globals := {| NUMERIC_TOLERANCE := atol; SKIP_ZERO_VALUES := true |};
                    shown_errors := log |}
         df_mls df_cama ids direct summed categorical)
  = fst (reconcile {| globals := {| NUMERIC_TOLERANCE := atol; SKIP_ZERO_VALUES := false |};
                      shown_errors := log' |}
           df_mls df_cama ids direct summed categorical).
Proof.
  intros Hatol. unfold reconcile, compare_data_enhanced.
  destruct df_mls as [mls|], df_cama as [cama|]; try reflexivity.
  destruct (negb (mem (id_mls_col ids) (columns mls))); [reflexivity|].
  destruct (negb (mem (id_cama_col ids) (columns cama))); [reflexivity|].
  unfold bind, read_globals, ret. simpl.
  unfold process_rows.
  erewrite fold_left_ext; [reflexivity|].
  intros acc mrow. unfold process_row, compare_record.
  now rewrite (run_rules_skip_setting atol Hatol).
Qed.

Lemma zero_skip_setting_is_immaterial_witness :
  fst (reconcile {| globals := {| NUMERIC_TOLERANCE := 1 # 100; SKIP_ZERO_VALUES := true |};
                    shown_errors := [] |}
         (Some Demo.df_mls) (Some Demo.df_cama) UNIQUE_ID_COLUMN COLUMNS_TO_COMPARE
         (Some COLUMNS_TO_COMPARE_SUM) (Some COLUMNS_TO_COMPARE_CATEGORICAL))
  = fst (reconcile {| globals := {| NUMERIC_TOLERANCE := 1 # 100; SKIP_ZERO_VALUES := false |};
                      shown_errors := [] |}
           (Some Demo.df_mls) (Some Demo.df_cama) UNIQUE_ID_COLUMN COLUMNS_TO_COMPARE
           (Some COLUMNS_TO_COMPARE_SUM) (Some COLUMNS_TO_COMPARE_CATEGORICAL)).
Proof.
  apply zero_skip_setting_is_immaterial. discriminate.
Defined.

(** ** Rows are processed one by one *)

Section Rows.

Variable g : Globals.
Variable merged_cols : list string.
Variable cama_id_col_name : string.
Variable direct : list Direct.mapping.
Variable summed : option (list Summed.mapping).
Variable categorical : option (list Categorical.mapping).

(** The loop body appends to the four lists and reads none of them. *)
Lemma process_row_appends acc mrow :
  let step := process_row g merged_cols cama_id_col_name direct summed categorical in
  missing_in_cama (step acc mrow)
  = (missing_in_cama acc ++ missing_in_cama (step no_collections mrow))%list
  /\ missing_in_mls (step acc mrow)
     = (missing_in_mls acc ++ missing_in_mls (step no_collections mrow))%list
  /\ value_mismatches (step acc mrow)
     = (value_mismatches acc ++ value_mismatches (step no_collections mrow))%list
  /\ perfect_matches (step acc mrow)
     = (perfect_matches acc ++ perfect_matches (step no_collections mrow))%list.
Proof.
  intros step. unfold step, process_row.
  destruct (_merge mrow); simpl; rewrite ?app_nil_r; repeat split; reflexivity.
Qed.

(** A loop started from lists that are not empty returns them followed
    by what the loop collects on its own. *)
Lemma process_rows_from mrows acc :
  let step := process_row g merged_cols cama_id_col_name direct summed categorical in
  let run := process_rows g merged_cols cama_id_col_name direct summed categorical in
  missing_in_cama (fold_left step mrows acc)
  = (missing_in_cama acc ++ missing_in_cama (run mrows))%list
  /\ missing_in_mls (fold_left step mrows acc)
     = (missing_in_mls acc ++ missing_in_mls (run mrows))%list
  /\ value_mismatches (fold_left step mrows acc)
     = (value_mismatches acc ++ value_mismatches (run mrows))%list
  /\ perfect_matches (fold_left step mrows acc)
     = (perfect_matches acc ++ perfect_matches (run mrows))%list.
Proof.
  intros step run. unfold run, process_rows. fold step.
  revert acc. induction mrows as [|mrow mrows IH]; intros acc; simpl.
  - rewrite !app_nil_r. repeat split; reflexivity.
  - destruct (IH (step acc mrow)) as (A1 & A2 & A3 & A4).
    destruct (IH (step no_collections mrow)) as (B1 & B2 & B3 & B4).
    destruct (process_row_appends acc mrow) as (C1 & C2 & C3 & C4). fold step in C1, C2, C3, C4.
    rewrite A1, A2, A3, A4, B1, B2, B3, B4, C1, C2, C3, C4.
    rewrite <- !app_assoc. repeat split; reflexivity.
Qed.

End Rows.

(** The run has no dependency between rows: the collections of two row
    sets put one after the other are the collections of the first followed
    by the collections of the second. *)
Theorem rows_are_processed_independently
    (g : Globals) (merged_cols : list string) (cama_id_col_name : string)
    (direct : list Direct.mapping) (summed : option (list Summed.mapping))
    (categorical : option (list Categorical.mapping)) (rows1 rows2 : list MergedRow) :
  let run := process_rows g merged_cols cama_id_col_name direct summed categorical in
  missing_in_cama (run (rows1 ++ rows2)%list)
  = (missing_in_cama (run rows1) ++ missing_in_cama (run rows2))%list
  /\ missing_in_mls (run (rows1 ++ rows2)%list)
     = (missing_in_mls (run rows1) ++ missing_in_mls (run rows2))%list
  /\ value_mismatches (run (rows1 ++ rows2)%list)
     = (value_mismatches (run rows1) ++ value_mismatches (run rows2))%list
  /\ perfect_matches (run (rows1 ++ rows2)%list)
     = (perfect_matches (run rows1) ++ perfect_matches (run rows2))%list.
Proof.
  intros run. unfold run.
  assert (E : process_rows g merged_cols cama_id_col_name direct summed categorical
                (rows1 ++ rows2)%list
              = fold_left
                  (process_row g merged_cols cama_id_col_name direct summed categorical)
                  rows2
                  (process_rows g merged_cols cama_id_col_name direct summed categorical
                     rows1))
    by (unfold process_rows; apply fold_left_app).
  rewrite E. apply process_rows_from.
Qed.

Lemma process_rows_missing
    (g : Globals) (merged_cols : list string) (cama_id_col_name : string)
    (direct : list Direct.mapping) (summed : option (list Summed.mapping))
    (categorical : option (list Categorical.mapping)) (mrows : list MergedRow) :
  let acc := process_rows g merged_cols cama_id_col_name direct summed categorical mrows in
  missing_in_cama acc
  = map (missing_in_cama_entry cama_id_col_name) (filter (has_status left_only) mrows)
  /\ missing_in_mls acc
     = map (missing_in_mls_entry cama_id_col_name) (filter (has_status right_only) mrows).
Proof.
  intros acc. unfold acc. induction mrows as [|mrow mrows IH]; [split; reflexivity|].
  unfold process_rows. simpl fold_left.
  destruct (process_rows_from g merged_cols cama_id_col_name direct summed categorical
              mrows (process_row g merged_cols cama_id_col_name direct summed categorical
                       no_collections mrow)) as (A1 & A2 & _ & _).
  rewrite A1, A2. destruct IH as [IH1 IH2]. rewrite IH1, IH2.
  unfold process_row, has_status. simpl filter.
  destruct (_merge mrow); simpl; split; reflexivity.
Qed.

(** A row found in one table only is reported once, in its missing list,
    with its identifier; the two missing lists hold nothing else and keep
    the order of the join.  Rules and settings play no part. *)
Theorem unmatched_rows_are_reported_missing
    (g : Globals) (merged_cols : list string) (cama_id_col_name : string)
    (direct : list Direct.mapping) (summed : option (list Summed.mapping))
    (categorical : option (list Categorical.mapping)) (mrows : list MergedRow) :
  let acc := process_rows g merged_cols cama_id_col_name direct summed categorical mrows in
  missing_in_cama acc
  = map (missing_in_cama_entry cama_id_col_name) (filter (has_status left_only) mrows)
  /\ missing_in_mls acc
     = map (missing_in_mls_entry cama_id_col_name) (filter (has_status right_only) mrows).
Proof.
  apply process_rows_missing.
Qed.

(** ** The mismatch entries of a record *)

Section Loop_invariants.

Context {A : Type}.
Variable step : RecordState -> A -> RecordState.

Lemma fold_adds_only (P : A -> Mismatch -> Prop) (Q : Mismatch -> Prop) (l : list A) :
  adds_only step P ->
  (forall m entry, In m l -> P m entry -> Q entry) ->
  forall st, Forall Q (record_mismatches st) ->
             Forall Q (record_mismatches (fold_left step l st)).
Proof.
  intros Hstep. induction l as [|m l IH]; intros HQ st Hst; simpl; [exact Hst|].
  apply IH.
  - intros m' e Hin. apply HQ. now right.
  - destruct (Hstep st m) as [E|(e & E & He)]; rewrite E; [exact Hst|].
    apply Forall_app. split; [exact Hst|].
    constructor; [|constructor]. apply (HQ m); [now left|exact He].
Qed.

Lemma fold_keeps_entries (P : A -> Mismatch -> Prop) (l : list A) entry :
  adds_only step P ->
  forall st, In entry (record_mismatches st) ->
             In entry (record_mismatches (fold_left step l st)).
Proof.
  intros Hstep. induction l as [|m l IH]; intros st Hin; simpl; [exact Hin|].
  apply IH. destruct (Hstep st m) as [E|(e & E & _)]; rewrite E; [exact Hin|].
  apply in_or_app. now left.
Qed.

Lemma fold_reports (P : A -> Mismatch -> Prop) (l : list A) (m : A) entry :
  adds_only step P ->
  (forall st, In entry (record_mismatches (step st m))) ->
  In m l ->
  forall st, In entry (record_mismatches (fold_left step l st)).
Proof.
  intros Hstep Hm. induction l as [|m' l IH]; intros Hin st; [contradiction|].
  simpl. destruct Hin as [->|Hin].
  - apply (fold_keeps_entries P); [exact Hstep|apply Hm].
  - now apply IH.
Qed.

Lemma fold_counts (l : list A) :
  (forall st m,
     (List.length (record_mismatches st) <= List.length (fields_compared st))%nat ->
     (List.length (record_mismatches (step st m))
      <= List.length (fields_compared (step st m)))%nat) ->
  forall st,
    (List.length (record_mismatches st) <= List.length (fields_compared st))%nat ->
    (List.length (record_mismatches (fold_left step l st))
     <= List.length (fields_compared (fold_left step l st)))%nat.
Proof.
  intros Hstep. induction l as [|m l IH]; intros st Hst; simpl; [exact Hst|].
  apply IH, Hstep, Hst.
Qed.

End Loop_invariants.

Section Entries.

Variable g : Globals.
Variable merged_cols : list string.
Variable row : Row.
Variable info : RecordInfo.

Lemma direct_rule_adds :
  adds_only (direct_rule g merged_cols row info)
    (reported_by_direct g merged_cols row info).
Proof.
  intros st m. rewrite direct_rule_shape. unfold reported_by_direct, direct_tracked.
  destruct (direct_columns_missing merged_cols m); [now left|].
  destruct (direct_blank_skip row m); [now left|].
  destruct (direct_zero_skip g row m); [now left|].
  destruct (values_equal g _ _) eqn:E; [now left|].
  right. eexists. split; [reflexivity|]. repeat split.
Qed.

Lemma summed_rule_adds :
  adds_only (summed_rule g merged_cols row info)
    (reported_by_summed g merged_cols row info).
Proof.
  intros st m. rewrite summed_rule_shape. unfold reported_by_summed, summed_tracked.
  destruct (summed_columns_missing merged_cols m); [now left|].
  destruct (summed_blank_skip row m); [now left|].
  destruct (summed_zero_skip g row m); [now left|].
  destruct (values_equal g _ _) eqn:E; [now left|].
  right. eexists. split; [reflexivity|]. repeat split.
Qed.

Lemma categorical_rule_adds :
  adds_only (categorical_rule g merged_cols row info)
    (reported_by_categorical g merged_cols row info).
Proof.
  intros st m. rewrite categorical_rule_shape.
  unfold reported_by_categorical, categorical_tracked.
  destruct (categorical_columns_missing merged_cols m); [now left|].
  destruct (categorical_blank_skip row m); [now left|].
  destruct (categorical_match g _ _ m) eqn:E; [now left|].
  right. eexists. split; [reflexivity|]. simpl.
  repeat split; try reflexivity. eexists; reflexivity.
Qed.

End Entries.

(** No false alarm: every mismatch entry of a record was reported by one
    of the configured rules, carries the cells of that record, and stands
    for a pair the comparator rejects: [values_equal] for a direct or a
    summed rule, [categorical_match] for a categorical one. *)
Theorem every_mismatch_is_a_rejected_pair
    (g : Globals) (merged_cols : list string) (row : Row) (info : RecordInfo)
    (direct : list Direct.mapping) (summed : option (list Summed.mapping))
    (categorical : option (list Categorical.mapping)) (entry : Mismatch) :
  In entry (record_mismatches
              (run_rules g merged_cols row info direct summed categorical)) ->
  (exists m, In m direct /\ reported_by_direct g merged_cols row info m entry)
  \/ (exists m, In m (rules_of summed)
                /\ reported_by_summed g merged_cols row info m entry)
  \/ (exists m, In m (rules_of categorical)
                /\ reported_by_categorical g merged_cols row info m entry).
Proof.
  rewrite run_rules_folds. revert entry. apply Forall_forall.
  apply (fold_adds_only _ (reported_by_categorical g merged_cols row info));
    [apply categorical_rule_adds| |].
  { intros m e Hin He. right; right. now exists m. }
  apply (fold_adds_only _ (reported_by_summed g merged_cols row info));
    [apply summed_rule_adds| |].
  { intros m e Hin He. right; left. now exists m. }
  apply (fold_adds_only _ (reported_by_direct g merged_cols row info));
    [apply direct_rule_adds| |].
  { intros m e Hin He. left. now exists m. }
  constructor.
Qed.

Lemma every_mismatch_is_a_rejected_pair_witness :
  (exists m, In m [Demo.bedrooms]
             /\ reported_by_direct default_globals Demo.merged_cols
                  (Demo.bedrooms_row (Demo.int 3) (Demo.int 4)) (Demo.info [])
                  m (direct_entry (Demo.bedrooms_row (Demo.int 3) (Demo.int 4))
                       (Demo.info []) Demo.bedrooms))
  \/ (exists m, In m (@nil Summed.mapping)
                /\ reported_by_summed default_globals Demo.merged_cols
                     (Demo.bedrooms_row (Demo.int 3) (Demo.int 4)) (Demo.info [])
                     m (direct_entry (Demo.bedrooms_row (Demo.int 3) (Demo.int 4))
                          (Demo.info []) Demo.bedrooms))
  \/ (exists m, In m (@nil Categorical.mapping)
                /\ reported_by_categorical default_globals Demo.merged_cols
                     (Demo.bedrooms_row (Demo.int 3) (Demo.int 4)) (Demo.info [])
                     m (direct_entry (Demo.bedrooms_row (Demo.int 3) (Demo.int 4))
                          (Demo.info []) Demo.bedrooms)).
Proof.
  apply (every_mismatch_is_a_rejected_pair default_globals Demo.merged_cols
           (Demo.bedrooms_row (Demo.int 3) (Demo.int 4)) (Demo.info [])
           [Demo.bedrooms] None None).
  left. reflexivity.
Defined.

(** No missed mismatch: a configured rule that passes its guards (columns
    present, no blank value, not both zero) and whose pair the comparator
    rejects has its entry among the mismatch entries of the record. *)
Theorem every_rejected_pair_is_reported
    (g : Globals) (merged_cols : list string) (row : Row) (info : RecordInfo)
    (direct : list Direct.mapping) (summed : option (list Summed.mapping))
    (categorical : option (list Categorical.mapping)) :
  let st := run_rules g merged_cols row info direct summed categorical in
  (forall m, In m direct ->
     direct_evaluated g merged_cols row m = true ->
     values_equal g (row_get row (Direct.mls_col m)) (row_get row (Direct.cama_col m))
     = false ->
     In (direct_entry row info m) (record_mismatches st))
  /\ (forall m, In m (rules_of summed) ->
        summed_evaluated g merged_cols row m = true ->
        values_equal g (row_get row (Summed.mls_col m)) (VNum (cama_sum row m)) = false ->
        In (summed_entry row info m) (record_mismatches st))
  /\ (forall m, In m (rules_of categorical) ->
        categorical_tracked merged_cols row m = true ->
        categorical_match g (row_get row (Categorical.mls_col m))
          (row_get row (Categorical.cama_col m)) m = false ->
        exists entry, In entry (record_mismatches st)
                      /\ reported_by_categorical g merged_cols row info m entry).
Proof.
  intros st. unfold st. rewrite run_rules_folds. split; [|split].
  - intros m Hin Hev Hneq.
    apply (fold_keeps_entries _ _ _ _ (categorical_rule_adds g merged_cols row info)).
    apply (fold_keeps_entries _ _ _ _ (summed_rule_adds g merged_cols row info)).
    apply (fold_reports _ _ _ m _ (direct_rule_adds g merged_cols row info));
      [|exact Hin].
    intros st0. rewrite direct_rule_shape.
    unfold direct_evaluated, direct_tracked in Hev.
    destruct (direct_columns_missing merged_cols m); [discriminate|].
    destruct (direct_blank_skip row m); [discriminate|].
    destruct (direct_zero_skip g row m); [discriminate|].
    rewrite Hneq. simpl. apply in_or_app. right. now left.
  - intros m Hin Hev Hneq.
    apply (fold_keeps_entries _ _ _ _ (categorical_rule_adds g merged_cols row info)).
    apply (fold_reports _ _ _ m _ (summed_rule_adds g merged_cols row info));
      [|exact Hin].
    intros st0. rewrite summed_rule_shape.
    unfold summed_evaluated, summed_tracked in Hev.
    destruct (summed_columns_missing merged_cols m); [discriminate|].
    destruct (summed_blank_skip row m); [discriminate|].
    destruct (summed_zero_skip g row m); [discriminate|].
    rewrite Hneq. simpl. apply in_or_app. right. now left.
  - intros m Hin Hev Hneq. eexists. split.
    + apply (fold_reports _ _ _ m _ (categorical_rule_adds g merged_cols row info));
        [|exact Hin].
      intros st0. rewrite categorical_rule_shape.
      unfold categorical_tracked in Hev.
      destruct (categorical_columns_missing merged_cols m); [discriminate|].
      destruct (categorical_blank_skip row m); [discriminate|].
      rewrite Hneq. simpl. apply in_or_app. right. left. reflexivity.
    + unfold reported_by_categorical. simpl.
      repeat split; try reflexivity; [eexists; reflexivity|exact Hev|exact Hneq].
Qed.

Lemma every_rejected_pair_is_reported_witness :
  In (direct_entry (Demo.bedrooms_row (Demo.int 3) (Demo.int 4)) (Demo.info [])
        Demo.bedrooms)
     (record_mismatches
        (run_rules default_globals Demo.merged_cols
           (Demo.bedrooms_row (Demo.int 3) (Demo.int 4)) (Demo.info [])
           COLUMNS_TO_COMPARE (Some COLUMNS_TO_COMPARE_SUM)
           (Some COLUMNS_TO_COMPARE_CATEGORICAL))).
Proof.
  apply (every_rejected_pair_is_reported default_globals Demo.merged_cols
           (Demo.bedrooms_row (Demo.int 3) (Demo.int 4)) (Demo.info [])
           COLUMNS_TO_COMPARE (Some COLUMNS_TO_COMPARE_SUM)
           (Some COLUMNS_TO_COMPARE_CATEGORICAL)).
  - right; left; reflexivity.
  - reflexivity.
  - reflexivity.
Defined.

Lemma filter_length_le {A : Type} (p : A -> bool) (l : list A) :
  (List.length (filter p l) <= List.length l)%nat.
Proof.
  induction l as [|a l IH]; simpl; [lia|]. destruct (p a); simpl; lia.
Qed.

(** A record gets at most one mismatch entry per field compared, and
    compares at most one field per configured rule. *)
Theorem at_most_one_entry_per_rule
    (g : Globals) (merged_cols : list string) (row : Row) (info : RecordInfo)
    (direct : list Direct.mapping) (summed : option (list Summed.mapping))
    (categorical : option (list Categorical.mapping)) :
  let st := run_rules g merged_cols row info direct summed categorical in
  (List.length (record_mismatches st) <= List.length (fields_compared st))%nat
  /\ (List.length (fields_compared st)
      <= List.length direct + List.length (rules_of summed)
         + List.length (rules_of categorical))%nat.
Proof.
  intros st. unfold st. split.
  - rewrite run_rules_folds.
    apply fold_counts.
    { intros st0 m H. rewrite categorical_rule_shape.
      destruct (categorical_columns_missing merged_cols m); [exact H|].
      destruct (categorical_blank_skip row m); [exact H|].
      destruct (categorical_match g _ _ m); simpl; rewrite ?length_app; simpl; lia. }
    apply fold_counts.
    { intros st0 m H. rewrite summed_rule_shape.
      destruct (summed_columns_missing merged_cols m); [exact H|].
      destruct (summed_blank_skip row m); [exact H|].
      destruct (summed_zero_skip g row m); [simpl; rewrite length_app; simpl; lia|].
      destruct (values_equal g _ _); simpl; rewrite ?length_app; simpl; lia. }
    apply fold_counts.
    { intros st0 m H. rewrite direct_rule_shape.
      destruct (direct_columns_missing merged_cols m); [exact H|].
      destruct (direct_blank_skip row m); [exact H|].
      destruct (direct_zero_skip g row m); [simpl; rewrite length_app; simpl; lia|].
      destruct (values_equal g _ _); simpl; rewrite ?length_app; simpl; lia. }
    simpl. lia.
  - rewrite run_rules_fields. unfold tracked_fields.
    rewrite !length_app, !length_map.
    pose proof (filter_length_le (direct_tracked merged_cols row) direct).
    pose proof (filter_length_le (summed_tracked merged_cols row) (rules_of summed)).
    pose proof (filter_length_le (categorical_tracked merged_cols row)
                  (rules_of categorical)).
    lia.
Qed.

(** A rule that a record skips for a missing column or a blank value is
    inert: taking it out of the configuration leaves the record's mismatch
    entries and compared fields as they are. *)
Theorem skipped_rule_is_inert
    (g : Globals) (merged_cols : list string) (row : Row) (info : RecordInfo)
    (direct : list Direct.mapping) (summed : list Summed.mapping)
    (categorical : list Categorical.mapping) :
  (forall before after m,
     direct = (before ++ m :: after)%list ->
     direct_tracked merged_cols row m = false ->
     run_rules g merged_cols row info direct (Some summed) (Some categorical)
     = run_rules g merged_cols row info (before ++ after)%list
         (Some summed) (Some categorical))
  /\ (forall before after m,
        summed = (before ++ m :: after)%list ->
        summed_tracked merged_cols row m = false ->
        run_rules g merged_cols row info direct (Some summed) (Some categorical)
        = run_rules g merged_cols row info direct
            (Some (before ++ after)%list) (Some categorical))
  /\ (forall before after m,
        categorical = (before ++ m :: after)%list ->
        categorical_tracked merged_cols row m = false ->
        run_rules g merged_cols row info direct (Some summed) (Some categorical)
        = run_rules g merged_cols row info direct (Some summed)
            (Some (before ++ after)%list)).
Proof.
  split; [|split]; intros before after m -> Hm; rewrite !run_rules_folds; simpl rules_of;
    rewrite !fold_left_app; simpl fold_left.
  - rewrite (direct_rule_shape g merged_cols row info _ m).
    unfold direct_tracked in Hm.
    destruct (direct_columns_missing merged_cols m); [reflexivity|].
    destruct (direct_blank_skip row m); [reflexivity|discriminate].
  - rewrite (summed_rule_shape g merged_cols row info _ m).
    unfold summed_tracked in Hm.
    destruct (summed_columns_missing merged_cols m); [reflexivity|].
    destruct (summed_blank_skip row m); [reflexivity|discriminate].
  - rewrite (categorical_rule_shape g merged_cols row info _ m).
    unfold categorical_tracked in Hm.
    destruct (categorical_columns_missing merged_cols m); [reflexivity|].
    destruct (categorical_blank_skip row m); [reflexivity|discriminate].
Qed.

Lemma skipped_rule_is_inert_witness :
  run_rules default_globals Demo.merged_cols
    (Demo.bedrooms_row (Demo.int 3) (Demo.int 4)) (Demo.info [])
    COLUMNS_TO_COMPARE (Some COLUMNS_TO_COMPARE_SUM) (Some COLUMNS_TO_COMPARE_CATEGORICAL)
  = run_rules default_globals Demo.merged_cols
      (Demo.bedrooms_row (Demo.int 3) (Demo.int 4)) (Demo.info [])
      [Direct.mk "Bedrooms Total" "RMBED"; Direct.mk "Bathrooms Full" "FIXBATH";
       Direct.mk "Bathrooms Half" "FIXHALF"]
      (Some COLUMNS_TO_COMPARE_SUM) (Some COLUMNS_TO_COMPARE_CATEGORICAL).
Proof.
  apply (proj1 (skipped_rule_is_inert default_globals Demo.merged_cols
                  (Demo.bedrooms_row (Demo.int 3) (Demo.int 4)) (Demo.info [])
                  COLUMNS_TO_COMPARE COLUMNS_TO_COMPARE_SUM
                  COLUMNS_TO_COMPARE_CATEGORICAL)
          [] _ (Direct.mk "Above Grade Finished Area" "SFLA")); reflexivity.
Defined.

(** ** Validation of the key columns *)

(** A run shows at most one error message, and shows it together with
    five empty collections: when a key column is missing nothing is
    compared.  With both tables given, the message appears exactly when a
    key column is missing; the MLS column is checked first, so when both
    are missing only the MLS column is named. *)
Theorem key_column_errors
    (s : AppState) (df_mls df_cama : DataFrame) (ids : IdColumns)
    (direct : list Direct.mapping) (summed : option (list Summed.mapping))
    (categorical : option (list Categorical.mapping)) :
  let out := reconcile s (Some df_mls) (Some df_cama) ids direct summed categorical in
  (mem (id_mls_col ids) (columns df_mls) = false ->
   out = (empty_results,
          {| globals := globals s;
             shown_errors :=
               (shown_errors s
                ++ [("Column '" ++ id_mls_col ids ++ "' not found in MLS data")%string])%list |}))
  /\ (mem (id_mls_col ids) (columns df_mls) = true ->
      mem (id_cama_col ids) (columns df_cama) = false ->
      out = (empty_results,
             {| globals := globals s;
                shown_errors :=
                  (shown_errors s
                   ++ [("Column '" ++ id_cama_col ids
                        ++ "' not found in CAMA data")%string])%list |}))
  /\ (mem (id_mls_col ids) (columns df_mls) = true ->
      mem (id_cama_col ids) (columns df_cama) = true ->
      snd out = s)
  /\ (snd out <> s -> fst out = empty_results).
Proof.
  intros out. unfold out, reconcile, compare_data_enhanced.
  destruct (mem (id_mls_col ids) (columns df_mls)); simpl.
  - destruct (mem (id_cama_col ids) (columns df_cama)); simpl.
    + repeat split; try discriminate. intros H. now contradiction H.
    + repeat split; try discriminate.
  - repeat split; try discriminate.
Qed.

Lemma key_column_errors_witness :
  reconcile Demo.state0 (Some Demo.df_cama) (Some Demo.df_mls) UNIQUE_ID_COLUMN
    COLUMNS_TO_COMPARE None None
  = (empty_results,
     {| globals := default_globals;
        shown_errors := ["Column 'Parcel Number' not found in MLS data"] |}).
Proof.
  apply (key_column_errors Demo.state0 Demo.df_cama Demo.df_mls UNIQUE_ID_COLUMN
           COLUMNS_TO_COMPARE None None).
  reflexivity.
Defined.

(* ================================================================== *)
(** * The join and the counts of the results page *)

Lemma filter_status_both_rows (status : merge_status) (f : Row -> Row) (rs : list Row) :
  List.length (filter (has_status status)
                 (map (fun r => {| _merge := both; cells := f r |}) rs))
  = match status with both => List.length rs | _ => O end.
Proof.
  induction rs as [|r rs IH]; simpl; [now destruct status|].
  destruct status; simpl; try exact IH. now rewrite IH.
Qed.

Section Join_counts.

Variable on : string.
Variable left right : DataFrame.

Lemma outer_left_only :
  List.length (filter (has_status left_only) (merged_rows (Merge.outer on left right)))
  = List.length (filter (unmatched_left on right) (rows left)).
Proof.
  unfold Merge.outer. simpl. rewrite filter_app, length_app.
  match goal with |- (_ + ?b = _)%nat => assert (Hb : b = O) end.
  { induction (rows right) as [|r rs IH]; simpl; [reflexivity|].
    rewrite filter_app, length_app, IH.
    destruct (Merge.has_match on r left); reflexivity. }
  rewrite Hb, Nat.add_0_r.
  induction (rows left) as [|l ls IH]; simpl; [reflexivity|].
  rewrite filter_app, length_app, IH. unfold unmatched_left.
  destruct (Merge.matches on l right) as [|r rs]; simpl; [reflexivity|].
  now rewrite filter_status_both_rows.
Qed.

Lemma outer_right_only :
  List.length (filter (has_status right_only) (merged_rows (Merge.outer on left right)))
  = List.length (filter (fun r => negb (Merge.has_match on r left)) (rows right)).
Proof.
  unfold Merge.outer. simpl. rewrite filter_app, length_app.
  match goal with |- (?a + _ = _)%nat => assert (Ha : a = O) end.
  { induction (rows left) as [|l ls IH]; simpl; [reflexivity|].
    rewrite filter_app, length_app, IH.
    destruct (Merge.matches on l right) as [|r rs]; simpl; [reflexivity|].
    now rewrite filter_status_both_rows. }
  rewrite Ha. simpl.
  induction (rows right) as [|r rs IH]; simpl; [reflexivity|].
  rewrite filter_app, length_app, IH.
  destruct (Merge.has_match on r left); reflexivity.
Qed.

Lemma inner_length :
  List.length (rows (Merge.inner on left right))
  = List.length (flat_map (fun l => Merge.matches on l right) (rows left)).
Proof.
  unfold Merge.inner. simpl.
  induction (rows left) as [|l ls IH]; simpl; [reflexivity|].
  now rewrite !length_app, length_map, IH.
Qed.

Lemma outer_both :
  List.length (filter (has_status both) (merged_rows (Merge.outer on left right)))
  = List.length (rows (Merge.inner on left right)).
Proof.
  rewrite inner_length.
  unfold Merge.outer. simpl. rewrite filter_app, length_app.
  match goal with |- (_ + ?b = _)%nat => assert (Hb : b = O) end.
  { induction (rows right) as [|r rs IH]; simpl; [reflexivity|].
    rewrite filter_app, length_app, IH.
    destruct (Merge.has_match on r left); reflexivity. }
  rewrite Hb, Nat.add_0_r.
  induction (rows left) as [|l ls IH]; simpl; [reflexivity|].
  rewrite filter_app, !length_app, IH. f_equal.
  destruct (Merge.matches on l right) as [|r rs]; simpl; [reflexivity|].
  now rewrite filter_status_both_rows.
Qed.

End Join_counts.

(** *** Equality of keys *)

Lemma key_eqb_sym a b : Merge.key_eqb a b = Merge.key_eqb b a.
Proof.
  destruct a as [|[|za|qa]|sa], b as [|[|zb|qb]|sb]; simpl; try reflexivity;
    try apply String.eqb_sym;
    unfold Qeq_bool; simpl; apply Z.eqb_sym.
Qed.

Lemma key_eqb_trans a b c :
  Merge.key_eqb a b = true -> Merge.key_eqb b c = true -> Merge.key_eqb a c = true.
Proof.
  destruct a as [|[|za|qa]|sa], b as [|[|zb|qb]|sb], c as [|[|zc|qc]|sc];
    simpl; try discriminate; try reflexivity;
    try (intros H1 H2; apply String.eqb_eq in H1, H2; apply String.eqb_eq; congruence);
    intros H1 H2; apply Qeq_bool_iff in H1, H2; apply Qeq_bool_iff;
    now rewrite H1.
Qed.

Section Accounting.

Context {L R : Type}.
Variable p : L -> R -> bool.

Lemma count_swap (ls : list L) (rs : list R) :
  List.length (flat_map (fun l => filter (p l) rs) ls)
  = List.length (flat_map (fun r => filter (fun l => p l r) ls) rs).
Proof.
  induction ls as [|l ls IH]; simpl.
  - induction rs as [|r rs IHr]; simpl; [reflexivity|exact IHr].
  - rewrite length_app, IH. clear IH.
    induction rs as [|r rs IHr]; simpl; [reflexivity|].
    rewrite !length_app, <- IHr.
    destruct (p l r); simpl; lia.
Qed.

Lemma left_accounting (ls : list L) (rs : list R) :
  (List.length ls
   <= List.length (filter (fun l => match filter (p l) rs with [] => true | _ => false end) ls)
      + List.length (flat_map (fun l => filter (p l) rs) ls))%nat
  /\ ((forall l, In l ls -> (List.length (filter (p l) rs) <= 1)%nat) ->
      List.length ls
      = (List.length (filter (fun l => match filter (p l) rs with [] => true | _ => false end) ls)
         + List.length (flat_map (fun l => filter (p l) rs) ls))%nat).
Proof.
  induction ls as [|l ls [IH1 IH2]]; simpl; [split; reflexivity|].
  rewrite length_app. split.
  - destruct (filter (p l) rs); simpl; lia.
  - intros H. specialize (IH2 (fun l' Hl' => H l' (or_intror Hl'))).
    specialize (H l (or_introl eq_refl)).
    destruct (filter (p l) rs) as [|r [|r' rest]]; simpl in *; lia.
Qed.

Lemma right_accounting (ls : list L) (rs : list R) :
  (List.length rs
   <= List.length (filter (fun r => negb (existsb (fun l => p l r) ls)) rs)
      + List.length (flat_map (fun r => filter (fun l => p l r) ls) rs))%nat
  /\ ((forall r, In r rs -> (List.length (filter (fun l => p l r) ls) <= 1)%nat) ->
      List.length rs
      = (List.length (filter (fun r => negb (existsb (fun l => p l r) ls)) rs)
         + List.length (flat_map (fun r => filter (fun l => p l r) ls) rs))%nat).
Proof.
  assert (Hex : forall r, existsb (fun l => p l r) ls
                          = match filter (fun l => p l r) ls with [] => false | _ => true end).
  { intros r. induction ls as [|l ls IH]; simpl; [reflexivity|].
    destruct (p l r); simpl; [reflexivity|exact IH]. }
  induction rs as [|r rs [IH1 IH2]]; simpl; [split; reflexivity|].
  rewrite length_app, Hex. split.
  - destruct (filter (fun l => p l r) ls); simpl; lia.
  - intros H. specialize (IH2 (fun r' Hr' => H r' (or_intror Hr'))).
    specialize (H r (or_introl eq_refl)).
    destruct (filter (fun l => p l r) ls) as [|l [|l' rest]]; simpl in *; lia.
Qed.

(** Among rows that are pairwise unrelated at most one is related to a
    given one, when the relation carries over as [Hcarry] says. *)
Lemma at_most_one_related (q : R -> bool) (rel : R -> R -> bool) (rs : list R) :
  (forall r1 r2, q r1 = true -> q r2 = true -> rel r1 r2 = true) ->
  ForallOrdPairs (fun r1 r2 => rel r1 r2 = false) rs ->
  (List.length (filter q rs) <= 1)%nat.
Proof.
  intros Hcarry Hd. induction Hd as [|r rs Hr Hrs IH]; simpl; [lia|].
  destruct (q r) eqn:Er; [|exact IH]. simpl.
  assert (Hnone : filter q rs = []).
  { clear IH Hrs. induction rs as [|r' rs IH']; simpl; [reflexivity|].
    inversion Hr as [|? ? Hr' Hrest]; subst.
    destruct (q r') eqn:Er'.
    - rewrite (Hcarry r r' Er Er') in Hr'. discriminate.
    - now apply IH'. }
  rewrite Hnone. simpl. lia.
Qed.

End Accounting.

(** *** The results of a run with both key columns present *)

Lemma reconcile_valid s df_mls df_cama ids direct summed categorical :
  mem (id_mls_col ids) (columns df_mls) = true ->
  mem (id_cama_col ids) (columns df_cama) = true ->
  let renamed := Merge.rename (id_mls_col ids) (id_cama_col ids) df_mls in
  let merged := Merge.outer (id_cama_col ids) renamed df_cama in
  let acc := process_rows (globals s) (merged_columns merged) (id_cama_col ids)
               direct summed categorical (merged_rows merged) in
  fst (reconcile s (Some df_mls) (Some df_cama) ids direct summed categorical)
  = {| res_missing_in_cama := missing_in_cama acc;
       res_missing_in_mls := missing_in_mls acc;
       res_value_mismatches := value_mismatches acc;
       res_matched_df := Merge.inner (id_cama_col ids) renamed df_cama;
       res_perfect_matches := perfect_matches acc |}.
Proof.
  intros Hm Hc. unfold reconcile, compare_data_enhanced. now rewrite Hm, Hc.
Qed.

Lemma rename_length old new df :
  List.length (rows (Merge.rename old new df)) = List.length (rows df).
Proof.
  unfold Merge.rename. simpl. apply length_map.
Qed.

Lemma matches_at_most_one on l right :
  distinct_keys on right -> (List.length (Merge.matches on l right) <= 1)%nat.
Proof.
  intros Hd. unfold Merge.matches.
  apply (at_most_one_related _ (fun r1 r2 => Merge.key_eqb (row_get r1 on) (row_get r2 on)));
    [|exact Hd].
  intros r1 r2 H1 H2. apply key_eqb_trans with (row_get l on); [|exact H2].
  now rewrite key_eqb_sym.
Qed.

Lemma matched_by_at_most_one on r left :
  distinct_keys on left ->
  (List.length (filter (fun l => Merge.key_eqb (row_get l on) (row_get r on)) (rows left))
   <= 1)%nat.
Proof.
  intros Hd.
  apply (at_most_one_related _ (fun l1 l2 => Merge.key_eqb (row_get l1 on) (row_get l2 on)));
    [|exact Hd].
  intros l1 l2 H1 H2. apply key_eqb_trans with (row_get r on); [exact H1|].
  now rewrite key_eqb_sym.
Qed.

(** Every record is accounted for.  With both key columns present, each
    MLS listing is reported missing in CAMA or appears in the matched
    join, and each CAMA parcel is reported missing in MLS or appears in
    the matched join: the counts of the two missing lists and of the join
    cover the sizes of the two tables.  They add up exactly to the size of
    the MLS table when the CAMA identifiers are distinct, and to the size
    of the CAMA table when the MLS identifiers are distinct. *)
Theorem every_record_is_accounted_for
    (s : AppState) (df_mls df_cama : DataFrame) (ids : IdColumns)
    (direct : list Direct.mapping) (summed : option (list Summed.mapping))
    (categorical : option (list Categorical.mapping)) :
  mem (id_mls_col ids) (columns df_mls) = true ->
  mem (id_cama_col ids) (columns df_cama) = true ->
  let res := fst (reconcile s (Some df_mls) (Some df_cama) ids direct summed categorical) in
  let renamed := Merge.rename (id_mls_col ids) (id_cama_col ids) df_mls in
  let matched := List.length (rows (res_matched_df res)) in
  (List.length (rows df_mls) <= List.length (res_missing_in_cama res) + matched)%nat
  /\ (List.length (rows df_cama) <= List.length (res_missing_in_mls res) + matched)%nat
  /\ (distinct_keys (id_cama_col ids) df_cama ->
      List.length (rows df_mls)
      = (List.length (res_missing_in_cama res) + matched)%nat)
  /\ (distinct_keys (id_cama_col ids) renamed ->
      List.length (rows df_cama)
      = (List.length (res_missing_in_mls res) + matched)%nat).
Proof.
  intros Hm Hc res renamed matched. unfold matched, res.
  pose proof (reconcile_valid s _ _ _ direct summed categorical Hm Hc) as E.
  cbv zeta in E. rewrite E. clear E.
  cbn [res_missing_in_cama res_missing_in_mls res_matched_df].
  destruct (process_rows_missing (globals s)
              (merged_columns (Merge.outer (id_cama_col ids) renamed df_cama))
              (id_cama_col ids) direct summed categorical
              (merged_rows (Merge.outer (id_cama_col ids) renamed df_cama)))
    as [E1 E2].
  fold renamed. rewrite E1, E2, !length_map, outer_left_only, outer_right_only.
  rewrite inner_length, <- (rename_length (id_mls_col ids) (id_cama_col ids) df_mls).
  fold renamed.
  pose proof (left_accounting
                (fun l r => Merge.key_eqb (row_get l (id_cama_col ids))
                              (row_get r (id_cama_col ids)))
                (rows renamed) (rows df_cama)) as [L1 L2].
  pose proof (right_accounting
                (fun l r => Merge.key_eqb (row_get l (id_cama_col ids))
                              (row_get r (id_cama_col ids)))
                (rows renamed) (rows df_cama)) as [R1 R2].
  rewrite <- count_swap in R1, R2.
  split; [exact L1|]. split; [exact R1|]. split.
  - intros Hd. apply L2. intros l _. now apply matches_at_most_one.
  - intros Hd. apply R2. intros r _. now apply matched_by_at_most_one.
Qed.

Lemma every_record_is_accounted_for_witness :
  List.length (rows Demo.df_mls)
  = (List.length
       (res_missing_in_cama
          (fst (reconcile Demo.state0 (Some Demo.df_mls) (Some Demo.df_cama)
                  UNIQUE_ID_COLUMN COLUMNS_TO_COMPARE None None)))
     + List.length
         (rows (res_matched_df
                  (fst (reconcile Demo.state0 (Some Demo.df_mls) (Some Demo.df_cama)
                          UNIQUE_ID_COLUMN COLUMNS_TO_COMPARE None None)))))%nat.
Proof.
  apply (every_record_is_accounted_for Demo.state0 Demo.df_mls Demo.df_cama
           UNIQUE_ID_COLUMN COLUMNS_TO_COMPARE None None eq_refl eq_refl).
  repeat constructor.
Defined.

Lemma flat_map_at_most_one {A B : Type} (f : A -> list B) (l : list A) :
  (forall a, (List.length (f a) <= 1)%nat) ->
  (List.length (flat_map f l) <= List.length l)%nat.
Proof.
  intros H. induction l as [|a l IH]; simpl; [lia|].
  rewrite length_app. specialize (H a). lia.
Qed.

Lemma perfect_entries_at_most_one info st :
  (List.length (perfect_entries info st) <= 1)%nat.
Proof.
  unfold perfect_entries.
  destruct (record_mismatches st), (fields_compared st); simpl; lia.
Qed.

Lemma match_rate_bounds matched total :
  0 <= match_rate matched total
  /\ ((matched <= total)%nat -> match_rate matched total <= 100).
Proof.
  unfold match_rate. destruct total as [|t]; [split; [apply Qle_refl|discriminate]|].
  set (m := inject_Z (Z.of_nat matched)). set (n := inject_Z (Z.of_nat (S t))).
  assert (Hm : 0 <= m).
  { unfold m. change 0 with (inject_Z 0). rewrite <- Zle_Qle. lia. }
  assert (Hn : 0 < n).
  { unfold n. change 0 with (inject_Z 0). rewrite <- Zlt_Qlt. lia. }
  split.
  - assert (0 <= m / n) by (apply Qle_shift_div_l; [exact Hn|lra]). lra.
  - intros Hle.
    assert (m <= n) by (unfold m, n; rewrite <- Zle_Qle; lia).
    assert (m / n <= 1) by (apply Qle_shift_div_r; [exact Hn|lra]). lra.
Qed.

(** The figures of the results page are consistent.  There are never more
    perfect matches than matched records; the overall match rate is never
    negative, it is 0 for an empty CAMA table, and when the MLS
    identifiers are distinct no more records are matched than the CAMA
    table has parcels, so the rate stays at or below 100. *)
Theorem results_page_figures
    (s : AppState) (df_mls df_cama : DataFrame) (ids : IdColumns)
    (direct : list Direct.mapping) (summed : option (list Summed.mapping))
    (categorical : option (list Categorical.mapping)) :
  mem (id_mls_col ids) (columns df_mls) = true ->
  mem (id_cama_col ids) (columns df_cama) = true ->
  let res := fst (reconcile s (Some df_mls) (Some df_cama) ids direct summed categorical) in
  let renamed := Merge.rename (id_mls_col ids) (id_cama_col ids) df_mls in
  let matched_df := res_matched_df res in
  (List.length (res_perfect_matches res) <= List.length (rows matched_df))%nat
  /\ 0 <= overall_match_rate df_cama matched_df
  /\ (rows df_cama = [] -> overall_match_rate df_cama matched_df == 0)
  /\ (distinct_keys (id_cama_col ids) renamed ->
      (List.length (rows matched_df) <= List.length (rows df_cama))%nat
      /\ overall_match_rate df_cama matched_df <= 100).
Proof.
  intros Hm Hc res renamed matched_df. unfold matched_df, res.
  pose proof (reconcile_valid s _ _ _ direct summed categorical Hm Hc) as E.
  cbv zeta in E. rewrite E. clear E.
  cbn [res_perfect_matches res_matched_df]. fold renamed.
  split; [|split; [|split]].
  - destruct (process_rows_collects (globals s)
                (merged_columns (Merge.outer (id_cama_col ids) renamed df_cama))
                (id_cama_col ids) direct summed categorical
                (merged_rows (Merge.outer (id_cama_col ids) renamed df_cama)))
      as [_ Ep].
    rewrite Ep, <- outer_both.
    apply (flat_map_at_most_one
             (fun mrow => perfect_entries (record_info (id_cama_col ids) (cells mrow)) _)).
    intros mrow. apply perfect_entries_at_most_one.
  - apply match_rate_bounds.
  - intros Hnil. unfold overall_match_rate. rewrite Hnil. reflexivity.
  - intros Hd.
    assert (Hle : (List.length (rows (Merge.inner (id_cama_col ids) renamed df_cama))
                   <= List.length (rows df_cama))%nat).
    { rewrite inner_length.
      pose proof (right_accounting
                    (fun l r => Merge.key_eqb (row_get l (id_cama_col ids))
                                  (row_get r (id_cama_col ids)))
                    (rows renamed) (rows df_cama)) as [_ R2].
      rewrite <- count_swap in R2.
      unfold Merge.matches.
      rewrite (R2 (fun r _ => matched_by_at_most_one _ r _ Hd)). lia. }
    split; [exact Hle|]. now apply match_rate_bounds.
Qed.

Lemma results_page_figures_witness :
  overall_match_rate Demo.df_cama
    (res_matched_df
       (fst (reconcile Demo.state0 (Some Demo.df_mls) (Some Demo.df_cama)
               UNIQUE_ID_COLUMN COLUMNS_TO_COMPARE None None)))
  <= 100.
Proof.
  apply (results_page_figures Demo.state0 Demo.df_mls Demo.df_cama
           UNIQUE_ID_COLUMN COLUMNS_TO_COMPARE None None eq_refl eq_refl).
  repeat constructor.
Defined.

(** *** Empty tables *)

Lemma lookup_key_column (f : string -> value) (cols : list string) (rest : Row) on :
  mem on cols = true ->
  row_get (map (fun c => (c, f c)) cols ++ rest)%list on = f on.
Proof.
  unfold row_get, row_get_or. intros H.
  induction cols as [|c cols IH]; simpl in *; [discriminate|].
  destruct (String.eqb c on) eqn:E.
  - apply String.eqb_eq in E. now subst.
  - rewrite String.eqb_sym, E in H. simpl in H. now apply IH.
Qed.

Lemma rename_has_key old new df :
  mem old (columns df) = true -> mem new (columns (Merge.rename old new df)) = true.
Proof.
  unfold Merge.rename, mem. simpl. intros H.
  apply existsb_exists in H as (c & Hin & E).
  apply existsb_exists. exists new. split; [|apply String.eqb_refl].
  apply in_map_iff. exists c. split; [|exact Hin].
  rewrite String.eqb_sym in E. now rewrite E.
Qed.

(** With an MLS table that has the key column but no row, every CAMA
    parcel is reported missing in MLS, once and with its identifier, and
    nothing else is reported.  With a CAMA table without rows,
    every MLS listing is reported missing in CAMA and nothing else is
    reported. *)
Theorem empty_table_reports
    (s : AppState) (df_mls df_cama : DataFrame) (ids : IdColumns)
    (direct : list Direct.mapping) (summed : option (list Summed.mapping))
    (categorical : option (list Categorical.mapping)) :
  mem (id_mls_col ids) (columns df_mls) = true ->
  mem (id_cama_col ids) (columns df_cama) = true ->
  let res := fst (reconcile s (Some df_mls) (Some df_cama) ids direct summed categorical) in
  (rows df_mls = [] ->
   Permutation (map mls_missing_Parcel_ID (res_missing_in_mls res))
     (map (fun r => row_get r (id_cama_col ids)) (rows df_cama))
   /\ res_missing_in_cama res = []
   /\ res_value_mismatches res = []
   /\ res_perfect_matches res = []
   /\ rows (res_matched_df res) = [])
  /\ (rows df_cama = [] ->
      List.length (res_missing_in_cama res) = List.length (rows df_mls)
      /\ res_missing_in_mls res = []
      /\ res_value_mismatches res = []
      /\ res_perfect_matches res = []
      /\ rows (res_matched_df res) = []).
Proof.
  intros Hm Hc res. unfold res.
  pose proof (reconcile_valid s _ _ _ direct summed categorical Hm Hc) as E.
  cbv zeta in E. rewrite E. clear E.
  cbn [res_missing_in_cama res_missing_in_mls res_value_mismatches
       res_perfect_matches res_matched_df].
  pose proof (rename_has_key _ (id_cama_col ids) _ Hm) as Hkey.
  set (renamed := Merge.rename (id_mls_col ids) (id_cama_col ids) df_mls) in *.
  set (merged := Merge.outer (id_cama_col ids) renamed df_cama).
  destruct (process_rows_missing (globals s) (merged_columns merged) (id_cama_col ids)
              direct summed categorical (merged_rows merged)) as [E1 E2].
  destruct (process_rows_collects (globals s) (merged_columns merged) (id_cama_col ids)
              direct summed categorical (merged_rows merged)) as [E3 E4].
  rewrite E1, E2, E3, E4. clear E1 E2 E3 E4.
  assert (Hno_both :
            rows (Merge.inner (id_cama_col ids) renamed df_cama) = [] ->
            filter (fun mrow => match _merge mrow with both => true | _ => false end)
              (merged_rows merged) = []).
  { intros Hin. apply length_zero_iff_nil.
    change (List.length (filter (has_status both) (merged_rows merged)) = O).
    unfold merged. now rewrite outer_both, Hin. }
  split.
  - intros Hnil.
    assert (Hrows : rows renamed = [])
      by (unfold renamed, Merge.rename; simpl; now rewrite Hnil).
    assert (Hin : rows (Merge.inner (id_cama_col ids) renamed df_cama) = [])
      by (apply length_zero_iff_nil; now rewrite inner_length, Hrows).
    assert (Hleft : filter (has_status left_only) (merged_rows merged) = []).
    { apply length_zero_iff_nil. unfold merged. now rewrite outer_left_only, Hrows. }
    rewrite Hleft, (Hno_both Hin), Hin.
    repeat split; try reflexivity.
    match goal with
    | |- Permutation ?reported ?parcels =>
        assert (Heq : reported = parcels); [|rewrite Heq; apply Permutation_refl]
    end.
    unfold merged, Merge.outer, Merge.has_match. rewrite Hrows. simpl.
    induction (rows df_cama) as [|r rs IH]; simpl; [reflexivity|].
    rewrite IH. f_equal.
    rewrite (lookup_key_column _ _ _ _ Hkey). now rewrite String.eqb_refl.
  - intros Hnil.
    assert (Hin : rows (Merge.inner (id_cama_col ids) renamed df_cama) = []).
    { apply length_zero_iff_nil. rewrite inner_length. unfold Merge.matches.
      rewrite Hnil. generalize (rows renamed). intros ls.
      induction ls as [|l ls IH]; simpl; [reflexivity|exact IH]. }
    assert (Hright : filter (has_status right_only) (merged_rows merged) = []).
    { apply length_zero_iff_nil. unfold merged. now rewrite outer_right_only, Hnil. }
    rewrite Hright, (Hno_both Hin), Hin.
    repeat split; try reflexivity.
    rewrite length_map. unfold merged. rewrite outer_left_only.
    rewrite <- (rename_length (id_mls_col ids) (id_cama_col ids) df_mls). fold renamed.
    unfold unmatched_left, Merge.matches. rewrite Hnil.
    generalize (rows renamed). intros ls.
    induction ls as [|l ls IH]; simpl; [reflexivity|f_equal; exact IH].
Qed.

Lemma empty_table_reports_witness :
  Permutation
    (map mls_missing_Parcel_ID
       (res_missing_in_mls
          (fst (reconcile Demo.state0
                  (Some {| columns := ["Parcel Number"]; rows := [] |}) (Some Demo.df_cama)
                  UNIQUE_ID_COLUMN COLUMNS_TO_COMPARE None None))))
    [VStr "B"; VStr "C"].
Proof.
  apply (empty_table_reports Demo.state0 {| columns := ["Parcel Number"]; rows := [] |}
           Demo.df_cama UNIQUE_ID_COLUMN COLUMNS_TO_COMPARE None None eq_refl eq_refl).
  reflexivity.
Defined.

(* ================================================================== *)
(** * Reference links *)

Lemma slug_is_clean s in_run :
  Re.word_tail (Re.sub_spaces_from in_run (Re.sub_punctuation s)) = true.
Proof.
  revert in_run. induction s as [|c t IH]; intros in_run; simpl; [reflexivity|].
  destruct (Re.is_word c || PyStr.is_space c || Re.is_hyphen c) eqn:K; [|apply IH].
  simpl. destruct (PyStr.is_space c) eqn:Es.
  - destruct in_run; simpl; apply IH.
  - simpl. rewrite orb_false_r in K. rewrite K. apply IH.
Qed.

Lemma before_hyphen_clean s c :
  In c (list_ascii_of_string (before_hyphen s)) -> Re.is_hyphen c = false.
Proof.
  induction s as [|c' t IH]; simpl; [contradiction|].
  destruct (Re.is_hyphen c') eqn:E; simpl; [contradiction|].
  intros [<-|H]; [exact E|now apply IH].
Qed.

(** [format_zillow_url] gives no link exactly when the address, the city
    or the postal code is null; the state is never looked at, every link
    names Ohio.  In the link of an ASCII address and city, the two are
    reduced to word characters and hyphens, and the postal code is cut at
    its first hyphen. *)
Theorem format_zillow_url_shape (address city state zip_code : value) :
  (format_zillow_url address city state zip_code = None <->
   Pd.isna address = true \/ Pd.isna city = true \/ Pd.isna zip_code = true)
  /\ (forall other_state,
        format_zillow_url address city other_state zip_code
        = format_zillow_url address city state zip_code)
  /\ (forall url,
        Re.ascii_text (py_str address) = true ->
        Re.ascii_text (py_str city) = true ->
        format_zillow_url address city state zip_code = Some url ->
        exists address_formatted city_formatted zip_clean,
          url = ZILLOW_URL_BASE
                ++ (address_formatted ++ "-" ++ city_formatted ++ "-OH-"
                    ++ zip_clean ++ "_rb") ++ "/"
          /\ Re.word_tail address_formatted = true
          /\ Re.word_tail city_formatted = true
          /\ (forall c, In c (list_ascii_of_string zip_clean) -> Re.is_hyphen c = false)).
Proof.
  unfold format_zillow_url. split; [|split].
  - destruct (Pd.isna address), (Pd.isna city), (Pd.isna zip_code); simpl;
      split; try reflexivity; try discriminate; try tauto;
      intros [H|[H|H]]; discriminate.
  - reflexivity.
  - intros url _ _.
    destruct (Pd.isna address || Pd.isna city || Pd.isna zip_code); [discriminate|].
    intros H. injection H as <-.
    eexists. eexists. eexists. split; [reflexivity|].
    split; [apply slug_is_clean|]. split; [apply slug_is_clean|].
    apply before_hyphen_clean.
Qed.

Lemma format_zillow_url_shape_witness :
  exists address_formatted city_formatted zip_clean,
    "https://www.zillow.com/homes/123-N-Main-St-North-Canton-OH-44720_rb/"
    = ZILLOW_URL_BASE
      ++ (address_formatted ++ "-" ++ city_formatted ++ "-OH-" ++ zip_clean ++ "_rb")
      ++ "/"
    /\ Re.word_tail address_formatted = true
    /\ Re.word_tail city_formatted = true
    /\ (forall c, In c (list_ascii_of_string zip_clean) -> Re.is_hyphen c = false).
Proof.
  apply (proj2 (proj2 (format_zillow_url_shape
                         (VStr " 123 N. Main St  Apt 4-B ") (VStr "North  Canton")
                         VNone (VStr "44720-1234")))); reflexivity.
Defined.

Lemma sub_unit_step s :
  Re.sub_unit s
  = if Re.unit_suffix s then EmptyString
    else match s with
         | String c t => String c (Re.sub_unit t)
         | EmptyString => EmptyString
         end.
Proof.
  destruct s; reflexivity.
Qed.

(** A unit designator at the end of an address never reaches the link:
    when the stripped text ends in white space, one of Apt, Unit, # or
    Suite in any case, and a unit made of word characters and hyphens, the
    substitution cuts the text at or before the start of that ending. *)
Theorem sub_unit_cuts_designator (street ending : string) :
  PyStr.strip (street ++ ending) = street ++ ending ->
  Re.unit_suffix ending = true ->
  exists cut, street = Re.sub_unit (street ++ ending) ++ cut.
Proof.
  intros _ H. induction street as [|c t IH].
  - exists "". change ("" ++ ending) with ending.
    now rewrite sub_unit_step, H.
  - change (String c t ++ ending) with (String c (t ++ ending)).
    rewrite sub_unit_step.
    destruct (Re.unit_suffix (String c (t ++ ending))).
    + now exists (String c t).
    + destruct IH as (cut & E). exists cut.
      change (String c (Re.sub_unit (t ++ ending)) ++ cut)
        with (String c (Re.sub_unit (t ++ ending) ++ cut)).
      now rewrite <- E.
Qed.

Lemma sub_unit_cuts_designator_witness :
  exists cut, "12 Unit Rd" = Re.sub_unit ("12 Unit Rd" ++ "  SUITE 5-A") ++ cut.
Proof.
  apply sub_unit_cuts_designator; reflexivity.
Defined.

(* ================================================================== *)
(** * Export *)

Lemma index_mem x l : mem x l = true -> exists i, Sheet.index x l = Some i.
Proof.
  unfold mem. induction l as [|y l IH]; simpl; [discriminate|].
  rewrite (String.eqb_sym x y). destruct (String.eqb y x); [now exists O|].
  simpl. intros H. destruct (IH H) as (i & ->). now exists (S i).
Qed.

Lemma filter_absent x l :
  ~ In x l -> filter (fun c => negb (String.eqb c x)) l = l.
Proof.
  induction l as [|y l IH]; simpl; [reflexivity|]. intros H.
  destruct (String.eqb y x) eqn:E.
  - apply String.eqb_eq in E. subst. contradiction H. now left.
  - simpl. f_equal. apply IH. intros Hin. apply H. now right.
Qed.

(** Deleting the column found by [index] removes the name from a header
    without repeated names. *)
Lemma delete_indexed x l i :
  NoDup l -> Sheet.index x l = Some i ->
  Sheet.delete_cols (i + 1) l = filter (fun c => negb (String.eqb c x)) l.
Proof.
  intros Hnd. revert i. induction Hnd as [|y l Hy Hnd IH]; intros i; simpl; [discriminate|].
  destruct (String.eqb y x) eqn:E.
  - intros H. injection H as <-. simpl.
    apply String.eqb_eq in E. subst. symmetry. now apply filter_absent.
  - destruct (Sheet.index x l) as [j|]; [|discriminate].
    intros H. injection H as <-. simpl.
    rewrite <- (IH j eq_refl).
    destruct (j + 1)%nat eqn:Ej; [lia|reflexivity].
Qed.

Lemma NoDup_filter {A : Type} (p : A -> bool) (l : list A) : NoDup l -> NoDup (filter p l).
Proof.
  induction 1 as [|a l Ha Hnd IH]; simpl; [constructor|].
  destruct (p a); [|exact IH]. constructor; [|exact IH].
  intros Hin. apply filter_In in Hin. tauto.
Qed.

Lemma mem_In x l : mem x l = true <-> In x l.
Proof.
  unfold mem. rewrite existsb_exists. split.
  - intros (y & Hin & E). apply String.eqb_eq in E. now subst.
  - intros Hin. exists x. split; [exact Hin|apply String.eqb_refl].
Qed.

(** The sheet that is saved has neither link column and keeps every other
    column, in order, provided the frame has no two columns of the same
    name. *)
Theorem exported_header_drops_links (df_columns : list string) :
  NoDup df_columns ->
  Sheet.exported_header df_columns
  = filter (fun col => negb (String.eqb col "Parcel_URL")
                       && negb (String.eqb col "Zillow_URL")) df_columns.
Proof.
  intros Hnd. unfold Sheet.exported_header.
  set (no_parcel := filter (fun c => negb (String.eqb c "Parcel_URL")) df_columns).
  assert (Hws : (if mem "Parcel_URL" df_columns
                 then match Sheet.index "Parcel_URL" df_columns with
                      | Some i => Sheet.delete_cols (i + 1) df_columns
                      | None => df_columns
                      end
                 else df_columns) = no_parcel).
  { destruct (mem "Parcel_URL" df_columns) eqn:Em.
    - destruct (index_mem _ _ Em) as (i & Ei). rewrite Ei. now apply delete_indexed.
    - symmetry. apply filter_absent. rewrite <- mem_In, Em. discriminate. }
  rewrite Hws.
  assert (Hrem : filter (fun col => negb (mem col ["Parcel_URL"])) df_columns = no_parcel).
  { apply filter_ext. intros c. unfold mem. simpl. now rewrite orb_false_r. }
  rewrite Hrem.
  assert (Hboth : filter (fun c => negb (String.eqb c "Zillow_URL")) no_parcel
                  = filter (fun col => negb (String.eqb col "Parcel_URL")
                                       && negb (String.eqb col "Zillow_URL")) df_columns).
  { unfold no_parcel. clear. induction df_columns as [|c l IH]; simpl; [reflexivity|].
    destruct (String.eqb c "Parcel_URL"); simpl; [exact IH|].
    destruct (String.eqb c "Zillow_URL"); simpl; [exact IH|now rewrite IH]. }
  rewrite <- Hboth.
  destruct (mem "Zillow_URL" df_columns) eqn:Ez.
  - assert (Hz : mem "Zillow_URL" no_parcel = true).
    { apply mem_In. unfold no_parcel. apply filter_In. split; [now apply mem_In|reflexivity]. }
    rewrite Hz. destruct (index_mem _ _ Hz) as (i & Ei). rewrite Ei.
    apply delete_indexed; [|exact Ei]. unfold no_parcel. now apply NoDup_filter.
  - symmetry. apply filter_absent. intros Hin.
    unfold no_parcel in Hin. apply filter_In in Hin as [Hin _].
    apply mem_In in Hin. rewrite Hin in Ez. discriminate.
Qed.

Lemma exported_header_drops_links_witness :
  Sheet.exported_header
    ["Parcel_ID"; "Address"; "Zillow_URL"; "Field_MLS"; "Difference"; "Parcel_URL"]
  = ["Parcel_ID"; "Address"; "Field_MLS"; "Difference"].
Proof.
  rewrite exported_header_drops_links; [reflexivity|].
  repeat constructor; simpl; intuition discriminate.
Defined.

Lemma empty_false_length {A : Type} (l : list A) :
  Zip.empty l = false -> (1 <= List.length l)%nat.
Proof.
  destruct l; simpl; [discriminate|lia].
Qed.

(** The archive of all reports holds at most five members under five
    different names, whatever the date, so no report overwrites another;
    every member holds at least one record, a collection without entries
    gets no file; and a run that found nothing gives an empty archive. *)
Theorem archive_members
    (timestamp : string)
    (df_missing_cama : list MissingInCama) (df_missing_mls : list MissingInMls)
    (df_value_mismatches : list Mismatch) (df_perfect_matches : list PerfectMatch)
    (city_comparison_df : option DataFrame) :
  let archive :=
    Zip.create_zip_with_all_reports timestamp df_missing_cama df_missing_mls
      df_value_mismatches df_perfect_matches city_comparison_df in
  NoDup (map fst archive)
  /\ (List.length archive <= 5)%nat
  /\ (forall name m, In (name, m) archive -> (1 <= member_size m)%nat)
  /\ (df_missing_cama = [] -> df_missing_mls = [] -> df_value_mismatches = [] ->
      df_perfect_matches = [] -> city_comparison_df = None -> archive = []).
Proof.
  intros archive. unfold archive, Zip.create_zip_with_all_reports.
  split; [|split; [|split]].
  - destruct (Zip.empty df_missing_cama), (Zip.empty df_missing_mls),
      (Zip.empty df_value_mismatches), (Zip.empty df_perfect_matches),
      city_comparison_df as [df|]; try destruct (Zip.frame_empty df); simpl;
      repeat (constructor; [simpl; intuition discriminate|]); constructor.
  - destruct (Zip.empty df_missing_cama), (Zip.empty df_missing_mls),
      (Zip.empty df_value_mismatches), (Zip.empty df_perfect_matches),
      city_comparison_df as [df|]; try destruct (Zip.frame_empty df); simpl; lia.
  - intros name m Hin.
    repeat (apply in_app_or in Hin; destruct Hin as [Hin|Hin]).
    + destruct (Zip.empty df_missing_cama) eqn:E; simpl in Hin; [contradiction|].
      destruct Hin as [Hin|[]]. injection Hin as _ <-. now apply empty_false_length.
    + destruct (Zip.empty df_missing_mls) eqn:E; simpl in Hin; [contradiction|].
      destruct Hin as [Hin|[]]. injection Hin as _ <-. now apply empty_false_length.
    + destruct (Zip.empty df_value_mismatches) eqn:E; simpl in Hin; [contradiction|].
      destruct Hin as [Hin|[]]. injection Hin as _ <-. now apply empty_false_length.
    + destruct (Zip.empty df_perfect_matches) eqn:E; simpl in Hin; [contradiction|].
      destruct Hin as [Hin|[]]. injection Hin as _ <-. now apply empty_false_length.
    + destruct city_comparison_df as [df|]; [|contradiction].
      destruct (Zip.frame_empty df) eqn:E; simpl in Hin; [contradiction|].
      destruct Hin as [Hin|[]]. injection Hin as _ <-.
      unfold Zip.frame_empty in E. apply orb_false_iff in E as [E _].
      now apply empty_false_length.
  - intros -> -> -> -> ->. reflexivity.
Qed.

Lemma archive_members_witness :
  Zip.create_zip_with_all_reports "2026-01-31" [] [] [] [] None = [].
Proof.
  apply (archive_members "2026-01-31" [] [] [] [] None); reflexivity.
Defined.

(* ================================================================== *)
(** * The difference shown for a mismatch *)

Lemma nzhead_not_D0 u u' : Decimal.nzhead u <> Decimal.D0 u'.
Proof.
  induction u; simpl; try discriminate. exact IHu.
Qed.

Lemma to_uint_normal p : Decimal.unorm (Pos.to_uint p) = Pos.to_uint p.
Proof.
  pose proof (DecimalN.Unsigned.to_of (Pos.to_uint p)) as H.
  unfold N.of_uint in H. rewrite DecimalPos.Unsigned.of_to in H. simpl in H.
  now symmetry.
Qed.

(** The decimal digits of a positive number start with a digit other
    than 0. *)
Lemma of_Z_head k :
  (1 <= k)%Z ->
  exists c rest, PyStr.of_Z k = String c rest /\ c <> "0"%char /\ c <> "-"%char.
Proof.
  intros Hk. destruct k as [|p|p]; try lia.
  unfold PyStr.of_Z. simpl.
  pose proof (to_uint_normal p) as Hn.
  pose proof (DecimalPos.Unsigned.to_uint_nonzero p) as Hz.
  pose proof (DecimalPos.Unsigned.to_uint_nonnil p) as Hnil.
  destruct (Pos.to_uint p) as [|u|u|u|u|u|u|u|u|u|u]; try contradiction;
    try (simpl; eexists; eexists; split; [reflexivity|split; discriminate]).
  exfalso. rewrite DecimalFacts.unorm_D0 in Hn. unfold Decimal.unorm in Hn.
  destruct (Decimal.nzhead u) eqn:E; try discriminate;
    try (injection Hn as <-; now apply Hz).
  all: rewrite <- E in Hn; now apply nzhead_not_D0 in Hn.
Qed.

Lemma group_rev_last c l k acc :
  exists rest, Fmt.group_rev k (l ++ [c])%list acc = String c rest.
Proof.
  revert k acc. induction l as [|a l IH]; intros k acc; simpl.
  - destruct k as [|[|[|[|k]]]]; eexists; reflexivity.
  - destruct k as [|[|[|[|k]]]]; apply IH.
Qed.

Lemma group_thousands_head c rest :
  exists rest', Fmt.group_thousands (String c rest) = String c rest'.
Proof.
  unfold Fmt.group_thousands. simpl. apply group_rev_last.
Qed.

Lemma two_digits_not_zero j : (1 <= j)%Z -> Fmt.two_digits j <> "00".
Proof.
  intros Hj. unfold Fmt.two_digits.
  destruct (of_Z_head j Hj) as (c & rest & E & Hc & _). rewrite E.
  destruct (j <? 10)%Z; simpl; intros H; injection H; intros; subst; contradiction.
Qed.

Lemma round_half_even_positive q : 1 # 2 < q -> (1 <= Fmt.round_half_even q)%Z.
Proof.
  intros H. unfold Qlt in H. simpl in H. unfold Fmt.round_half_even.
  remember (Qnum q) as a. remember (Zpos (Qden q)) as b.
  assert (Hb : (0 < b)%Z) by (subst b; lia).
  assert (Ha : (b < 2 * a)%Z) by lia.
  clear H Heqa Heqb.
  destruct (Z_lt_le_dec a b) as [Hlt|Hge].
  - assert (Hd : (a / b = 0)%Z) by (apply Z.div_small; lia).
    assert (Hm : (a mod b = a)%Z) by (apply Z.mod_small; lia).
    rewrite Hd, Hm.
    destruct (2 * a ?= b)%Z eqn:E.
    + apply Z.compare_eq in E. lia.
    + rewrite Z.compare_lt_iff in E. lia.
    + reflexivity.
  - assert (1 <= a / b)%Z by (apply Z.div_le_lower_bound; lia).
    destruct (2 * (a mod b) ?= b)%Z; [destruct (Z.even (a / b))|..]; lia.
Qed.

Lemma format_2f_not_zero q :
  (1 <= Fmt.round_half_even (Qabs q * 100))%Z ->
  Fmt.format_2f q <> "0.00" /\ Fmt.format_2f q <> "-0.00".
Proof.
  intros Hr. unfold Fmt.format_2f.
  set (r := Fmt.round_half_even (Qabs q * 100)) in *.
  destruct (Z_lt_le_dec r 100) as [Hsmall|Hbig].
  - rewrite Z.div_small, Z.mod_small by lia.
    pose proof (two_digits_not_zero r Hr) as Ht.
    change (Fmt.group_thousands (PyStr.of_Z 0)) with "0".
    destruct (Qlt_le_dec q 0); simpl; split; intros H;
      try discriminate; injection H as H; contradiction.
  - assert (Hk : (1 <= r / 100)%Z) by (apply Z.div_le_lower_bound; lia).
    destruct (of_Z_head _ Hk) as (c & rest & E & Hc0 & Hcm). rewrite E.
    destruct (group_thousands_head c rest) as (rest' & ->).
    destruct (Qlt_le_dec q 0); simpl; split; intros H;
      try discriminate; injection H; intros; subst; contradiction.
Qed.

(** What the comparator reports as unequal shows as unequal.  For a
    tolerance of 0.005 or more, the default 0.01 among them, the
    difference computed for two numbers that [values_equal] rejects is
    never the text ["0.00"] nor ["-0.00"]. *)
Theorem mismatch_difference_is_visible (g : Globals) (val1 val2 : value) (x y : Q) :
  1 # 200 <= NUMERIC_TOLERANCE g ->
  numeric_value val1 = Some x -> numeric_value val2 = Some y ->
  values_equal g val1 val2 = false ->
  calculate_difference val1 val2 <> "0.00"
  /\ calculate_difference val1 val2 <> "-0.00".
Proof.
  intros Htol Hx Hy Hneq.
  rewrite (values_equal_numeric _ _ _ _ _ Hx Hy) in Hneq.
  unfold Np.within_tol in Hneq.
  assert (Hfar : NUMERIC_TOLERANCE g + Np.rtol * Qabs y < Qabs (x - y)).
  { apply Qnot_le_lt. intros H. apply Qle_bool_iff in H. rewrite H in Hneq. discriminate. }
  destruct (numeric_value_raise _ _ Hx) as (n1 & R1 & Q1 & N1).
  destruct (numeric_value_raise _ _ Hy) as (n2 & R2 & Q2 & N2).
  destruct (sub_to_Q _ _ _ _ Q1 Q2) as (d & Hd & E).
  unfold calculate_difference, Fmt.format_num_2f. rewrite R1, R2, N1, N2, Hd. simpl.
  apply format_2f_not_zero, round_half_even_positive.
  rewrite E.
  pose proof (Qabs_nonneg y) as Habs.
  assert (0 <= Np.rtol * Qabs y) by (apply Qmult_le_0_compat; [discriminate|exact Habs]).
  lra.
Qed.

Lemma mismatch_difference_is_visible_witness :
  calculate_difference (VStr "100.00") (VStr "100.02") <> "0.00"
  /\ calculate_difference (VStr "100.00") (VStr "100.02") <> "-0.00".
Proof.
  apply (mismatch_difference_is_visible default_globals (VStr "100.00") (VStr "100.02")
           (inject_Z 10000 * Qpower (inject_Z 10) (0 - 2))
           (inject_Z 10002 * Qpower (inject_Z 10) (0 - 2))).
  - vm_compute. discriminate.
  - reflexivity.
  - reflexivity.
  - vm_compute. reflexivity.
Defined.
